(** * Flu-shot-learning tutorial notebook: model and properties

    A shallow embedding of [notebooks/0.0-flu-shot-learning-tutorial.ipynb].

    The notebook is a straight line of pandas, numpy and scikit-learn
    calls.  Its code cells become a list of statements over a session
    (the global variables of the kernel, the files on disk and numpy's
    global generator); the right-hand sides are Rocq functions that follow
    the library calls they stand for.  Numbers are real numbers: float64
    rounding is not modelled, a missing value (NaN) is [None].  The two
    numerical routines that are iterative inside scikit-learn, the
    stratified shuffle and the L-BFGS optimiser, are parameters of the
    development; everything the notebook itself decides (which columns,
    which seed, which rows, which order of calls) is written out. *)

From Stdlib Require Import Reals Lra Lia List ZArith Bool Permutation String.
From stdpp Require Import gmap strings.

Local Open Scope string_scope.
Local Open Scope Z_scope.

(** ** Exceptions and results *)

Inductive exception :=
| AssertionError
| FileNotFoundError
| ValueError
| KeyError
| IndexError
| NameError
| TypeError.

Inductive result (A : Type) :=
| Ok (a : A)
| Raise (e : exception).
Arguments Ok {A} a.
Arguments Raise {A} e.

Definition rbind {A B} (r : result A) (k : A -> result B) : result B :=
  match r with
  | Ok a => k a
  | Raise e => Raise e
  end.

Notation "'let*' x ':=' r 'in' k" := (rbind r (fun x => k))
  (at level 10, x name, r at level 100, k at level 200).

Fixpoint rmap {A B} (f : A -> result B) (l : list A) : result (list B) :=
  match l with
  | [] => Ok []
  | a :: l' =>
      let* b := f a in
      let* bs := rmap f l' in
      Ok (b :: bs)
  end.

(** ** Tables (pandas) *)

(** A column carries its dtype: int64, float64 (with NaN) or object. *)
Inductive column :=
| IntCol (v : list Z)
| FloatCol (v : list (option R))
| ObjCol (v : list (option string)).

Definition is_object (c : column) : bool :=
  match c with ObjCol _ => true | _ => false end.

(** A frame read with [index_col="respondent_id"]: the key column is held
    apart from the data columns; the respondent identifier is an integer. *)
Record DataFrame := {
  index_name : string;
  index : list Z;
  columns : list (string * column)
}.

Definition column_names (df : DataFrame) : list string :=
  map fst (columns df).

Fixpoint get_column (name : string) (cols : list (string * column))
  : option column :=
  match cols with
  | [] => None
  | (n, c) :: cols' =>
      if String.eqb n name then Some c else get_column name cols'
  end.

(** [df[name]] *)
Definition getitem (df : DataFrame) (name : string) : result column :=
  match get_column name (columns df) with
  | Some c => Ok c
  | None => Raise KeyError
  end.

(** [df[[n1, ..., nk]]] *)
Definition getitems (df : DataFrame) (names : list string)
  : result (list column) :=
  rmap (getitem df) names.

(** Where a column has a value: [notna()]. *)
Definition observed_at (c : column) : list bool :=
  match c with
  | IntCol v => map (fun _ => true) v
  | FloatCol v => map (fun o => match o with Some _ => true | None => false end) v
  | ObjCol v => map (fun o => match o with Some _ => true | None => false end) v
  end.

Definition has_column (name : string) (cols : list (string * column)) : bool :=
  existsb (fun nc => String.eqb (fst nc) name) cols.

(** [df[name] = values] with a numpy array on the right: a column of that
    name is overwritten where it stands, a new name is appended; an array
    whose length is not the frame's raises. *)
Definition set_column (name : string) (c : column)
    (cols : list (string * column)) : list (string * column) :=
  if has_column name cols
  then map (fun nc => if String.eqb (fst nc) name then (fst nc, c) else nc) cols
  else cols ++ [(name, c)].

Definition setitem (df : DataFrame) (name : string) (values : list R)
  : result DataFrame :=
  if Nat.eqb (length values) (length (index df))
  then Ok {| index_name := index_name df;
             index := index df;
             columns := set_column name (FloatCol (map Some values))
                          (columns df) |}
  else Raise ValueError.

(** Row selection by position, [df.iloc[rows]]. *)
Fixpoint take {A} (rows : list nat) (l : list A) : result (list A) :=
  match rows with
  | [] => Ok []
  | i :: rows' =>
      match nth_error l i with
      | Some a => let* t := take rows' l in Ok (a :: t)
      | None => Raise IndexError
      end
  end.

Definition take_column (rows : list nat) (c : column) : result column :=
  match c with
  | IntCol v => let* w := take rows v in Ok (IntCol w)
  | FloatCol v => let* w := take rows v in Ok (FloatCol w)
  | ObjCol v => let* w := take rows v in Ok (ObjCol w)
  end.

Definition iloc (df : DataFrame) (rows : list nat) : result DataFrame :=
  let* idx := take rows (index df) in
  let* cols := rmap (fun nc => let* c := take_column rows (snd nc) in
                               Ok (fst nc, c)) (columns df) in
  Ok {| index_name := index_name df; index := idx; columns := cols |}.

(** Reindexing the right-hand frame of a join: a row without a partner
    is NaN, which turns an int64 column into float64. *)
Definition all_some {A} (l : list (option A)) : bool :=
  forallb (fun o => match o with Some _ => true | None => false end) l.

Definition pick {A} (l : list A) (j : option nat) : option A :=
  match j with Some i => nth_error l i | None => None end.

Definition reindex_column (rows : list (option nat)) (c : column) : column :=
  match c with
  | IntCol v =>
      let picked := map (pick v) rows in
      if all_some picked
      then IntCol (map (fun o => match o with Some z => z | None => 0 end)
                       picked)
      else FloatCol (map (option_map IZR) picked)
  | FloatCol v =>
      FloatCol (map (fun j => match pick v j with
                              | Some x => x
                              | None => None
                              end) rows)
  | ObjCol v =>
      ObjCol (map (fun j => match pick v j with
                            | Some x => x
                            | None => None
                            end) rows)
  end.

Fixpoint positions_of (k : Z) (keys : list Z) (from : nat) : list nat :=
  match keys with
  | [] => []
  | k' :: keys' =>
      if Z.eqb k' k then from :: positions_of k keys' (S from)
      else positions_of k keys' (S from)
  end.

(** The row pairs of a left join on the index. *)
Fixpoint left_pairs (lkeys : list Z) (from : nat) (rkeys : list Z)
  : list (nat * option nat) :=
  match lkeys with
  | [] => []
  | k :: lkeys' =>
      match positions_of k rkeys 0 with
      | [] => [(from, None)]
      | js => map (fun j => (from, Some j)) js
      end ++ left_pairs lkeys' (S from) rkeys
  end.

(** [left.join(right)]: left join on the index; overlapping column names
    raise because no suffix is given. *)
Definition join (left right : DataFrame) : result DataFrame :=
  if existsb (fun n => has_column n (columns right)) (column_names left)
  then Raise ValueError
  else
    let pairs := left_pairs (index left) 0 (index right) in
    let* l := iloc left (map fst pairs) in
    Ok {| index_name := index_name left;
          index := index l;
          columns := columns l ++
            map (fun nc => (fst nc, reindex_column (map snd pairs) (snd nc)))
                (columns right) |}.

(** [pd.DataFrame({name: array, ...}, index=idx)] *)
Definition DataFrame_of (cols : list (string * list R)) (idx_name : string)
    (idx : list Z) : result DataFrame :=
  if forallb (fun nc => Nat.eqb (length (snd nc)) (length idx)) cols
  then Ok {| index_name := idx_name; index := idx;
             columns := map (fun nc => (fst nc, FloatCol (map Some (snd nc))))
                            cols |}
  else Raise ValueError.

(** [np.testing.assert_array_equal] on two index arrays: same shape and
    the same key at every position. *)
Definition assert_array_equal (a b : list Z) : result unit :=
  if bool_decide (a = b) then Ok tt else Raise AssertionError.

(** ** Arrays of numbers (numpy) *)

Definition Rsum (l : list R) : R := fold_right Rplus 0%R l.

(** The entries that are not NaN. *)
Fixpoint observed (l : list (option R)) : list R :=
  match l with
  | [] => []
  | Some x :: l' => x :: observed l'
  | None :: l' => observed l'
  end.

Definition mean (xs : list R) : R := (Rsum xs / INR (length xs))%R.

Definition nanmean (l : list (option R)) : option R :=
  match observed l with
  | [] => None
  | xs => Some (mean xs)
  end.

Definition nanvar (l : list (option R)) : option R :=
  match observed l with
  | [] => None
  | xs => Some (mean (map (fun x => ((x - mean xs) * (x - mean xs))%R) xs))
  end.

Fixpoint insert_sorted (x : R) (l : list R) : list R :=
  match l with
  | [] => [x]
  | y :: l' => if Rle_dec x y then x :: y :: l' else y :: insert_sorted x l'
  end.

Definition sort (l : list R) : list R := fold_right insert_sorted [] l.

(** [np.median]: the middle of the sorted values, the mean of the two
    middle ones when their number is even; NaN on an empty array. *)
Definition median (xs : list R) : option R :=
  let s := sort xs in
  let n := length xs in
  match n with
  | O => None
  | _ => Some (if Nat.even n
               then ((nth (n / 2 - 1) s 0 + nth (n / 2) s 0) / 2)%R
               else nth (n / 2) s 0%R)
  end.

Definition nanmedian (l : list (option R)) : option R := median (observed l).

(** [np.unique]: the distinct values in increasing order. *)
Section Unique.
Context {A : Type} (ltb eqb : A -> A -> bool).

Fixpoint insert_unique (a : A) (l : list A) : list A :=
  match l with
  | [] => [a]
  | b :: l' =>
      if ltb a b then a :: l
      else if eqb a b then l
      else b :: insert_unique a l'
  end.

Definition unique (l : list A) : list A := fold_right insert_unique [] l.

Fixpoint position (a : A) (l : list A) : nat :=
  match l with
  | [] => O
  | b :: l' => if eqb a b then O else S (position a l')
  end.
End Unique.

Definition is_whole (x : R) : bool :=
  if Req_dec_T (IZR (Int_part x)) x then true else false.

(** ** Preprocessing (scikit-learn) *)

(** What the transformers accept as a numeric array. *)
Definition to_float (c : column) : result (list (option R)) :=
  match c with
  | IntCol v => Ok (map (fun z => Some (IZR z)) v)
  | FloatCol v => Ok v
  | ObjCol _ => Raise ValueError
  end.

(** [StandardScaler]: mean and standard deviation of the observed values
    of a column, a zero deviation replaced by one; NaN stays NaN. *)
Definition handle_zeros_in_scale (s : R) : R :=
  if Req_dec_T s 0 then 1%R else s.

Definition scaler_fit (c : list (option R)) : option (R * R) :=
  match nanmean c, nanvar c with
  | Some m, Some v => Some (m, handle_zeros_in_scale (sqrt v))
  | _, _ => None
  end.

Definition scale_value (p : R * R) (x : R) : R := ((x - fst p) / snd p)%R.

Definition scaler_transform (p : option (R * R)) (c : list (option R))
  : list (option R) :=
  map (fun x => match x, p with
                | Some v, Some ms => Some (scale_value ms v)
                | _, _ => None
                end) c.

(** [SimpleImputer(strategy='median')]: the statistic is the median of the
    observed values it is fitted on; a column with none has no statistic
    and is left out of the output. *)
Definition imputer_fit (c : list (option R)) : option R := nanmedian c.

Definition impute_value (med : R) (x : option R) : R :=
  match x with Some v => v | None => med end.

Definition imputer_transform (stat : option R) (c : list (option R))
  : option (list R) :=
  match stat with
  | Some med => Some (map (impute_value med) c)
  | None => None
  end.

(** [numeric_preprocessing_steps]: the scaler, then the imputer on the
    scaler's output. *)
Record numeric_step := {
  scaler_ : option (R * R);
  statistic_ : option R
}.

Definition numeric_fit (c : list (option R)) : numeric_step :=
  let p := scaler_fit c in
  {| scaler_ := p; statistic_ := imputer_fit (scaler_transform p c) |}.

Definition numeric_transform (st : numeric_step) (c : list (option R))
  : option (list R) :=
  imputer_transform (statistic_ st) (scaler_transform (scaler_ st) c).

Fixpoint transform_columns (steps : list numeric_step)
    (cols : list (list (option R))) : list (list R) :=
  match steps, cols with
  | st :: steps', c :: cols' =>
      match numeric_transform st c with
      | Some v => v :: transform_columns steps' cols'
      | None => transform_columns steps' cols'
      end
  | _, _ => []
  end.

(** [ColumnTransformer([("numeric", ..., numeric_cols)], remainder="drop")]:
    the listed columns, by name, and nothing else. *)
Definition select_columns (names : list string) (df : DataFrame)
  : result (list (list (option R))) :=
  rmap (fun n => match get_column n (columns df) with
                 | Some c => to_float c
                 | None => Raise ValueError
                 end) names.

(** The sample rows of a column-major array with [n] samples. *)
Definition rows_of (n : nat) (cols : list (list R)) : list (list R) :=
  map (fun i => map (fun c => nth i c 0%R) cols) (seq 0 n).

(** An estimator refuses an array without samples or without features. *)
Definition check_array (n : nat) (cols : list (list R))
  : result (list (list R)) :=
  match n, cols with
  | O, _ => Raise ValueError
  | _, [] => Raise ValueError
  | _, _ => Ok (rows_of n cols)
  end.

(** ** Logistic regression (scikit-learn) *)

Definition dot (w x : list R) : R :=
  Rsum (map (fun p => (fst p * snd p)%R) (combine w x)).

Definition decision_function (w : list R * R) (x : list R) : R :=
  (dot (fst w) x + snd w)%R.

Definition expit (z : R) : R := (1 / (1 + exp (- z)))%R.

Definition softmax (zs : list R) : list R :=
  let e := map exp zs in map (fun a => (a / Rsum e)%R) e.

Record LogisticRegression := {
  n_classes : nat;
  coef_ : list (list R * R)
}.

(** One row of [predict_proba]: for two classes the pair of the logistic
    function's complement and value, otherwise the softmax. *)
Definition predict_proba_row (m : LogisticRegression) (x : list R) : list R :=
  if Nat.eqb (n_classes m) 2
  then let z := decision_function (hd ([], 0%R) (coef_ m)) x in
       [(1 - expit z)%R; expit z]
  else softmax (map (fun w => decision_function w x) (coef_ m)).

(** The class labels of a target column as integers: NaN and fractional
    values are refused. *)
Definition int_labels (c : column) : result (list Z) :=
  match c with
  | IntCol v => Ok v
  | FloatCol v =>
      if all_some v && forallb is_whole (observed v)
      then Ok (map Int_part (observed v))
      else Raise ValueError
  | ObjCol _ => Raise ValueError
  end.

(** The label encoding of a target column: how many classes, and the
    class number of every sample. *)
Definition encode_labels (c : column) : result (nat * list nat) :=
  match c with
  | ObjCol v =>
      if all_some v
      then let names := omap (fun o => o) v in
           let classes := unique String.ltb String.eqb names in
           Ok (length classes,
               map (fun s => position String.eqb s classes) names)
      else Raise ValueError
  | _ =>
      let* ys := int_labels c in
      let classes := unique Z.ltb Z.eqb ys in
      Ok (length classes, map (fun y => position Z.eqb y classes) ys)
  end.

(** ** ROC curve and its area (scikit-learn metrics) *)

(** The distinct scores in decreasing order: the thresholds of the curve. *)
Fixpoint insert_desc (x : R) (l : list R) : list R :=
  match l with
  | [] => [x]
  | y :: l' =>
      if Rlt_le_dec y x then x :: l
      else if Req_dec_T x y then l
      else y :: insert_desc x l'
  end.

Definition thresholds (scores : list R) : list R :=
  fold_right insert_desc [] scores.

(** A sample is its label (positive or not) and its score. *)
Definition count_if (f : bool * R -> bool) (samples : list (bool * R)) : nat :=
  length (List.filter f samples).

Definition geb (t : R) (s : R) : bool := if Rle_dec t s then true else false.
Definition gtb (t : R) (s : R) : bool := if Rlt_le_dec t s then true else false.
Definition eqb_R (t : R) (s : R) : bool :=
  if Req_dec_T t s then true else false.

(** True and false positives when everything scored at least [t] is
    called positive. *)
Definition tps (samples : list (bool * R)) (t : R) : nat :=
  count_if (fun p => fst p && geb t (snd p)) samples.
Definition fps (samples : list (bool * R)) (t : R) : nat :=
  count_if (fun p => negb (fst p) && geb t (snd p)) samples.

Definition n_pos (samples : list (bool * R)) : nat :=
  count_if (fun p => fst p) samples.
Definition n_neg (samples : list (bool * R)) : nat :=
  count_if (fun p => negb (fst p)) samples.

(** The curve: the origin, then one (fpr, tpr) point per threshold.
    ([roc_curve] also leaves out points that lie on the segment between
    their neighbours, which changes neither the curve nor its area.) *)
Definition roc_points (samples : list (bool * R)) : list (R * R) :=
  (0%R, 0%R) ::
  map (fun t => ((INR (fps samples t) / INR (n_neg samples))%R,
                 (INR (tps samples t) / INR (n_pos samples))%R))
      (thresholds (map snd samples)).

(** [np.trapz(y, x)] over the points. *)
Fixpoint trapz (pts : list (R * R)) : R :=
  match pts with
  | p :: (q :: _) as rest =>
      ((fst q - fst p) * (snd q + snd p) / 2 + trapz rest)%R
  | _ => 0%R
  end.

Definition auc (samples : list (bool * R)) : R := trapz (roc_points samples).

Definition subset_of (allowed : list Z) (l : list Z) : bool :=
  forallb (fun z => existsb (Z.eqb z) allowed) l.

(** [roc_curve(y_true, y_score)] without [pos_label]: the labels have to
    be among {0, 1} or among {-1, 1}, and 1 is the positive one.  With a
    single class present numpy divides by zero here and the caller's
    [roc_auc_score] then raises. *)
Definition roc_curve (y_true : list Z) (y_score : list R)
  : result (list (R * R)) :=
  if negb (Nat.eqb (length y_true) (length y_score)) then Raise ValueError
  else if subset_of [0; 1] y_true || subset_of [-1; 1] y_true
  then Ok (roc_points (combine (map (Z.eqb 1) y_true) y_score))
  else Raise ValueError.

Definition binary_roc_auc_score (y_true : list Z) (y_score : list R)
  : result R :=
  if negb (Nat.eqb (length (unique Z.ltb Z.eqb y_true)) 2) then Raise ValueError
  else let* pts := roc_curve y_true y_score in Ok (trapz pts).

(** [roc_auc_score] on one binary target: the labels are binarized first,
    the greater class is the positive one. *)
Definition roc_auc_score (y_true : list Z) (y_score : list R) : result R :=
  match unique Z.ltb Z.eqb y_true with
  | [_; c1] => binary_roc_auc_score
                 (map (fun y => if Z.eqb y c1 then 1 else 0) y_true) y_score
  | _ => Raise ValueError
  end.

(** [roc_auc_score] on a label-indicator table: one score per column of
    [y_score], in turn, each against the column of [y_true] at its
    position, and their mean.  Label columns beyond the score columns
    are not looked at; a score column without a label column is an index
    out of bounds. *)
Fixpoint column_scores (y_true : list (list Z)) (y_score : list (list R))
  : result (list R) :=
  match y_score with
  | [] => Ok []
  | s :: y_score' =>
      match y_true with
      | [] => Raise IndexError
      | y :: y_true' =>
          let* a := binary_roc_auc_score y s in
          let* rest := column_scores y_true' y_score' in
          Ok (a :: rest)
      end
  end.

Definition roc_auc_score_multilabel (y_true : list (list Z))
    (y_score : list (list R)) : result R :=
  if Nat.ltb 2 (length (unique Z.ltb Z.eqb (concat y_true)))
  then Raise ValueError
  else
    let* scores := column_scores y_true y_score in
    Ok (mean scores).

(** ** The estimator pipeline *)

Record FittedPipeline := {
  numeric_ : list numeric_step;
  estimators_ : list LogisticRegression
}.

(** [full_pipeline]: the column transformer's column list and, once
    fitted, what fitting learnt. *)
Record Pipeline := {
  columns_ : list string;
  fitted_ : option FittedPipeline
}.

(** What a global variable of the kernel can hold. *)
Inductive value :=
| VFrame (df : DataFrame)
| VNames (names : list string)
| VInt (z : Z)
| VPath (p : string)
| VPipeline (p : Pipeline)
| VProbas (a : list (list (list R)))
| VOther.

(** ** The files of the competition

    [DATA_PATH] is [../data/raw] seen from the notebook's directory. *)

Definition training_set_features : string :=
  "../data/raw/training_set_features.csv".

Definition training_set_labels : string :=
  "../data/raw/training_set_labels.csv".

Definition test_set_features : string :=
  "../data/raw/test_set_features.csv".

Definition submission_format : string :=
  "../data/raw/submission_format.csv".

Definition OUTPUT_DATA_PATH : string := "../data/processed/my_submission.csv".

(** ** Notions the properties are stated with *)

(** A result that is not an [AssertionError]. *)
Definition quiet {A} (r : result A) : Prop := r <> Raise AssertionError.

(** Two feature tables with the same rows and the same columns by name
    and dtype, equal on every column that is not of dtype object. *)
Definition same_numeric (X X' : DataFrame) : Prop :=
  length (index X) = length (index X') /\
  Forall2 (fun nc nc' =>
             fst nc = fst nc' /\
             is_object (snd nc) = is_object (snd nc') /\
             (is_object (snd nc) = false -> snd nc = snd nc'))
          (columns X) (columns X').

Definition unit_interval (x : R) : Prop := (0 <= x <= 1)%R.

Definition probas_ok (a : list (list (list R))) : Prop :=
  Forall (Forall (Forall unit_interval)) a.

(** A decreasing list: the head is above everything that follows. *)
Fixpoint decreasing (l : list R) : Prop :=
  match l with
  | [] => True
  | x :: l' => (forall y, In y l' -> (y < x)%R) /\ decreasing l'
  end.

Definition pos_with (phi : R -> bool) (samples : list (bool * R)) : nat :=
  count_if (fun p => fst p && phi (snd p)) samples.

Definition neg_with (phi : R -> bool) (samples : list (bool * R)) : nat :=
  count_if (fun p => negb (fst p) && phi (snd p)) samples.

(** What one negative sample adds to the Mann-Whitney count: the
    positives scored above it, and half of those scored the same. *)
Definition wins (samples : list (bool * R)) (s : R) : R :=
  (INR (pos_with (gtb s) samples) + INR (pos_with (eqb_R s) samples) / 2)%R.

Definition mann_whitney (samples : list (bool * R)) : R :=
  Rsum (map (fun p : bool * R => if fst p then 0%R else wins samples (snd p))
            samples).

(** The area under the curve before the division by the two class sizes,
    from a point with [pn] false and [pp] true positives on. *)
Fixpoint area2 (samples : list (bool * R)) (pn pp : R) (T : list R) : R :=
  match T with
  | [] => 0%R
  | t :: T' =>
      ((INR (fps samples t) - pn) * (INR (tps samples t) + pp) / 2
       + area2 samples (INR (fps samples t)) (INR (tps samples t)) T')%R
  end.

(** What the negatives scored [u] add to the Mann-Whitney count. *)
Definition group (samples : list (bool * R)) (u : R) : R :=
  (INR (neg_with (eqb_R u) samples) * wins samples u)%R.

Definition delta (s u : R) : R := if eqb_R u s then 1%R else 0%R.

(** Every positive sample is scored above every negative one. *)
Definition separated (samples : list (bool * R)) : Prop :=
  forall p q, In p samples -> In q samples ->
              fst p = true -> fst q = false -> (snd q < snd p)%R.

(** The scores mirrored in 1/2. *)
Definition reflect (samples : list (bool * R)) : list (bool * R) :=
  map (fun p => (fst p, (1 - snd p)%R)) samples.

(** A 0/1 target, and its samples. *)
Definition binary (y : list Z) : Prop := forall z, In z y -> z = 0 \/ z = 1.

Definition labelled (y_true : list Z) (y_score : list R) : list (bool * R) :=
  combine (map (Z.eqb 1) y_true) y_score.

(** The same on a target and its scores, position by position. *)
Definition perfect_ranking (y_true : list Z) (y_score : list R) : Prop :=
  forall i j si sj,
    nth_error y_true i = Some 1 -> nth_error y_true j = Some 0 ->
    nth_error y_score i = Some si -> nth_error y_score j = Some sj ->
    (sj < si)%R.

(** The [m + 1] evenly spaced levels of [0, 1]. *)
Definition grid (m : nat) : list R :=
  map (fun k => (INR k / INR m)%R) (seq 0 (S m)).

(** Every way of giving [n] samples a score among the levels of [G]. *)
Fixpoint vectors (n : nat) (G : list R) : list (list R) :=
  match n with
  | O => [[]]
  | S n' => flat_map (fun x => map (cons x) (vectors n' G)) G
  end.

(** ** A small survey to run the notebook on *)

Definition whole (l : list Z) : column :=
  FloatCol (map (fun z => Some (IZR z)) l).

Definition demo_features : DataFrame :=
  {| index_name := "respondent_id";
     index := [0; 1; 2; 3; 4; 5];
     columns :=
       [ ("h1n1_concern",
          FloatCol [Some 1%R; None; Some 2%R; Some 0%R; Some 3%R; Some 1%R]);
         ("h1n1_knowledge", IntCol [1; 0; 2; 1; 0; 2]);
         ("opinion_h1n1_vacc_effective", whole [3; 5; 3; 3; 4; 5]);
         ("opinion_h1n1_risk", whole [1; 4; 1; 3; 3; 2]);
         ("opinion_h1n1_sick_from_vacc", whole [2; 4; 1; 5; 2; 1]);
         ("opinion_seas_vacc_effective", whole [2; 4; 4; 5; 3; 5]);
         ("opinion_seas_risk", whole [1; 2; 1; 4; 1; 4]);
         ("opinion_seas_sick_from_vacc", whole [2; 4; 2; 1; 4; 4]);
         ("sex", ObjCol [Some "Female"; Some "Male"; Some "Male";
                         Some "Female"; Some "Female"; Some "Male"]);
         ("age_group", ObjCol [Some "55 - 64 Years"; Some "35 - 44 Years";
                               Some "18 - 34 Years"; Some "65+ Years";
                               Some "45 - 54 Years"; Some "65+ Years"]);
         ("race", ObjCol [Some "White"; Some "White"; Some "Black";
                          Some "White"; None; Some "Hispanic"]) ] |}.

Definition demo_labels : DataFrame :=
  {| index_name := "respondent_id";
     index := [0; 1; 2; 3; 4; 5];
     columns := [ ("h1n1_vaccine", IntCol [0; 1; 0; 1; 0; 1]);
                  ("seasonal_vaccine", IntCol [1; 0; 0; 1; 1; 0]) ] |}.

Definition demo_test : DataFrame :=
  {| index_name := "respondent_id";
     index := [6; 7];
     columns :=
       [ ("h1n1_concern", FloatCol [None; Some 2%R]);
         ("h1n1_knowledge", IntCol [2; 1]);
         ("opinion_h1n1_vacc_effective", whole [4; 5]);
         ("opinion_h1n1_risk", whole [2; 2]);
         ("opinion_h1n1_sick_from_vacc", whole [1; 4]);
         ("opinion_seas_vacc_effective", whole [5; 4]);
         ("opinion_seas_risk", whole [3; 1]);
         ("opinion_seas_sick_from_vacc", whole [1; 2]);
         ("sex", ObjCol [Some "Male"; Some "Female"]);
         ("age_group", ObjCol [Some "18 - 34 Years"; Some "65+ Years"]);
         ("race", ObjCol [Some "White"; Some "Black"]) ] |}.

Definition demo_format : DataFrame :=
  {| index_name := "respondent_id";
     index := [6; 7];
     columns := [ ("h1n1_vaccine", FloatCol [Some (1 / 2)%R; Some (1 / 2)%R]);
                  ("seasonal_vaccine",
                   FloatCol [Some (7 / 10)%R; Some (7 / 10)%R]) ] |}.

(** The template with its two rows the other way round. *)
Definition demo_format_swapped : DataFrame :=
  {| index_name := "respondent_id";
     index := [7; 6];
     columns := columns demo_format |}.

(** The labels with their first two rows the other way round. *)
Definition demo_labels_swapped : DataFrame :=
  {| index_name := "respondent_id";
     index := [1; 0; 2; 3; 4; 5];
     columns := columns demo_labels |}.

(** Two rows of features, and the same with other answers in the object
    column. *)
Definition demo_features_short : DataFrame :=
  {| index_name := "respondent_id";
     index := [0; 1];
     columns := [ ("h1n1_knowledge", IntCol [1; 0]);
                  ("sex", ObjCol [Some "Female"; Some "Male"]) ] |}.

Definition demo_features_other_sex : DataFrame :=
  {| index_name := "respondent_id";
     index := [0; 1];
     columns := [ ("h1n1_knowledge", IntCol [1; 0]);
                  ("sex", ObjCol [Some "Male"; None]) ] |}.

Definition demo_disk_with (template : DataFrame) : gmap string DataFrame :=
  <[training_set_features := demo_features]>
    (<[training_set_labels := demo_labels]>
       (<[test_set_features := demo_test]>
          (<[submission_format := template]> ∅))).

Definition demo_disk : gmap string DataFrame := demo_disk_with demo_format.

(** A generator that is its seed, a split that takes the first rows for
    training and the rest for evaluation after rotating the rows by the
    generator's state, and a fit that returns zero coefficients. *)
Definition demo_split (g : Z) (stratify : DataFrame) (n_train n_test : nat)
  : option (list nat * list nat) :=
  let n := (n_train + n_test)%nat in
  let rows := map (fun i => ((i + Z.to_nat g) mod n)%nat) (seq 0 n) in
  Some (firstn n_train rows, skipn n_train rows).

Definition demo_lbfgs (X : list (list R)) (y : list nat) (k : nat)
  : list (list R * R) :=
  repeat ([], 0%R) (if Nat.eqb k 2 then 1 else k).

(** A strictly ascending list of integers. *)
Fixpoint ascending (l : list Z) : Prop :=
  match l with
  | [] => True
  | x :: l' => (forall y, In y l' -> x < y) /\ ascending l'
  end.

(** A list without a repetition. *)
Fixpoint distinct {A} (l : list A) : Prop :=
  match l with
  | [] => True
  | x :: l' => ~ In x l' /\ distinct l'
  end.

(** A table all of whose columns have one entry per row. *)
Definition column_length (c : column) : nat :=
  match c with
  | IntCol v => length v
  | FloatCol v => length v
  | ObjCol v => length v
  end.

Definition rectangular (df : DataFrame) : Prop :=
  Forall (fun nc => column_length (snd nc) = length (index df)) (columns df).

(** The preprocessing of the numeric columns as the specification words
    it, to compare the pipeline with.  For one column: a missing value
    is filled with the median of the column's observed training values,
    and the column is standardised with the mean and the standard
    deviation of those values; a column without an observed training
    value has no median and is left out. *)
Definition median_filled_standardised (train c : list (option R))
  : option (list R) :=
  match median (observed train), scaler_fit train with
  | Some m, Some p =>
      Some (map (fun x => scale_value p (match x with
                                         | Some v => v
                                         | None => m
                                         end)) c)
  | _, _ => None
  end.

Fixpoint spec_preprocess (train cols : list (list (option R)))
  : list (list R) :=
  match train, cols with
  | t :: train', c :: cols' =>
      match median_filled_standardised t c with
      | Some v => v :: spec_preprocess train' cols'
      | None => spec_preprocess train' cols'
      end
  | _, _ => []
  end.

(** The four tables the notebook reads, and two disks that hold the same
    ones. *)
Definition input_paths : list string :=
  [training_set_features; training_set_labels; test_set_features;
   submission_format].

Definition same_inputs (d d' : gmap string DataFrame) : Prop :=
  forall p, In p input_paths -> d !! p = d' !! p.

(** The respondents of the first table a call returns. *)
Definition first_index (r : result (list value)) : list Z :=
  match r with
  | Ok (VFrame df :: _) => index df
  | _ => []
  end.

Section Notebook.

(** numpy's generator, scikit-learn's stratified shuffle (the train and
    the test positions, or a refusal) and its L-BFGS fit of an
    L2-penalised logistic regression with [C = 1] (samples, class
    numbers, number of classes; one row of coefficients with its
    intercept). *)
Variable RandomState : Type.
Variable RandomState_of_seed : Z -> RandomState.
Variable StratifiedShuffleSplit :
  RandomState -> DataFrame -> nat -> nat -> option (list nat * list nat).
Variable lbfgs : list (list R) -> list nat -> nat -> list (list R * R).

(** The kernel's variables, the files on disk and numpy's global
    generator. *)
Record session := {
  globals : gmap string value;
  files : gmap string DataFrame;
  np_random : RandomState
}.

Definition bind_var (x : string) (v : value) (s : session) : session :=
  {| globals := <[x := v]> (globals s);
     files := files s;
     np_random := np_random s |}.

Definition write_file (path : string) (df : DataFrame) (s : session)
  : session :=
  {| globals := globals s;
     files := <[path := df]> (files s);
     np_random := np_random s |}.

Definition var (s : session) (x : string) : result value :=
  match globals s !! x with
  | Some v => Ok v
  | None => Raise NameError
  end.

Definition var_frame (s : session) (x : string) : result DataFrame :=
  let* v := var s x in
  match v with VFrame df => Ok df | _ => Raise TypeError end.

Definition var_names (s : session) (x : string) : result (list string) :=
  let* v := var s x in
  match v with VNames l => Ok l | _ => Raise TypeError end.

Definition var_int (s : session) (x : string) : result Z :=
  let* v := var s x in
  match v with VInt z => Ok z | _ => Raise TypeError end.

Definition var_path (s : session) (x : string) : result string :=
  let* v := var s x in
  match v with VPath p => Ok p | _ => Raise TypeError end.

Definition var_pipeline (s : session) (x : string) : result Pipeline :=
  let* v := var s x in
  match v with VPipeline p => Ok p | _ => Raise TypeError end.

Definition var_probas (s : session) (x : string)
  : result (list (list (list R))) :=
  let* v := var s x in
  match v with VProbas a => Ok a | _ => Raise TypeError end.

(** *** Library calls that read the session *)

Definition path_join (dir name : string) : string := dir ++ "/" ++ name.

(** [pd.read_csv(path, index_col=key)] *)
Definition read_csv (s : session) (path key : string) : result DataFrame :=
  match files s !! path with
  | None => Raise FileNotFoundError
  | Some df => if String.eqb (index_name df) key then Ok df
               else Raise ValueError
  end.

(** [check_random_state]: an integer seeds a generator of its own, [None]
    is numpy's global one. *)
Definition check_random_state (seed : option Z) (s : session) : RandomState :=
  match seed with
  | Some k => RandomState_of_seed k
  | None => np_random s
  end.

(** [train_test_split(X, y, test_size=0.33, shuffle=True, stratify=..,
    random_state=..)] *)
Definition n_test_of (n : nat) : nat := (33 * n + 99) / 100.

Definition train_test_split (s : session) (X y stratify : DataFrame)
    (random_state : option Z) : result (list value) :=
  let n := length (index X) in
  if negb (Nat.eqb (length (index y)) n) then Raise ValueError
  else
    let n_test := n_test_of n in
    let n_train := (n - n_test)%nat in
    if Nat.eqb n_train 0 then Raise ValueError
    else
      match StratifiedShuffleSplit (check_random_state random_state s)
              stratify n_train n_test with
      | None => Raise ValueError
      | Some (train, test) =>
          let* X_train := iloc X train in
          let* X_test := iloc X test in
          let* y_train := iloc y train in
          let* y_test := iloc y test in
          Ok [VFrame X_train; VFrame X_test; VFrame y_train; VFrame y_test]
      end.

(** [LogisticRegression(penalty="l2", C=1).fit] on one target column *)
Definition fit_target (X : list (list R)) (target : column)
  : result LogisticRegression :=
  let* ky := encode_labels target in
  if Nat.ltb (fst ky) 2 then Raise ValueError
  else Ok {| n_classes := fst ky; coef_ := lbfgs X (snd ky) (fst ky) |}.

(** [full_pipeline.fit(X, y)]: the preprocessor is fitted on the selected
    columns and applied to them, then one classifier is fitted per
    target column. *)
Definition fit (p : Pipeline) (X y : DataFrame) : result Pipeline :=
  let* cols := select_columns (columns_ p) X in
  let steps := map numeric_fit cols in
  let* rows := check_array (length (index X)) (transform_columns steps cols) in
  if negb (Nat.eqb (length (index y)) (length (index X))) then Raise ValueError
  else
    let* models := rmap (fun nc => fit_target rows (snd nc)) (columns y) in
    Ok {| columns_ := columns_ p;
          fitted_ := Some {| numeric_ := steps; estimators_ := models |} |}.

(** [full_pipeline.predict_proba(X)]: one array per target, one row per
    sample, one probability per class. *)
Definition predict_proba (p : Pipeline) (X : DataFrame)
  : result (list (list (list R))) :=
  match fitted_ p with
  | None => Raise ValueError
  | Some f =>
      let* cols := select_columns (columns_ p) X in
      let* rows := check_array (length (index X))
                     (transform_columns (numeric_ f) cols) in
      Ok (map (fun m => map (predict_proba_row m) rows) (estimators_ f))
  end.

(** [probas[k]] *)
Definition item (probas : list (list (list R))) (k : nat)
  : result (list (list R)) :=
  match nth_error probas k with
  | Some a => Ok a
  | None => Raise IndexError
  end.

(** [probas[k][:, 1]] *)
Definition class_1 (probas : list (list (list R))) (k : nat)
  : result (list R) :=
  match nth_error probas k with
  | None => Raise IndexError
  | Some a => rmap (fun row => match nth_error row 1 with
                               | Some x => Ok x
                               | None => Raise IndexError
                               end) a
  end.

(** The scores of a prediction column: the numbers, none missing. *)
Definition scores_of (c : column) : result (list R) :=
  let* v := to_float c in
  if all_some v then Ok (observed v) else Raise ValueError.

(** *** The notebook's own functions *)

(** [vaccination_rate_plot(col, target, data, ax)]: its body reads the
    global [joined_df], whatever [data] is.  It takes the two columns,
    counts the rows by their pair of values ([groupby] leaves out a row
    with a missing value in either), and draws the proportions: grouping
    by one column twice is refused, and so is drawing when no row is
    left to count. *)
Definition vaccination_rate_plot (col target : string) (data : DataFrame)
    (s : session) : result unit :=
  let* joined := var_frame s "joined_df" in
  let* t := getitem joined target in
  let* c := getitem joined col in
  if String.eqb target col then Raise ValueError
  else if existsb (fun p => fst p && snd p)
            (combine (observed_at t) (observed_at c))
  then Ok tt
  else Raise TypeError.

(** [plot_roc(y_true, y_score, label_name, ax)] *)
Definition plot_roc (y_true y_score : column) : result unit :=
  let* y := int_labels y_true in
  let* sc := scores_of y_score in
  let* _ := roc_curve y sc in
  let* _ := roc_auc_score y sc in
  Ok tt.

(** *** Statements *)

Inductive stmt :=
| Assign (x : string) (e : session -> result value)
| Unpack (xs : list string) (e : session -> result (list value))
| Expr (e : session -> result unit)
| SetItem (x col : string) (e : session -> result (list R))
| ToCsv (x : string) (path : session -> result string).

Fixpoint bind_vars (xs : list string) (vs : list value) (s : session)
  : session :=
  match xs, vs with
  | x :: xs', v :: vs' => bind_vars xs' vs' (bind_var x v s)
  | _, _ => s
  end.

(** One statement: the exception it raises, if any, and the session it
    leaves.  A statement that raises leaves the session as it found it. *)
Definition exec (c : stmt) (s : session) : option exception * session :=
  match c with
  | Assign x e =>
      match e s with
      | Ok v => (None, bind_var x v s)
      | Raise ex => (Some ex, s)
      end
  | Unpack xs e =>
      match e s with
      | Ok vs => if Nat.eqb (length vs) (length xs)
                 then (None, bind_vars xs vs s)
                 else (Some ValueError, s)
      | Raise ex => (Some ex, s)
      end
  | Expr e =>
      match e s with
      | Ok _ => (None, s)
      | Raise ex => (Some ex, s)
      end
  | SetItem x col e =>
      match (let* values := e s in
             let* df := var_frame s x in
             setitem df col values) with
      | Ok df' => (None, bind_var x (VFrame df') s)
      | Raise ex => (Some ex, s)
      end
  | ToCsv x path =>
      match (let* df := var_frame s x in
             let* p := path s in
             Ok (p, df)) with
      | Ok (p, df) => (None, write_file p df s)
      | Raise ex => (Some ex, s)
      end
  end.

(** Running statements in order, each tagged with its cell: the cell
    and exception at which the run stopped, if it did, and the session at
    that point. *)
Fixpoint run (prog : list (nat * stmt)) (s : session)
  : option (nat * exception) * session :=
  match prog with
  | [] => (None, s)
  | (cell, c) :: prog' =>
      match exec c s with
      | (None, s') => run prog' s'
      | (Some ex, s') => (Some (cell, ex), s')
      end
  end.

(** *** The code cells

    Cells are numbered by their position in the notebook file.  Imports,
    prints and the drawing itself have no effect on the session; a
    display or a plot is kept as the reads it makes, and what it draws
    from (figures, axes, aggregate tables, function objects) is bound as
    [VOther]. *)

Definition const (v : value) : session -> result value := fun _ => Ok v.

Definition show (x : string) : stmt :=
  Expr (fun s => let* _ := var s x in Ok tt).

Definition subplots : stmt :=
  Unpack ["fig"; "ax"] (fun _ => Ok [VOther; VOther]).

Definition load (name : string) (s : session) : result value :=
  let* dir := var_path s "DATA_PATH" in
  let* df := read_csv s (path_join dir name) "respondent_id" in
  Ok (VFrame df).

Definition same_index (x y : string) (s : session) : result unit :=
  let* a := var_frame s x in
  let* b := var_frame s y in
  assert_array_equal (index a) (index b).

Definition read_columns (x : string) (names : list string) (s : session)
  : result unit :=
  let* df := var_frame s x in
  let* _ := getitems df names in
  Ok tt.

Definition derived (from : list string) (s : session) : result value :=
  let* _ := rmap (var s) from in Ok VOther.

Definition cols_to_plot : list string :=
  [ "h1n1_concern"; "h1n1_knowledge"; "opinion_h1n1_vacc_effective";
    "opinion_h1n1_risk"; "opinion_h1n1_sick_from_vacc";
    "opinion_seas_vacc_effective"; "opinion_seas_risk";
    "opinion_seas_sick_from_vacc"; "sex"; "age_group"; "race" ].

Definition plot_all (s : session) : result unit :=
  let* cols := var_names s "cols_to_plot" in
  let* _ := rmap (fun col =>
              let* data := var_frame s "joined_df" in
              let* _ := vaccination_rate_plot col "h1n1_vaccine" data s in
              let* data' := var_frame s "joined_df" in
              vaccination_rate_plot col "seasonal_vaccine" data' s) cols in
  Ok tt.

(** [features_df.columns[features_df.dtypes != "object"].values] *)
Definition non_object_columns (df : DataFrame) : list string :=
  map fst (List.filter (fun nc => negb (is_object (snd nc))) (columns df)).

Definition split (s : session) : result (list value) :=
  let* X := var_frame s "features_df" in
  let* y := var_frame s "labels_df" in
  let* stratify := var_frame s "labels_df" in
  let* seed := var_int s "RANDOM_SEED" in
  train_test_split s X y stratify (Some seed).

Definition fit_on (X y : string) (s : session) : result value :=
  let* p := var_pipeline s "full_pipeline" in
  let* Xf := var_frame s X in
  let* yf := var_frame s y in
  let* p' := fit p Xf yf in
  Ok (VPipeline p').

Definition predict_on (X : string) (s : session) : result value :=
  let* p := var_pipeline s "full_pipeline" in
  let* Xf := var_frame s X in
  let* a := predict_proba p Xf in
  Ok (VProbas a).

Definition make_y_preds (s : session) : result value :=
  let* preds := var_probas s "preds" in
  let* h1n1 := class_1 preds 0 in
  let* seasonal := class_1 preds 1 in
  let* y_eval := var_frame s "y_eval" in
  let* df := DataFrame_of [ ("h1n1_vaccine", h1n1);
                            ("seasonal_vaccine", seasonal) ]
               (index_name y_eval) (index y_eval) in
  Ok (VFrame df).

Definition plot_roc_for (target : string) (s : session) : result unit :=
  let* y_eval := var_frame s "y_eval" in
  let* y_true := getitem y_eval target in
  let* y_preds := var_frame s "y_preds" in
  let* y_score := getitem y_preds target in
  plot_roc y_true y_score.

Definition overall_auc (s : session) : result unit :=
  let* y_eval := var_frame s "y_eval" in
  let* y_preds := var_frame s "y_preds" in
  let* y_true := rmap (fun nc => int_labels (snd nc)) (columns y_eval) in
  let* y_score := rmap (fun nc => scores_of (snd nc)) (columns y_preds) in
  let* _ := roc_auc_score_multilabel y_true y_score in
  Ok tt.

Definition test_class_1 (k : nat) (s : session) : result (list R) :=
  let* probas := var_probas s "test_probas" in
  class_1 probas k.

Definition cell (n : nat) (body : list stmt) : list (nat * stmt) :=
  map (pair n) body.

Definition loading : list (nat * stmt) :=
  cell 9 [ Assign "DATA_PATH" (const (VPath "../data/raw")) ] ++
  cell 12 [ Assign "features_df" (load "training_set_features.csv");
            Assign "labels_df" (load "training_set_labels.csv") ] ++
  cell 13 [ show "features_df" ] ++
  cell 15 [ show "features_df" ] ++
  cell 17 [ show "labels_df" ] ++
  cell 20 [ Expr (same_index "features_df" "labels_df") ].

Definition exploring : list (nat * stmt) :=
  cell 26 [ subplots;
            Assign "n_obs" (fun s => let* l := var_frame s "labels_df" in
                                     Ok (VInt (Z.of_nat (length (index l)))));
            Expr (read_columns "labels_df" ["h1n1_vaccine"]);
            Expr (read_columns "labels_df" ["seasonal_vaccine"]) ] ++
  cell 29 [ Expr (read_columns "labels_df" ["h1n1_vaccine"; "seasonal_vaccine"]) ] ++
  cell 30 [ Expr (read_columns "labels_df" ["h1n1_vaccine"; "seasonal_vaccine"]) ] ++
  cell 35 [ show "features_df" ] ++
  cell 36 [ show "labels_df" ] ++
  cell 37 [ Assign "joined_df"
              (fun s => let* f := var_frame s "features_df" in
                        let* l := var_frame s "labels_df" in
                        let* j := join f l in
                        Ok (VFrame j)) ] ++
  cell 40 [ Assign "counts"
              (fun s => let* _ := read_columns "joined_df"
                                    ["h1n1_concern"; "h1n1_vaccine"] s in
                        Ok VOther);
            show "counts" ] ++
  cell 42 [ Assign "ax" (derived ["counts"]) ] ++
  cell 45 [ Assign "h1n1_concern_counts" (derived ["counts"]);
            show "h1n1_concern_counts" ] ++
  cell 46 [ Assign "props" (derived ["counts"; "h1n1_concern_counts"]);
            show "props" ] ++
  cell 47 [ Assign "ax" (derived ["props"]) ] ++
  cell 50 [ Assign "ax" (derived ["props"]) ] ++
  cell 54 [ Assign "vaccination_rate_plot" (const VOther) ] ++
  cell 56 [ Assign "cols_to_plot" (const (VNames cols_to_plot));
            subplots;
            Expr plot_all ].

Definition modelling : list (nat * stmt) :=
  cell 60 [ Assign "RANDOM_SEED" (const (VInt 6)) ] ++
  cell 62 [ show "features_df" ] ++
  cell 63 [ Assign "numeric_cols"
              (fun s => let* f := var_frame s "features_df" in
                        Ok (VNames (non_object_columns f))) ] ++
  cell 66 [ Assign "numeric_preprocessing_steps" (const VOther);
            Assign "preprocessor"
              (fun s => let* cols := var_names s "numeric_cols" in
                        Ok (VPipeline {| columns_ := cols; fitted_ := None |})) ] ++
  cell 69 [ Assign "estimators" (const VOther) ] ++
  cell 71 [ Assign "full_pipeline"
              (fun s => let* p := var_pipeline s "preprocessor" in
                        let* _ := var s "estimators" in
                        Ok (VPipeline p)) ] ++
  cell 74 [ show "full_pipeline" ] ++
  cell 78 [ Unpack ["X_train"; "X_eval"; "y_train"; "y_eval"] split ] ++
  cell 80 [ Assign "full_pipeline" (fit_on "X_train" "y_train");
            Assign "preds" (predict_on "X_eval");
            show "preds" ] ++
  cell 81 [ Expr (fun s => let* preds := var_probas s "preds" in
                           let* _ := item preds 0 in
                           let* _ := item preds 1 in
                           Ok tt) ] ++
  cell 83 [ Assign "y_preds" make_y_preds;
            show "y_preds" ] ++
  cell 85 [ Assign "plot_roc" (const VOther) ] ++
  cell 86 [ subplots;
            Expr (plot_roc_for "h1n1_vaccine");
            Expr (plot_roc_for "seasonal_vaccine") ] ++
  cell 88 [ Expr overall_auc ] ++
  cell 90 [ Assign "full_pipeline" (fit_on "features_df" "labels_df") ].

Definition predicting : list (nat * stmt) :=
  cell 93 [ Assign "test_features_df" (load "test_set_features.csv") ] ++
  cell 94 [ Assign "test_probas" (predict_on "test_features_df");
            show "test_probas" ] ++
  cell 97 [ Assign "submission_df" (load "submission_format.csv") ] ++
  cell 98 [ show "submission_df" ].

Definition submitting : list (nat * stmt) :=
  cell 100 [ Expr (same_index "test_features_df" "submission_df");
             SetItem "submission_df" "h1n1_vaccine" (test_class_1 0);
             SetItem "submission_df" "seasonal_vaccine" (test_class_1 1);
             show "submission_df" ] ++
  cell 101 [ Assign "OUTPUT_DATA_PATH" (const (VPath OUTPUT_DATA_PATH)) ] ++
  cell 102 [ ToCsv "submission_df" (fun s => var_path s "OUTPUT_DATA_PATH") ].

Definition notebook : list (nat * stmt) :=
  loading ++ exploring ++ modelling ++ predicting ++ submitting.

(** A fresh kernel: no variable bound. *)
Definition fresh (disk : gmap string DataFrame) (g : RandomState) : session :=
  {| globals := ∅; files := disk; np_random := g |}.

(** *** What statements touch, and what the properties speak of *)

(** The names a statement binds, and whether it writes a file. *)
Definition targets (c : stmt) : list string :=
  match c with
  | Assign x _ => [x]
  | Unpack xs _ => xs
  | SetItem x _ _ => [x]
  | Expr _ | ToCsv _ _ => []
  end.

Definition writes_file (c : stmt) : bool :=
  match c with ToCsv _ _ => true | _ => false end.

Definition binds (x : string) (c : stmt) : bool :=
  existsb (String.eqb x) (targets c).

(** Everything up to the refit on the full training data (cell 90). *)
Definition before_test : list (nat * stmt) :=
  loading ++ exploring ++ modelling.

(** A statement that cannot stop on an assertion. *)
Definition silent (st : stmt) : Prop :=
  forall s s', exec st s <> (Some AssertionError, s').

(** Two sessions that show the same variables and hold the same input
    tables on disk; whatever else is on disk, and the state of the global
    generator, may differ. *)
Definition alike (s s' : session) : Prop :=
  globals s = globals s' /\ same_inputs (files s) (files s').

(** [DATA_PATH], where bound, is the directory of the input tables. *)
Definition data_path_ok (s : session) : Prop :=
  forall v, globals s !! "DATA_PATH" = Some v -> v = VPath "../data/raw".

(** An expression that reads nothing but the variables and the input
    tables: neither another file nor the global generator. *)
Definition reads_inputs_only {A} (e : session -> result A) : Prop :=
  forall s s', alike s s' -> data_path_ok s -> e s = e s'.

Definition stmt_reads_inputs_only (st : stmt) : Prop :=
  match st with
  | Assign _ e => reads_inputs_only e
  | Unpack _ e => reads_inputs_only e
  | Expr e => reads_inputs_only e
  | SetItem _ _ e => reads_inputs_only e
  | ToCsv _ path => reads_inputs_only path
  end.

Definition keeps_data_path (st : stmt) : Prop :=
  forall s, data_path_ok s -> data_path_ok (snd (exec st s)).

(** What a variable may hold at any point of a run: an array of
    probabilities is within the unit interval. *)
Definition value_ok (v : value) : Prop :=
  match v with VProbas a => probas_ok a | _ => True end.

(** A session all of whose variables are fine, and a statement that only
    binds such values. *)
Definition session_ok (s : session) : Prop :=
  forall x v, globals s !! x = Some v -> value_ok v.

Definition stmt_ok (st : stmt) : Prop :=
  match st with
  | Assign _ e => forall s v, e s = Ok v -> value_ok v
  | Unpack _ e => forall s vs, e s = Ok vs -> Forall value_ok vs
  | _ => True
  end.

(** The session after the first [k] statements of the notebook. *)
Definition state_at (k : nat) (s : session) : session :=
  snd (run (firstn k notebook) s).

(** The pipeline of cell 71 before any fit, for the training features
    [f]: the column transformer lists the columns of [f] that are not of
    dtype object. *)
Definition unfitted (f : DataFrame) : Pipeline :=
  {| columns_ := non_object_columns f; fitted_ := None |}.

(** *** Tables as objects

    In the kernel a variable holds a reference to a table object, two
    variables may refer to one object, and a call may write into the
    object it is given.  The notebook once more, on a kernel whose
    tables are objects, with every library call as what it does to
    them: which tables it reads, which it creates, which it writes
    into.  (A fitted pipeline is kept as a value: fitting binds the
    variable anew.) *)

Inductive binding :=
| Table (r : nat)
| Plain (v : value).

Record kernel := {
  vars : gmap string binding;
  objects : list DataFrame;
  disk_files : gmap string DataFrame;
  global_generator : RandomState
}.

(** A call: what it returns or raises, and the kernel it leaves behind
    (also when it raises). *)
Definition call (A : Type) : Type := kernel -> result A * kernel.

Definition ret {A} (a : A) : call A := fun k => (Ok a, k).

Definition lift {A} (r : result A) : call A := fun k => (r, k).

Definition cbind {A B} (e : call A) (f : A -> call B) : call B :=
  fun k => match e k with
           | (Ok a, k') => f a k'
           | (Raise ex, k') => (Raise ex, k')
           end.

Notation "'let+' x ':=' e 'in' f" := (cbind e (fun x => f))
  (at level 10, x name, e at level 100, f at level 200).

Fixpoint cmap {A B} (f : A -> call B) (l : list A) : call (list B) :=
  match l with
  | [] => ret []
  | a :: l' =>
      let+ b := f a in
      let+ bs := cmap f l' in
      ret (b :: bs)
  end.

(** The table behind a reference; a new table object; writing into a
    table object. *)
Definition deref (r : nat) : call DataFrame := fun k =>
  match objects k !! r with
  | Some df => (Ok df, k)
  | None => (Raise TypeError, k)
  end.

Definition new_table (df : DataFrame) : call binding := fun k =>
  (Ok (Table (length (objects k))),
   {| vars := vars k;
      objects := objects k ++ [df];
      disk_files := disk_files k;
      global_generator := global_generator k |}).

Definition overwrite (r : nat) (df : DataFrame) : call unit := fun k =>
  (Ok tt,
   {| vars := vars k;
      objects := <[r := df]> (objects k);
      disk_files := disk_files k;
      global_generator := global_generator k |}).

Definition new_value (v : value) : call binding :=
  match v with
  | VFrame df => new_table df
  | _ => ret (Plain v)
  end.

(** Reading a variable. *)
Definition lookup_var (x : string) : call binding := fun k =>
  match vars k !! x with
  | Some b => (Ok b, k)
  | None => (Raise NameError, k)
  end.

Definition table_var (x : string) : call nat :=
  let+ b := lookup_var x in
  match b with Table r => ret r | Plain _ => lift (Raise TypeError) end.

Definition plain_var (x : string) : call value :=
  let+ b := lookup_var x in
  match b with Plain v => ret v | Table _ => lift (Raise TypeError) end.

Definition names_var (x : string) : call (list string) :=
  let+ v := plain_var x in
  match v with VNames l => ret l | _ => lift (Raise TypeError) end.

Definition int_var (x : string) : call Z :=
  let+ v := plain_var x in
  match v with VInt z => ret z | _ => lift (Raise TypeError) end.

Definition path_var (x : string) : call string :=
  let+ v := plain_var x in
  match v with VPath p => ret p | _ => lift (Raise TypeError) end.

Definition pipeline_var (x : string) : call Pipeline :=
  let+ v := plain_var x in
  match v with VPipeline p => ret p | _ => lift (Raise TypeError) end.

Definition probas_var (x : string) : call (list (list (list R))) :=
  let+ v := plain_var x in
  match v with VProbas a => ret a | _ => lift (Raise TypeError) end.

(** [pd.read_csv]: a new table. *)
Definition obj_read_csv (path key : string) : call binding := fun k =>
  match disk_files k !! path with
  | None => (Raise FileNotFoundError, k)
  | Some df => if String.eqb (index_name df) key then new_table df k
               else (Raise ValueError, k)
  end.

(** [df.index.values], [df[name]], [df[[n1, ..., nk]]]: the table is
    read. *)
Definition obj_index (df : nat) : call (list Z) :=
  let+ t := deref df in ret (index t).

Definition obj_getitem (df : nat) (name : string) : call column :=
  let+ t := deref df in lift (getitem t name).

Definition obj_getitems (df : nat) (names : list string)
  : call (list column) :=
  let+ t := deref df in lift (getitems t names).

(** [left.join(right)]: a new table; the two operands are read. *)
Definition obj_join (left right : nat) : call binding :=
  let+ l := deref left in
  let+ r := deref right in
  let+ j := lift (join l r) in
  new_table j.

(** [pd.DataFrame({...}, index=idx)]: a new table. *)
Definition obj_DataFrame (cols : list (string * list R)) (idx_name : string)
    (idx : list Z) : call binding :=
  let+ df := lift (DataFrame_of cols idx_name idx) in
  new_table df.

(** [df[name] = values]: written into the table [df] refers to, for
    every variable that refers to it. *)
Definition obj_setitem (df : nat) (name : string) (values : list R)
  : call unit :=
  let+ t := deref df in
  let+ t' := lift (setitem t name values) in
  overwrite df t'.

(** [df.to_csv(path, index=True)]: the table is read, the file written. *)
Definition obj_to_csv (df : nat) (path : string) : call unit :=
  let+ t := deref df in
  fun k => (Ok tt,
            {| vars := vars k;
               objects := objects k;
               disk_files := <[path := t]> (disk_files k);
               global_generator := global_generator k |}).

(** [train_test_split]: four new tables holding rows of [X] and of [y];
    the arguments are read. *)
Definition library_session (k : kernel) : session :=
  {| globals := ∅; files := disk_files k;
     np_random := global_generator k |}.

Definition obj_train_test_split (X y stratify : nat)
    (random_state : option Z) : call (list binding) :=
  let+ Xt := deref X in
  let+ yt := deref y in
  let+ st := deref stratify in
  let+ parts := (fun k => (train_test_split (library_session k) Xt yt st
                             random_state, k)) in
  cmap new_value parts.

(** [pipeline.fit(X, y)] and [pipeline.predict_proba(X)]: the tables are
    read (the transformers work on copies). *)
Definition obj_fit (p : Pipeline) (X y : nat) : call Pipeline :=
  let+ Xt := deref X in
  let+ yt := deref y in
  lift (fit p Xt yt).

Definition obj_predict_proba (p : Pipeline) (X : nat)
  : call (list (list (list R))) :=
  let+ Xt := deref X in
  lift (predict_proba p Xt).

(** The notebook's own functions: [data] is a reference to the table the
    caller passes. *)
Definition obj_vaccination_rate_plot (col target : string) (data : nat)
  : call unit :=
  let+ joined := table_var "joined_df" in
  let+ t := obj_getitem joined target in
  let+ c := obj_getitem joined col in
  if String.eqb target col then lift (Raise ValueError)
  else if existsb (fun p => fst p && snd p)
            (combine (observed_at t) (observed_at c))
  then ret tt
  else lift (Raise TypeError).

Definition obj_plot_roc (y_true y_score : column) : call unit :=
  lift (plot_roc y_true y_score).

(** Statements: an assignment binds a variable to what the call returns,
    a reference or a value; an in-place update is an expression
    statement, it binds nothing. *)
Inductive ostmt :=
| OAssign (x : string) (e : call binding)
| OUnpack (xs : list string) (e : call (list binding))
| OExpr (e : call unit).

Definition set_var (x : string) (b : binding) (k : kernel) : kernel :=
  {| vars := <[x := b]> (vars k);
     objects := objects k;
     disk_files := disk_files k;
     global_generator := global_generator k |}.

Fixpoint set_vars (xs : list string) (bs : list binding) (k : kernel)
  : kernel :=
  match xs, bs with
  | x :: xs', b :: bs' => set_vars xs' bs' (set_var x b k)
  | _, _ => k
  end.

Definition oexec (c : ostmt) (k : kernel) : option exception * kernel :=
  match c with
  | OAssign x e =>
      match e k with
      | (Ok b, k') => (None, set_var x b k')
      | (Raise ex, k') => (Some ex, k')
      end
  | OUnpack xs e =>
      match e k with
      | (Ok bs, k') => if Nat.eqb (length bs) (length xs)
                       then (None, set_vars xs bs k')
                       else (Some ValueError, k')
      | (Raise ex, k') => (Some ex, k')
      end
  | OExpr e =>
      match e k with
      | (Ok _, k') => (None, k')
      | (Raise ex, k') => (Some ex, k')
      end
  end.

Fixpoint orun (prog : list (nat * ostmt)) (k : kernel)
  : option (nat * exception) * kernel :=
  match prog with
  | [] => (None, k)
  | (cell, c) :: prog' =>
      match oexec c k with
      | (None, k') => orun prog' k'
      | (Some ex, k') => (Some (cell, ex), k')
      end
  end.

(** The cells. *)
Definition oconst (v : value) : call binding := ret (Plain v).

Definition oshow (x : string) : ostmt :=
  OExpr (let+ _ := lookup_var x in ret tt).

Definition osubplots : ostmt :=
  OUnpack ["fig"; "ax"] (ret [Plain VOther; Plain VOther]).

Definition oload (name : string) : call binding :=
  let+ dir := path_var "DATA_PATH" in
  obj_read_csv (path_join dir name) "respondent_id".

Definition osame_index (x y : string) : call unit :=
  let+ a := table_var x in
  let+ b := table_var y in
  let+ ia := obj_index a in
  let+ ib := obj_index b in
  lift (assert_array_equal ia ib).

Definition oread_columns (x : string) (names : list string) : call unit :=
  let+ df := table_var x in
  let+ _ := obj_getitems df names in
  ret tt.

Definition oderived (from : list string) : call binding :=
  let+ _ := cmap lookup_var from in ret (Plain VOther).

Definition oplot_all : call unit :=
  let+ cols := names_var "cols_to_plot" in
  let+ _ := cmap (fun col =>
              let+ data := table_var "joined_df" in
              let+ _ := obj_vaccination_rate_plot col "h1n1_vaccine" data in
              let+ data' := table_var "joined_df" in
              obj_vaccination_rate_plot col "seasonal_vaccine" data') cols in
  ret tt.

Definition osplit : call (list binding) :=
  let+ X := table_var "features_df" in
  let+ y := table_var "labels_df" in
  let+ stratify := table_var "labels_df" in
  let+ seed := int_var "RANDOM_SEED" in
  obj_train_test_split X y stratify (Some seed).

Definition ofit_on (X y : string) : call binding :=
  let+ p := pipeline_var "full_pipeline" in
  let+ Xr := table_var X in
  let+ yr := table_var y in
  let+ p' := obj_fit p Xr yr in
  ret (Plain (VPipeline p')).

Definition opredict_on (X : string) : call binding :=
  let+ p := pipeline_var "full_pipeline" in
  let+ Xr := table_var X in
  let+ a := obj_predict_proba p Xr in
  ret (Plain (VProbas a)).

Definition omake_y_preds : call binding :=
  let+ preds := probas_var "preds" in
  let+ h1n1 := lift (class_1 preds 0) in
  let+ seasonal := lift (class_1 preds 1) in
  let+ y_eval := table_var "y_eval" in
  let+ t := deref y_eval in
  obj_DataFrame [ ("h1n1_vaccine", h1n1); ("seasonal_vaccine", seasonal) ]
    (index_name t) (index t).

Definition oplot_roc_for (target : string) : call unit :=
  let+ y_eval := table_var "y_eval" in
  let+ y_true := obj_getitem y_eval target in
  let+ y_preds := table_var "y_preds" in
  let+ y_score := obj_getitem y_preds target in
  obj_plot_roc y_true y_score.

Definition ooverall_auc : call unit :=
  let+ y_eval := table_var "y_eval" in
  let+ te := deref y_eval in
  let+ y_preds := table_var "y_preds" in
  let+ tp := deref y_preds in
  let+ y_true := lift (rmap (fun nc => int_labels (snd nc)) (columns te)) in
  let+ y_score := lift (rmap (fun nc => scores_of (snd nc)) (columns tp)) in
  let+ _ := lift (roc_auc_score_multilabel y_true y_score) in
  ret tt.

Definition otest_class_1 (k : nat) : call (list R) :=
  let+ probas := probas_var "test_probas" in
  lift (class_1 probas k).

Definition osetitem (x col : string) (e : call (list R)) : ostmt :=
  OExpr (let+ values := e in
         let+ df := table_var x in
         obj_setitem df col values).

Definition oto_csv (x path : string) : ostmt :=
  OExpr (let+ df := table_var x in
         let+ p := path_var path in
         obj_to_csv df p).

Definition ocell (n : nat) (body : list ostmt) : list (nat * ostmt) :=
  map (pair n) body.

Definition oloading : list (nat * ostmt) :=
  ocell 9 [ OAssign "DATA_PATH" (oconst (VPath "../data/raw")) ] ++
  ocell 12 [ OAssign "features_df" (oload "training_set_features.csv");
             OAssign "labels_df" (oload "training_set_labels.csv") ] ++
  ocell 13 [ oshow "features_df" ] ++
  ocell 15 [ oshow "features_df" ] ++
  ocell 17 [ oshow "labels_df" ] ++
  ocell 20 [ OExpr (osame_index "features_df" "labels_df") ].

Definition oexploring : list (nat * ostmt) :=
  ocell 26 [ osubplots;
             OAssign "n_obs"
               (let+ l := table_var "labels_df" in
                let+ idx := obj_index l in
                ret (Plain (VInt (Z.of_nat (length idx)))));
             OExpr (oread_columns "labels_df" ["h1n1_vaccine"]);
             OExpr (oread_columns "labels_df" ["seasonal_vaccine"]) ] ++
  ocell 29 [ OExpr (oread_columns "labels_df"
                      ["h1n1_vaccine"; "seasonal_vaccine"]) ] ++
  ocell 30 [ OExpr (oread_columns "labels_df"
                      ["h1n1_vaccine"; "seasonal_vaccine"]) ] ++
  ocell 35 [ oshow "features_df" ] ++
  ocell 36 [ oshow "labels_df" ] ++
  ocell 37 [ OAssign "joined_df"
               (let+ f := table_var "features_df" in
                let+ l := table_var "labels_df" in
                obj_join f l) ] ++
  ocell 40 [ OAssign "counts"
               (let+ _ := oread_columns "joined_df"
                            ["h1n1_concern"; "h1n1_vaccine"] in
                ret (Plain VOther));
             oshow "counts" ] ++
  ocell 42 [ OAssign "ax" (oderived ["counts"]) ] ++
  ocell 45 [ OAssign "h1n1_concern_counts" (oderived ["counts"]);
             oshow "h1n1_concern_counts" ] ++
  ocell 46 [ OAssign "props" (oderived ["counts"; "h1n1_concern_counts"]);
             oshow "props" ] ++
  ocell 47 [ OAssign "ax" (oderived ["props"]) ] ++
  ocell 50 [ OAssign "ax" (oderived ["props"]) ] ++
  ocell 54 [ OAssign "vaccination_rate_plot" (oconst VOther) ] ++
  ocell 56 [ OAssign "cols_to_plot" (oconst (VNames cols_to_plot));
             osubplots;
             OExpr oplot_all ].

Definition omodelling : list (nat * ostmt) :=
  ocell 60 [ OAssign "RANDOM_SEED" (oconst (VInt 6)) ] ++
  ocell 62 [ oshow "features_df" ] ++
  ocell 63 [ OAssign "numeric_cols"
               (let+ f := table_var "features_df" in
                let+ t := deref f in
                ret (Plain (VNames (non_object_columns t)))) ] ++
  ocell 66 [ OAssign "numeric_preprocessing_steps" (oconst VOther);
             OAssign "preprocessor"
               (let+ cols := names_var "numeric_cols" in
                ret (Plain (VPipeline {| columns_ := cols;
                                         fitted_ := None |}))) ] ++
  ocell 69 [ OAssign "estimators" (oconst VOther) ] ++
  ocell 71 [ OAssign "full_pipeline"
               (let+ p := pipeline_var "preprocessor" in
                let+ _ := lookup_var "estimators" in
                ret (Plain (VPipeline p))) ] ++
  ocell 74 [ oshow "full_pipeline" ] ++
  ocell 78 [ OUnpack ["X_train"; "X_eval"; "y_train"; "y_eval"] osplit ] ++
  ocell 80 [ OAssign "full_pipeline" (ofit_on "X_train" "y_train");
             OAssign "preds" (opredict_on "X_eval");
             oshow "preds" ] ++
  ocell 81 [ OExpr (let+ preds := probas_var "preds" in
                    let+ _ := lift (item preds 0) in
                    let+ _ := lift (item preds 1) in
                    ret tt) ] ++
  ocell 83 [ OAssign "y_preds" omake_y_preds;
             oshow "y_preds" ] ++
  ocell 85 [ OAssign "plot_roc" (oconst VOther) ] ++
  ocell 86 [ osubplots;
             OExpr (oplot_roc_for "h1n1_vaccine");
             OExpr (oplot_roc_for "seasonal_vaccine") ] ++
  ocell 88 [ OExpr ooverall_auc ] ++
  ocell 90 [ OAssign "full_pipeline" (ofit_on "features_df" "labels_df") ].

Definition opredicting : list (nat * ostmt) :=
  ocell 93 [ OAssign "test_features_df" (oload "test_set_features.csv") ] ++
  ocell 94 [ OAssign "test_probas" (opredict_on "test_features_df");
             oshow "test_probas" ] ++
  ocell 97 [ OAssign "submission_df" (oload "submission_format.csv") ] ++
  ocell 98 [ oshow "submission_df" ].

Definition osubmitting : list (nat * ostmt) :=
  ocell 100 [ OExpr (osame_index "test_features_df" "submission_df");
              osetitem "submission_df" "h1n1_vaccine" (otest_class_1 0);
              osetitem "submission_df" "seasonal_vaccine" (otest_class_1 1);
              oshow "submission_df" ] ++
  ocell 101 [ OAssign "OUTPUT_DATA_PATH" (oconst (VPath OUTPUT_DATA_PATH)) ] ++
  ocell 102 [ oto_csv "submission_df" "OUTPUT_DATA_PATH" ].

Definition onotebook : list (nat * ostmt) :=
  oloading ++ oexploring ++ omodelling ++ opredicting ++ osubmitting.

Definition fresh_kernel (disk : gmap string DataFrame) (g : RandomState)
  : kernel :=
  {| vars := ∅; objects := []; disk_files := disk; global_generator := g |}.

(** What the variables of a kernel show: behind every reference the
    table it leads to. *)
Definition shown (k : kernel) (b : binding) : option value :=
  match b with
  | Table r => option_map VFrame (objects k !! r)
  | Plain v => Some v
  end.

Definition contents (k : kernel) : session :=
  {| globals := omap (shown k) (vars k);
     files := disk_files k;
     np_random := global_generator k |}.

(** The two training tables are the first two objects of a run.  A
    kernel is guarded when no variable but [features_df] and [labels_df]
    refers to one of them; a call is steady when, from a guarded kernel,
    it leaves the variables, the disk and these two objects as they
    were, whatever it returns or raises. *)
Definition guarded (k : kernel) : Prop :=
  (2 <= length (objects k))%nat /\
  forall x r, vars k !! x = Some (Table r) -> (r < 2)%nat ->
              x = "features_df" \/ x = "labels_df".

Definition calm (k k' : kernel) : Prop :=
  vars k' = vars k /\ disk_files k' = disk_files k /\
  objects k' !! 0%nat = objects k !! 0%nat /\
  objects k' !! 1%nat = objects k !! 1%nat /\
  (length (objects k) <= length (objects k'))%nat.

Definition steady {A} (e : call A) : Prop :=
  forall k, guarded k -> calm k (snd (e k)).

(** A reference to a table other than the two training tables. *)
Definition fresh_binding (b : binding) : Prop :=
  match b with Table r => (2 <= r)%nat | Plain _ => True end.

Definition returns {A} (P : A -> Prop) (e : call A) : Prop :=
  forall k a, guarded k -> fst (e k) = Ok a -> P a.

Definition stmt_steady (st : ostmt) : Prop :=
  match st with
  | OAssign x e =>
      x <> "features_df" /\ x <> "labels_df" /\
      steady e /\ returns fresh_binding e
  | OUnpack xs e =>
      ~ In "features_df" xs /\ ~ In "labels_df" xs /\
      steady e /\ returns (Forall fresh_binding) e
  | OExpr e => steady e
  end.

(** The training tables [f] and [l] are where cell 12 put them. *)
Definition tables_kept (f l : DataFrame) (d : gmap string DataFrame)
    (k : kernel) : Prop :=
  vars k !! "features_df" = Some (Table 0) /\
  vars k !! "labels_df" = Some (Table 1) /\
  objects k !! 0%nat = Some f /\
  objects k !! 1%nat = Some l /\
  guarded k /\
  disk_files k = d.

(** ** Running: composition and frames *)

Lemma run_app (p q : list (nat * stmt)) (s : session) :
  run (p ++ q) s =
  match run p s with
  | (None, s') => run q s'
  | (Some ce, s') => (Some ce, s')
  end.
Proof.
  revert s. induction p as [|[c st] p IH]; intros s; simpl.
  - reflexivity.
  - destruct (exec st s) as [[ex|] s1]; [reflexivity|apply IH].
Qed.

(** A statement that raises leaves the session as it was. *)
Lemma exec_raise (c : stmt) (s s' : session) (ex : exception) :
  exec c s = (Some ex, s') -> s' = s.
Proof.
  destruct c; simpl.
  - destruct (e s); intros [= <-]; congruence.
  - destruct (e s); [destruct (Nat.eqb _ _)|]; congruence.
  - destruct (e s); congruence.
  - destruct (rbind _ _); congruence.
  - destruct (rbind _ _) as [[? ?]|]; congruence.
Qed.

Lemma bind_vars_other (x : string) (xs : list string) (vs : list value)
    (s : session) :
  existsb (String.eqb x) xs = false ->
  globals (bind_vars xs vs s) !! x = globals s !! x.
Proof.
  revert vs s. induction xs as [|y xs IH]; intros vs s H; simpl in *.
  - reflexivity.
  - destruct vs as [|v vs]; [reflexivity|].
    apply orb_false_iff in H as [Hy Hxs].
    rewrite IH by assumption. simpl.
    apply lookup_insert_ne. intros ->.
    rewrite String.eqb_refl in Hy. discriminate.
Qed.

Lemma bind_vars_files (xs : list string) (vs : list value) (s : session) :
  files (bind_vars xs vs s) = files s.
Proof.
  revert vs s. induction xs as [|y xs IH]; intros vs s; simpl.
  - reflexivity.
  - destruct vs; [reflexivity|]. rewrite IH. reflexivity.
Qed.

Lemma exec_globals_frame (c : stmt) (s : session) (x : string) :
  binds x c = false ->
  globals (snd (exec c s)) !! x = globals s !! x.
Proof.
  unfold binds. destruct c; simpl; intros H.
  - destruct (e s); simpl; [|reflexivity].
    apply lookup_insert_ne. intros ->.
    rewrite String.eqb_refl in H. discriminate.
  - destruct (e s); simpl; [|reflexivity].
    destruct (Nat.eqb _ _); simpl; [|reflexivity].
    apply bind_vars_other, H.
  - destruct (e s); reflexivity.
  - destruct (rbind _ _); simpl; [|reflexivity].
    apply lookup_insert_ne. intros ->.
    rewrite String.eqb_refl in H. discriminate.
  - destruct (rbind _ _) as [[? ?]|]; reflexivity.
Qed.

Lemma exec_files_frame (c : stmt) (s : session) :
  writes_file c = false -> files (snd (exec c s)) = files s.
Proof.
  destruct c; simpl; intros H; try discriminate.
  - destruct (e s); reflexivity.
  - destruct (e s); [destruct (Nat.eqb _ _)|]; simpl;
      auto using bind_vars_files.
  - destruct (e s); reflexivity.
  - destruct (rbind _ _); reflexivity.
Qed.

Lemma run_globals_frame (p : list (nat * stmt)) (s : session) (x : string) :
  forallb (fun cs => negb (binds x (snd cs))) p = true ->
  globals (snd (run p s)) !! x = globals s !! x.
Proof.
  revert s. induction p as [|[c st] p IH]; intros s H; simpl in *.
  - reflexivity.
  - apply andb_true_iff in H as [Hst Hp].
    apply negb_true_iff in Hst.
    pose proof (exec_globals_frame st s x Hst) as E.
    destruct (exec st s) as [[ex|] s1]; simpl in *; [exact E|].
    rewrite IH by assumption. exact E.
Qed.

Lemma run_files_frame (p : list (nat * stmt)) (s : session) :
  forallb (fun cs => negb (writes_file (snd cs))) p = true ->
  files (snd (run p s)) = files s.
Proof.
  revert s. induction p as [|[c st] p IH]; intros s H; simpl in *.
  - reflexivity.
  - apply andb_true_iff in H as [Hst Hp].
    apply negb_true_iff in Hst.
    pose proof (exec_files_frame st s Hst) as E.
    destruct (exec st s) as [[ex|] s1]; simpl in *; [exact E|].
    rewrite IH by assumption. exact E.
Qed.

(** The cell a run stops at is one of the program's. *)
Lemma run_stops_in (p : list (nat * stmt)) (s s' : session) (c : nat)
    (ex : exception) :
  run p s = (Some (c, ex), s') -> In c (map fst p).
Proof.
  revert s. induction p as [|[c0 st] p IH]; intros s; simpl.
  - discriminate.
  - destruct (exec st s) as [[e|] s1].
    + intros [= -> _ _]. now left.
    + intros H. right. eapply IH, H.
Qed.

(** ** The input tables stay as loaded *)

Lemma forallb_firstn {A} (f : A -> bool) (l : list A) (k : nat) :
  forallb f l = true -> forallb f (firstn k l) = true.
Proof.
  revert k. induction l as [|a l IH]; intros [|k] H; simpl in *; auto.
  apply andb_true_iff in H as [Ha Hl]. rewrite Ha. simpl. auto.
Qed.

Lemma read_csv_files (s s' : session) (path key : string) :
  files s = files s' -> read_csv s path key = read_csv s' path key.
Proof. unfold read_csv. intros ->. reflexivity. Qed.

(** The three statements of cells 9 and 12 on a fresh kernel. *)
Lemma run_loads (disk : gmap string DataFrame) (g : RandomState)
    (f l : DataFrame) :
  read_csv (fresh disk g) training_set_features "respondent_id" = Ok f ->
  read_csv (fresh disk g) training_set_labels "respondent_id" = Ok l ->
  run (firstn 3 notebook) (fresh disk g) =
  (None, bind_var "labels_df" (VFrame l)
           (bind_var "features_df" (VFrame f)
              (bind_var "DATA_PATH" (VPath "../data/raw") (fresh disk g)))).
Proof.
  intros Hf Hl.
  change (firstn 3 notebook) with
    [ (9%nat, Assign "DATA_PATH" (const (VPath "../data/raw")));
      (12%nat, Assign "features_df" (load "training_set_features.csv"));
      (12%nat, Assign "labels_df" (load "training_set_labels.csv")) ].
  cbn [run exec const].
  unfold load at 1. unfold var_path, var. cbn [globals bind_var fresh].
  rewrite lookup_insert_eq. cbn [rbind].
  change (path_join "../data/raw" "training_set_features.csv")
    with training_set_features.
  rewrite (read_csv_files _ (fresh disk g)) by reflexivity.
  rewrite Hf. cbn [rbind].
  unfold load, var_path, var. cbn [globals bind_var fresh].
  rewrite lookup_insert_ne by discriminate.
  rewrite lookup_insert_eq. cbn [rbind].
  change (path_join "../data/raw" "training_set_labels.csv")
    with training_set_labels.
  rewrite (read_csv_files _ (fresh disk g)) by reflexivity.
  rewrite Hl. reflexivity.
Qed.

Lemma var_frame_inv (s : session) (x : string) (df : DataFrame) :
  var_frame s x = Ok df <-> globals s !! x = Some (VFrame df).
Proof.
  unfold var_frame, var.
  destruct (globals s !! x) as [[]|]; simpl; split; congruence.
Qed.

Lemma notebook_parts :
  notebook =
  (firstn 3 notebook ++ firstn 56 (skipn 3 notebook) ++
   [ (101%nat, Assign "OUTPUT_DATA_PATH" (const (VPath OUTPUT_DATA_PATH)));
     (102%nat, ToCsv "submission_df" (fun s => var_path s "OUTPUT_DATA_PATH")) ])%list.
Proof. reflexivity. Qed.

(** On table values: once the training features and labels are loaded
    (cell 12), no later statement binds [features_df] or [labels_df]
    again, whether the run goes on or has stopped on an exception; and
    the disk is as it was found, or differs only by the output file,
    which holds the submission table. *)
Lemma tables_stay_bound
    (disk : gmap string DataFrame) (g : RandomState) (f l : DataFrame)
    (k : nat) :
  read_csv (fresh disk g) training_set_features "respondent_id" = Ok f ->
  read_csv (fresh disk g) training_set_labels "respondent_id" = Ok l ->
  (3 <= k)%nat ->
  let s := snd (run (firstn k notebook) (fresh disk g)) in
  globals s !! "features_df" = Some (VFrame f) /\
  globals s !! "labels_df" = Some (VFrame l) /\
  (files s = disk \/
   exists sub, globals s !! "submission_df" = Some (VFrame sub) /\
               files s = <[OUTPUT_DATA_PATH := sub]> disk).
Proof.
  intros Hf Hl Hk. cbv zeta.
  rewrite (f_equal (firstn k) notebook_parts).
  rewrite firstn_app, (firstn_all2 (n := k) (firstn 3 notebook))
    by (exact Hk).
  change (length (firstn 3 notebook)) with 3%nat.
  rewrite firstn_app, run_app, (run_loads disk g f l Hf Hl), run_app.
  change (length (firstn 56 (skipn 3 notebook))) with 56%nat.
  set (s3 := bind_var "labels_df" _ _).
  set (M := firstn (k - 3) (firstn 56 (skipn 3 notebook))).
  assert (HM : forall x, 
    forallb (fun cs => negb (binds x (snd cs))) (firstn 56 (skipn 3 notebook)) = true ->
    globals (snd (run M s3)) !! x = globals s3 !! x).
  { intros x Hx. apply run_globals_frame, forallb_firstn, Hx. }
  assert (HF : files (snd (run M s3)) = disk).
  { unfold M. rewrite run_files_frame; [reflexivity|].
    apply forallb_firstn. vm_compute. reflexivity. }
  pose proof (HM "features_df" ltac:(vm_compute; reflexivity)) as Gf.
  pose proof (HM "labels_df" ltac:(vm_compute; reflexivity)) as Gl.
  assert (Gf3 : globals s3 !! "features_df" = Some (VFrame f)).
  { unfold s3. cbn [globals bind_var].
    rewrite lookup_insert_ne by discriminate. apply lookup_insert_eq. }
  assert (Gl3 : globals s3 !! "labels_df" = Some (VFrame l)).
  { unfold s3. cbn [globals bind_var]. apply lookup_insert_eq. }
  rewrite Gf3 in Gf. rewrite Gl3 in Gl. clear HM Gf3 Gl3.
  destruct (run M s3) as [[ce|] s4]; cbn [snd] in *.
  { auto. }
  destruct (k - 3 - 56)%nat as [|[|j]]; cbn [firstn run exec const snd].
  - auto.
  - cbn [globals bind_var files].
    rewrite !lookup_insert_ne by discriminate. auto.
  - rewrite firstn_nil.
    destruct (var_frame (bind_var "OUTPUT_DATA_PATH" (VPath OUTPUT_DATA_PATH) s4)
                "submission_df") as [sub|ex] eqn:Hsub; cbn [rbind].
    + unfold var_path, var. cbn [globals bind_var].
      rewrite lookup_insert_eq.
      cbn [run rbind snd write_file bind_var globals files].
      rewrite !lookup_insert_ne by discriminate.
      repeat split; [assumption..|]. right. exists sub. split.
      * apply var_frame_inv in Hsub. cbn [globals bind_var] in Hsub.
        rewrite lookup_insert_ne in Hsub by discriminate. exact Hsub.
      * rewrite HF. reflexivity.
    + cbn [run snd globals bind_var files].
      rewrite !lookup_insert_ne by discriminate. auto.
Qed.

(** ** Stepping through statements *)

Lemma rbind_ok {A B} (r : result A) (k : A -> result B) (b : B) :
  rbind r k = Ok b -> exists a, r = Ok a /\ k a = Ok b.
Proof. destruct r as [a|]; simpl; [eauto|discriminate]. Qed.

Lemma var_lookup (s : session) (x : string) (v : value) :
  globals s !! x = Some v -> var s x = Ok v.
Proof. unfold var. intros ->. reflexivity. Qed.

Lemma show_ok (s : session) (x : string) (v : value) :
  globals s !! x = Some v -> exec (show x) s = (None, s).
Proof. intros H. simpl. rewrite (var_lookup s x v H). reflexivity. Qed.

Lemma setitem_inv (df df' : DataFrame) (name : string) (values : list R) :
  setitem df name values = Ok df' ->
  length values = length (index df) /\
  df' = {| index_name := index_name df; index := index df;
           columns := set_column name (FloatCol (map Some values))
                        (columns df) |}.
Proof.
  unfold setitem. destruct (Nat.eqb _ _) eqn:E; [|discriminate].
  apply Nat.eqb_eq in E. intros [= <-]. auto.
Qed.

Lemma assert_array_equal_ok (a b : list Z) :
  assert_array_equal a b = Ok tt <-> a = b.
Proof.
  unfold assert_array_equal. destruct (bool_decide (a = b)) eqn:E.
  - apply bool_decide_eq_true in E. tauto.
  - apply bool_decide_eq_false in E. split; [discriminate|tauto].
Qed.

Lemma assert_array_equal_raises (a b : list Z) :
  assert_array_equal a b = Raise AssertionError <-> a <> b.
Proof.
  unfold assert_array_equal. destruct (bool_decide (a = b)) eqn:E.
  - apply bool_decide_eq_true in E. split; [discriminate|tauto].
  - apply bool_decide_eq_false in E. tauto.
Qed.

Ltac lookups :=
  cbn [globals files bind_var write_file fresh];
  repeat first [ rewrite lookup_insert_eq
               | rewrite lookup_insert_ne by discriminate
               | rewrite lookup_empty ].

(** ** The cells before the test set is read *)

Lemma notebook_tail :
  notebook = (before_test ++ predicting ++ submitting)%list.
Proof. reflexivity. Qed.

Lemma before_test_facts (disk : gmap string DataFrame) (g : RandomState)
    (r : option (nat * exception)) (s1 : session) :
  run before_test (fresh disk g) = (r, s1) ->
  files s1 = disk /\
  globals s1 !! "DATA_PATH" = Some (VPath "../data/raw") /\
  globals s1 !! "test_features_df" = None /\
  globals s1 !! "submission_df" = None /\
  (forall c ex, r = Some (c, ex) -> (c <= 90)%nat).
Proof.
  intros H.
  assert (Hs : s1 = snd (run before_test (fresh disk g))) by now rewrite H.
  repeat split.
  - subst s1. rewrite run_files_frame; [reflexivity|].
    vm_compute. reflexivity.
  - subst s1.
    change before_test with
      ((9%nat, Assign "DATA_PATH" (const (VPath "../data/raw")))
         :: skipn 1 before_test).
    cbn [run exec const].
    rewrite run_globals_frame by (vm_compute; reflexivity).
    lookups. reflexivity.
  - subst s1. rewrite run_globals_frame by (vm_compute; reflexivity).
    apply lookup_empty.
  - subst s1. rewrite run_globals_frame by (vm_compute; reflexivity).
    apply lookup_empty.
  - intros c ex ->. apply run_stops_in in H.
    assert (F : forallb (fun c => Nat.leb c 90) (map fst before_test) = true)
      by (vm_compute; reflexivity).
    rewrite forallb_forall in F. apply Nat.leb_le, F, H.
Qed.

(** ** Cells 93 to 98: the test set, its predictions, the template *)

Lemma load_eq (s : session) (name : string) :
  globals s !! "DATA_PATH" = Some (VPath "../data/raw") ->
  load name s =
  (let* df := read_csv s (path_join "../data/raw" name) "respondent_id" in
   Ok (VFrame df)).
Proof.
  intros H. unfold load, var_path. rewrite (var_lookup _ _ _ H).
  reflexivity.
Qed.

Lemma run_predicting (s1 : session) :
  globals s1 !! "DATA_PATH" = Some (VPath "../data/raw") ->
  run predicting s1 =
  match read_csv s1 test_set_features "respondent_id" with
  | Raise ex => (Some (93%nat, ex), s1)
  | Ok t =>
      let s2 := bind_var "test_features_df" (VFrame t) s1 in
      match predict_on "test_features_df" s2 with
      | Raise ex => (Some (94%nat, ex), s2)
      | Ok v =>
          let s3 := bind_var "test_probas" v s2 in
          match read_csv s1 submission_format "respondent_id" with
          | Raise ex => (Some (97%nat, ex), s3)
          | Ok sub => (None, bind_var "submission_df" (VFrame sub) s3)
          end
      end
  end.
Proof.
  intros HD. unfold predicting, cell. cbn [map app run].
  cbn [exec]. rewrite (load_eq s1 _ HD).
  change (path_join "../data/raw" "test_set_features.csv")
    with test_set_features.
  destruct (read_csv s1 test_set_features "respondent_id") as [t|ex];
    cbn [rbind]; [|reflexivity].
  cbv zeta.
  destruct (predict_on "test_features_df" _) as [v|ex]; [|reflexivity].
  erewrite show_ok by (lookups; reflexivity).
  cbn [exec]. rewrite load_eq by (lookups; exact HD).
  change (path_join "../data/raw" "submission_format.csv")
    with submission_format.
  rewrite (read_csv_files _ s1) by reflexivity.
  destruct (read_csv s1 submission_format "respondent_id") as [sub|ex];
    cbn [rbind]; [|reflexivity].
  erewrite show_ok by (lookups; reflexivity).
  reflexivity.
Qed.

(** ** Cells 100 to 102: the check, the two columns, the file *)

Lemma run_submitting (s4 : session) (t sub : DataFrame) :
  var_frame s4 "test_features_df" = Ok t ->
  var_frame s4 "submission_df" = Ok sub ->
  run submitting s4 =
  match assert_array_equal (index t) (index sub) with
  | Raise ex => (Some (100%nat, ex), s4)
  | Ok _ =>
      match (let* v0 := test_class_1 0 s4 in
             setitem sub "h1n1_vaccine" v0) with
      | Raise ex => (Some (100%nat, ex), s4)
      | Ok sub1 =>
          let s5 := bind_var "submission_df" (VFrame sub1) s4 in
          match (let* v1 := test_class_1 1 s4 in
                 setitem sub1 "seasonal_vaccine" v1) with
          | Raise ex => (Some (100%nat, ex), s5)
          | Ok sub2 =>
              (None,
               write_file OUTPUT_DATA_PATH sub2
                 (bind_var "OUTPUT_DATA_PATH" (VPath OUTPUT_DATA_PATH)
                    (bind_var "submission_df" (VFrame sub2) s5)))
          end
      end
  end.
Proof.
  intros Ht Hsub. unfold submitting, cell. cbn [map app run].
  cbn [exec]. unfold same_index. rewrite Ht, Hsub. cbn [rbind].
  destruct (assert_array_equal (index t) (index sub)) as [u|ex];
    [|reflexivity].
  destruct (test_class_1 0 s4) as [v0|ex]; cbn [rbind]; [|reflexivity].
  rewrite Hsub. cbn [rbind].
  destruct (setitem sub "h1n1_vaccine" v0) as [sub1|ex]; [|reflexivity].
  cbv zeta.
  assert (E : test_class_1 1 (bind_var "submission_df" (VFrame sub1) s4)
              = test_class_1 1 s4).
  { unfold test_class_1, var_probas, var. lookups. reflexivity. }
  rewrite E. clear E.
  destruct (test_class_1 1 s4) as [v1|ex]; cbn [rbind]; [|reflexivity].
  assert (E : var_frame (bind_var "submission_df" (VFrame sub1) s4)
                "submission_df" = Ok sub1).
  { apply var_frame_inv. lookups. reflexivity. }
  rewrite E. clear E. cbn [rbind].
  destruct (setitem sub1 "seasonal_vaccine" v1) as [sub2|ex]; [|reflexivity].
  erewrite show_ok by (lookups; reflexivity).
  cbn [exec const].
  assert (E : var_frame
                (bind_var "OUTPUT_DATA_PATH" (VPath OUTPUT_DATA_PATH)
                   (bind_var "submission_df" (VFrame sub2)
                      (bind_var "submission_df" (VFrame sub1) s4)))
                "submission_df" = Ok sub2).
  { apply var_frame_inv. lookups. reflexivity. }
  rewrite E. clear E. cbn [rbind].
  unfold var_path, var. lookups. reflexivity.
Qed.

Lemma predict_on_inv (x : string) (s : session) (v : value) :
  predict_on x s = Ok v ->
  exists p X a,
    var_pipeline s "full_pipeline" = Ok p /\ var_frame s x = Ok X /\
    predict_proba p X = Ok a /\ v = VProbas a.
Proof.
  unfold predict_on. intros H.
  apply rbind_ok in H as (p & Hp & H).
  apply rbind_ok in H as (X & HX & H).
  apply rbind_ok in H as (a & Ha & H).
  injection H as <-. exists p, X, a. auto.
Qed.

(** What a run that reaches its end has done: it read the test set and
    the template from disk, predicted with the fitted pipeline, found the
    two index arrays equal, and wrote the template with its two columns
    set to the class-1 probabilities. *)
Lemma successful_run (disk : gmap string DataFrame) (g : RandomState)
    (s' : session) :
  run notebook (fresh disk g) = (None, s') ->
  exists t sub p a v0 v1,
    read_csv (fresh disk g) test_set_features "respondent_id" = Ok t /\
    read_csv (fresh disk g) submission_format "respondent_id" = Ok sub /\
    predict_proba p t = Ok a /\
    class_1 a 0 = Ok v0 /\ class_1 a 1 = Ok v1 /\
    length v0 = length (index sub) /\ length v1 = length (index sub) /\
    index t = index sub /\
    globals s' !! "test_probas" = Some (VProbas a) /\
    files s' =
    <[OUTPUT_DATA_PATH :=
        {| index_name := index_name sub;
           index := index sub;
           columns :=
             set_column "seasonal_vaccine" (FloatCol (map Some v1))
               (set_column "h1n1_vaccine" (FloatCol (map Some v0))
                  (columns sub)) |}]> disk.
Proof.
  rewrite notebook_tail, run_app.
  destruct (run before_test (fresh disk g)) as [[ce|] s1] eqn:E1;
    [discriminate|].
  apply before_test_facts in E1 as (HF & HD & _ & _ & _).
  rewrite run_app, (run_predicting s1 HD).
  rewrite !(read_csv_files s1 (fresh disk g)) by exact HF.
  destruct (read_csv (fresh disk g) test_set_features _) as [t|];
    [|discriminate].
  cbv zeta.
  destruct (predict_on "test_features_df" _) as [v|] eqn:Hv; [|discriminate].
  destruct (read_csv (fresh disk g) submission_format _) as [sub|];
    [|discriminate].
  apply predict_on_inv in Hv as (p & X & a & Hp & HX & Ha & ->).
  apply var_frame_inv in HX. revert HX. lookups. intros [= <-].
  set (s4 := bind_var "submission_df" _ _).
  rewrite (run_submitting s4 t sub)
    by (apply var_frame_inv; unfold s4; lookups; reflexivity).
  destruct (assert_array_equal (index t) (index sub)) as [[]|] eqn:Hidx;
    [|discriminate].
  apply assert_array_equal_ok in Hidx.
  assert (Hc : forall k, test_class_1 k s4 = class_1 a k).
  { intros k. unfold test_class_1, var_probas, var, s4. lookups.
    reflexivity. }
  rewrite !Hc.
  destruct (class_1 a 0) as [v0|] eqn:H0; cbn [rbind]; [|discriminate].
  destruct (setitem sub "h1n1_vaccine" v0) as [sub1|] eqn:S0; [|discriminate].
  cbv zeta.
  destruct (class_1 a 1) as [v1|] eqn:H1; cbn [rbind]; [|discriminate].
  destruct (setitem sub1 "seasonal_vaccine" v1) as [sub2|] eqn:S1;
    [|discriminate].
  intros [= <-].
  apply setitem_inv in S0 as [L0 ->].
  apply setitem_inv in S1 as [L1 ->]. cbn [index index_name columns] in *.
  exists t, sub, p, a, v0, v1. repeat split; try assumption; try reflexivity.
  - unfold s4. lookups. reflexivity.
  - unfold s4. lookups. rewrite HF. reflexivity.
Qed.

(** ** The submission file *)

(** C1: in every run that produces the submission file, the written
    table has the respondent identifiers of the test feature table, the
    same ones in the same order; they are the template's, which the
    check of cell 100 found equal to the test set's. *)
Theorem submission_keys_are_test_keys
    (disk : gmap string DataFrame) (g : RandomState) (s' : session) :
  run notebook (fresh disk g) = (None, s') ->
  exists test template out,
    read_csv (fresh disk g) test_set_features "respondent_id" = Ok test /\
    read_csv (fresh disk g) submission_format "respondent_id" = Ok template /\
    files s' !! OUTPUT_DATA_PATH = Some out /\
    index out = index template /\
    index out = index test.
Proof.
  intros H.
  apply successful_run in H
    as (t & sub & p & a & v0 & v1 & Ht & Hs & _ & _ & _ & _ & _ & Hidx & _ & HF).
  eexists t, sub, _. rewrite HF, lookup_insert_eq.
  repeat split; try eassumption; try reflexivity.
  simpl. symmetry. exact Hidx.
Qed.

Lemma has_column_in (name : string) (cols : list (string * column)) :
  has_column name cols = true <-> In name (map fst cols).
Proof.
  unfold has_column. rewrite existsb_exists, in_map_iff. split.
  - intros (nc & Hin & E). apply String.eqb_eq in E. eauto.
  - intros (nc & E & Hin). exists nc. split; [exact Hin|].
    now apply String.eqb_eq.
Qed.

Lemma set_column_names (name : string) (c : column)
    (cols : list (string * column)) :
  has_column name cols = true ->
  map fst (set_column name c cols) = map fst cols.
Proof.
  unfold set_column. intros ->. rewrite map_map. apply map_ext.
  intros [n c0]. simpl. destruct (String.eqb n name); reflexivity.
Qed.

Lemma set_column_nth_other (name : string) (c : column)
    (cols : list (string * column)) (i : nat) (n : string) (c0 : column) :
  has_column name cols = true ->
  nth_error cols i = Some (n, c0) -> n <> name ->
  nth_error (set_column name c cols) i = Some (n, c0).
Proof.
  unfold set_column. intros -> Hn Hne.
  rewrite nth_error_map, Hn. simpl.
  destruct (String.eqb n name) eqn:E; [|reflexivity].
  apply String.eqb_eq in E. contradiction.
Qed.

Lemma set_column_nth_same (name : string) (c : column)
    (cols : list (string * column)) (i : nat) (c0 : column) :
  has_column name cols = true ->
  nth_error cols i = Some (name, c0) ->
  nth_error (set_column name c cols) i = Some (name, c).
Proof.
  unfold set_column. intros -> Hn.
  rewrite nth_error_map, Hn. simpl. rewrite String.eqb_refl. reflexivity.
Qed.

Lemma set_column_has (name name' : string) (c : column)
    (cols : list (string * column)) :
  has_column name' cols = true ->
  has_column name' (set_column name c cols) = true.
Proof.
  intros H. destruct (has_column name cols) eqn:E.
  - apply has_column_in. rewrite set_column_names by exact E.
    now apply has_column_in.
  - unfold set_column. rewrite E. unfold has_column in *.
    rewrite existsb_app, H. reflexivity.
Qed.

(** C5: the written file has the template's schema: the same key
    column, the same column names in the same order, the same rows in
    the same order; every column other than the two probability columns
    is as in the template, and those two hold one probability per row. *)
Theorem output_has_template_schema
    (disk : gmap string DataFrame) (g : RandomState) (s' : session)
    (template : DataFrame) :
  run notebook (fresh disk g) = (None, s') ->
  read_csv (fresh disk g) submission_format "respondent_id" = Ok template ->
  has_column "h1n1_vaccine" (columns template) = true ->
  has_column "seasonal_vaccine" (columns template) = true ->
  exists out,
    files s' !! OUTPUT_DATA_PATH = Some out /\
    index_name out = index_name template /\
    index out = index template /\
    column_names out = column_names template /\
    (forall i name c,
        nth_error (columns template) i = Some (name, c) ->
        name <> "h1n1_vaccine" -> name <> "seasonal_vaccine" ->
        nth_error (columns out) i = Some (name, c)) /\
    (forall i name c,
        nth_error (columns template) i = Some (name, c) ->
        name = "h1n1_vaccine" \/ name = "seasonal_vaccine" ->
        exists v, nth_error (columns out) i
                  = Some (name, FloatCol (map Some v)) /\
                  length v = length (index template)).
Proof.
  intros H Ht Hh Hs.
  apply successful_run in H
    as (t & sub & p & a & v0 & v1 & _ & Hsub & _ & _ & _ & L0 & L1 & _ & _ & HF).
  rewrite Ht in Hsub. injection Hsub as <-.
  eexists. rewrite HF, lookup_insert_eq. split; [reflexivity|].
  cbn [index_name index columns]. unfold column_names. cbn [columns].
  assert (Hs' : has_column "seasonal_vaccine"
                  (set_column "h1n1_vaccine" (FloatCol (map Some v0))
                     (columns template)) = true)
    by (apply set_column_has, Hs).
  repeat split.
  - rewrite !set_column_names by assumption. reflexivity.
  - intros i name c Hn N1 N2.
    apply set_column_nth_other; [exact Hs'| |exact N2].
    apply set_column_nth_other; assumption.
  - intros i name c Hn [-> | ->].
    + exists v0. split; [|exact L0].
      apply set_column_nth_other; [exact Hs'| |discriminate].
      eapply set_column_nth_same; eassumption.
    + exists v1. split; [|exact L1].
      eapply set_column_nth_same; [exact Hs'|].
      apply set_column_nth_other; [exact Hh|exact Hn|discriminate].
Qed.

(** C10: when the test set's index array differs from the template's, no
    run gets past the check of cell 100: the run stops at cell 100 at the
    latest, at cell 100 it stops on the assertion, the disk is as it was
    found (no submission file is written), and [submission_df], if it is
    bound at all, still holds the template as read. *)
Theorem failed_check_writes_nothing
    (disk : gmap string DataFrame) (g : RandomState)
    (test template : DataFrame)
    (r : option (nat * exception)) (s' : session) :
  read_csv (fresh disk g) test_set_features "respondent_id" = Ok test ->
  read_csv (fresh disk g) submission_format "respondent_id" = Ok template ->
  index test <> index template ->
  run notebook (fresh disk g) = (r, s') ->
  files s' = disk /\
  (globals s' !! "submission_df" = None \/
   globals s' !! "submission_df" = Some (VFrame template)) /\
  exists c ex,
    r = Some (c, ex) /\ (c <= 100)%nat /\
    (c = 100%nat ->
     ex = AssertionError /\
     globals s' !! "submission_df" = Some (VFrame template)).
Proof.
  intros Ht Hs Hne.
  rewrite notebook_tail, run_app.
  destruct (run before_test (fresh disk g)) as [r1 s1] eqn:E1.
  apply before_test_facts in E1 as (HF & HD & _ & Hsub & Hc).
  destruct r1 as [[c ex]|].
  { intros [= <- <-]. repeat split; auto.
    exists c, ex. specialize (Hc c ex eq_refl).
    split; [reflexivity|]. split; [lia|]. intros ->. lia. }
  rewrite run_app, (run_predicting s1 HD).
  rewrite !(read_csv_files s1 (fresh disk g)) by exact HF.
  rewrite Ht, Hs. cbv zeta.
  destruct (predict_on "test_features_df" _) as [v|ex].
  - set (s4 := bind_var "submission_df" _ _).
    rewrite (run_submitting s4 test template)
      by (apply var_frame_inv; unfold s4; lookups; reflexivity).
    apply assert_array_equal_raises in Hne. rewrite Hne.
    intros [= <- <-]. unfold s4. lookups. repeat split; auto.
    exists 100%nat, AssertionError. auto.
  - intros [= <- <-]. lookups. repeat split; auto.
    exists 94%nat, ex.
    split; [reflexivity|]. split; [lia|]. discriminate.
Qed.

(** ** Where an assertion can fail *)

Lemma quiet_ok {A} (a : A) : quiet (Ok a).
Proof. discriminate. Qed.

Lemma quiet_raise {A} (e : exception) :
  e <> AssertionError -> quiet (@Raise A e).
Proof. intros H [= E]. contradiction. Qed.

Lemma quiet_bind {A B} (r : result A) (k : A -> result B) :
  quiet r -> (forall a, quiet (k a)) -> quiet (rbind r k).
Proof.
  unfold quiet. destruct r as [a|e]; simpl; intros Hr Hk.
  - apply Hk.
  - intros [= ->]. now apply Hr.
Qed.

Lemma quiet_rmap {A B} (f : A -> result B) (l : list A) :
  (forall a, quiet (f a)) -> quiet (rmap f l).
Proof.
  intros Hf. induction l as [|a l IH]; simpl.
  - apply quiet_ok.
  - apply quiet_bind; [apply Hf|]. intros b.
    apply quiet_bind; [exact IH|]. intros bs. apply quiet_ok.
Qed.

Create HintDb quiet.

Ltac quiet_step :=
  first
    [ apply quiet_ok
    | apply quiet_raise; discriminate
    | solve [auto with quiet]
    | apply quiet_bind; [|intros ?]
    | apply quiet_rmap; intros ?
    | match goal with
      | |- quiet (match ?x with _ => _ end) => destruct x
      end ].

Ltac quiet_tac := cbv beta; repeat quiet_step.

Lemma quiet_take {A} (rows : list nat) (l : list A) : quiet (take rows l).
Proof. induction rows as [|i rows IH]; simpl; quiet_tac. Qed.
Hint Resolve quiet_take : quiet.

Lemma quiet_getitem df name : quiet (getitem df name).
Proof. unfold getitem. quiet_tac. Qed.
Hint Resolve quiet_getitem : quiet.

Lemma quiet_getitems df names : quiet (getitems df names).
Proof. unfold getitems. quiet_tac. Qed.
Hint Resolve quiet_getitems : quiet.

Lemma quiet_setitem df name values : quiet (setitem df name values).
Proof. unfold setitem. quiet_tac. Qed.
Hint Resolve quiet_setitem : quiet.

Lemma quiet_take_column rows c : quiet (take_column rows c).
Proof. unfold take_column. quiet_tac. Qed.
Hint Resolve quiet_take_column : quiet.

Lemma quiet_iloc df rows : quiet (iloc df rows).
Proof. unfold iloc. quiet_tac. Qed.
Hint Resolve quiet_iloc : quiet.

Lemma quiet_join l r : quiet (join l r).
Proof. unfold join. quiet_tac. Qed.
Hint Resolve quiet_join : quiet.

Lemma quiet_DataFrame_of cols n idx : quiet (DataFrame_of cols n idx).
Proof. unfold DataFrame_of. quiet_tac. Qed.
Hint Resolve quiet_DataFrame_of : quiet.

Lemma quiet_to_float c : quiet (to_float c).
Proof. unfold to_float. quiet_tac. Qed.
Hint Resolve quiet_to_float : quiet.

Lemma quiet_select_columns names df : quiet (select_columns names df).
Proof. unfold select_columns. quiet_tac. Qed.
Hint Resolve quiet_select_columns : quiet.

Lemma quiet_check_array n cols : quiet (check_array n cols).
Proof. unfold check_array. quiet_tac. Qed.
Hint Resolve quiet_check_array : quiet.

Lemma quiet_int_labels c : quiet (int_labels c).
Proof. unfold int_labels. quiet_tac. Qed.
Hint Resolve quiet_int_labels : quiet.

Lemma quiet_encode_labels c : quiet (encode_labels c).
Proof. unfold encode_labels. quiet_tac. Qed.
Hint Resolve quiet_encode_labels : quiet.

Lemma quiet_roc_curve y sc : quiet (roc_curve y sc).
Proof. unfold roc_curve. quiet_tac. Qed.
Hint Resolve quiet_roc_curve : quiet.

Lemma quiet_binary_roc_auc_score y sc : quiet (binary_roc_auc_score y sc).
Proof. unfold binary_roc_auc_score. quiet_tac. Qed.
Hint Resolve quiet_binary_roc_auc_score : quiet.

Lemma quiet_roc_auc_score y sc : quiet (roc_auc_score y sc).
Proof. unfold roc_auc_score. quiet_tac. Qed.
Hint Resolve quiet_roc_auc_score : quiet.

Lemma quiet_column_scores y sc : quiet (column_scores y sc).
Proof.
  revert y. induction sc as [|s sc IH]; intros [|y ys]; simpl; quiet_tac;
    apply IH.
Qed.
Hint Resolve quiet_column_scores : quiet.

Lemma quiet_roc_auc_score_multilabel y sc :
  quiet (roc_auc_score_multilabel y sc).
Proof. unfold roc_auc_score_multilabel. quiet_tac. Qed.
Hint Resolve quiet_roc_auc_score_multilabel : quiet.

Lemma quiet_var s x : quiet (var s x).
Proof. unfold var. quiet_tac. Qed.
Hint Resolve quiet_var : quiet.

Lemma quiet_var_frame s x : quiet (var_frame s x).
Proof. unfold var_frame. quiet_tac. Qed.
Lemma quiet_var_names s x : quiet (var_names s x).
Proof. unfold var_names. quiet_tac. Qed.
Lemma quiet_var_int s x : quiet (var_int s x).
Proof. unfold var_int. quiet_tac. Qed.
Lemma quiet_var_path s x : quiet (var_path s x).
Proof. unfold var_path. quiet_tac. Qed.
Lemma quiet_var_pipeline s x : quiet (var_pipeline s x).
Proof. unfold var_pipeline. quiet_tac. Qed.
Lemma quiet_var_probas s x : quiet (var_probas s x).
Proof. unfold var_probas. quiet_tac. Qed.
Hint Resolve quiet_var_frame quiet_var_names quiet_var_int quiet_var_path
  quiet_var_pipeline quiet_var_probas : quiet.

Lemma quiet_read_csv s path key : quiet (read_csv s path key).
Proof. unfold read_csv. quiet_tac. Qed.
Hint Resolve quiet_read_csv : quiet.

Lemma quiet_train_test_split s X y st seed :
  quiet (train_test_split s X y st seed).
Proof. unfold train_test_split. quiet_tac. Qed.
Hint Resolve quiet_train_test_split : quiet.

Lemma quiet_fit_target X c : quiet (fit_target X c).
Proof. unfold fit_target. quiet_tac. Qed.
Hint Resolve quiet_fit_target : quiet.

Lemma quiet_fit p X y : quiet (fit p X y).
Proof. unfold fit. quiet_tac. Qed.
Hint Resolve quiet_fit : quiet.

Lemma quiet_predict_proba p X : quiet (predict_proba p X).
Proof. unfold predict_proba. quiet_tac. Qed.
Hint Resolve quiet_predict_proba : quiet.

Lemma quiet_item a k : quiet (item a k).
Proof. unfold item. quiet_tac. Qed.
Hint Resolve quiet_item : quiet.

Lemma quiet_class_1 a k : quiet (class_1 a k).
Proof. unfold class_1. quiet_tac. Qed.
Hint Resolve quiet_class_1 : quiet.

Lemma quiet_scores_of c : quiet (scores_of c).
Proof. unfold scores_of. quiet_tac. Qed.
Hint Resolve quiet_scores_of : quiet.

Lemma quiet_vaccination_rate_plot col target data s :
  quiet (vaccination_rate_plot col target data s).
Proof. unfold vaccination_rate_plot. quiet_tac. Qed.
Hint Resolve quiet_vaccination_rate_plot : quiet.

Lemma quiet_plot_roc y sc : quiet (plot_roc y sc).
Proof. unfold plot_roc. quiet_tac. Qed.
Hint Resolve quiet_plot_roc : quiet.

Lemma silent_assign x e : (forall s, quiet (e s)) -> silent (Assign x e).
Proof.
  intros H s s'. simpl. specialize (H s).
  destruct (e s); [discriminate|]. intros [= -> _]. now apply H.
Qed.

Lemma silent_unpack xs e : (forall s, quiet (e s)) -> silent (Unpack xs e).
Proof.
  intros H s s'. simpl. specialize (H s).
  destruct (e s); [destruct (Nat.eqb _ _); discriminate|].
  intros [= -> _]. now apply H.
Qed.

Lemma silent_expr e : (forall s, quiet (e s)) -> silent (Expr e).
Proof.
  intros H s s'. simpl. specialize (H s).
  destruct (e s); [discriminate|]. intros [= -> _]. now apply H.
Qed.

Lemma silent_setitem x col e :
  (forall s, quiet (e s)) -> silent (SetItem x col e).
Proof.
  intros H s s'. cbn [exec].
  assert (Q : quiet (let* values := e s in
                     let* df := var_frame s x in setitem df col values))
    by (quiet_tac; apply H).
  destruct (rbind _ _); [discriminate|]. intros [= -> _]. now apply Q.
Qed.

Lemma silent_tocsv x path :
  (forall s, quiet (path s)) -> silent (ToCsv x path).
Proof.
  intros H s s'. cbn [exec].
  assert (Q : quiet (let* df := var_frame s x in
                     let* p := path s in Ok (p, df)))
    by (quiet_tac; apply H).
  destruct (rbind _ _) as [[? ?]|]; [discriminate|].
  intros [= -> _]. now apply Q.
Qed.

Lemma run_silent (p : list (nat * stmt)) (s s' : session) (c : nat) :
  Forall (fun cs => silent (snd cs)) p ->
  run p s <> (Some (c, AssertionError), s').
Proof.
  intros F. revert s. induction F as [|[c0 st] p Hst F IH]; intros s; simpl.
  - discriminate.
  - destruct (exec st s) as [[ex|] s1] eqn:E; [|apply IH].
    intros [= -> -> ->]. exact (Hst _ _ E).
Qed.

Ltac silent_tac :=
  first [ apply silent_assign | apply silent_unpack | apply silent_expr
        | apply silent_setitem | apply silent_tocsv ];
  intros ?;
  cbv [const load read_columns derived plot_all split fit_on predict_on
       make_y_preds plot_roc_for overall_auc test_class_1];
  quiet_tac.

Lemma silent_cells :
  Forall (fun cs => silent (snd cs)) (firstn 6 notebook) /\
  Forall (fun cs => silent (snd cs)) (firstn 48 (skipn 7 notebook)) /\
  Forall (fun cs => silent (snd cs)) (skipn 56 notebook).
Proof.
  unfold notebook, loading, exploring, modelling, predicting, submitting,
    cell, show, subplots.
  cbn [map app firstn skipn snd].
  repeat split; repeat (constructor; [cbn [snd]; silent_tac|]);
    constructor.
Qed.

(** ** The two checks *)

Lemma run_loading (disk : gmap string DataFrame) (g : RandomState) :
  let s1 := bind_var "DATA_PATH" (VPath "../data/raw") (fresh disk g) in
  run loading (fresh disk g) =
  match read_csv (fresh disk g) training_set_features "respondent_id" with
  | Raise ex => (Some (12%nat, ex), s1)
  | Ok f =>
      let s2 := bind_var "features_df" (VFrame f) s1 in
      match read_csv (fresh disk g) training_set_labels "respondent_id" with
      | Raise ex => (Some (12%nat, ex), s2)
      | Ok l =>
          let s3 := bind_var "labels_df" (VFrame l) s2 in
          match assert_array_equal (index f) (index l) with
          | Raise ex => (Some (20%nat, ex), s3)
          | Ok _ => (None, s3)
          end
      end
  end.
Proof.
  cbv zeta. unfold loading, cell. cbn [map app run].
  cbn [exec const]. rewrite load_eq by (lookups; reflexivity).
  change (path_join "../data/raw" "training_set_features.csv")
    with training_set_features.
  rewrite (read_csv_files _ (fresh disk g)) by reflexivity.
  destruct (read_csv (fresh disk g) training_set_features _) as [f|ex];
    cbn [rbind]; [|reflexivity].
  rewrite load_eq by (lookups; reflexivity).
  change (path_join "../data/raw" "training_set_labels.csv")
    with training_set_labels.
  rewrite (read_csv_files _ (fresh disk g)) by reflexivity.
  destruct (read_csv (fresh disk g) training_set_labels _) as [l|ex];
    cbn [rbind]; [|reflexivity].
  erewrite !show_ok by (lookups; reflexivity).
  cbn [exec]. unfold same_index.
  erewrite (proj2 (var_frame_inv _ "features_df" f))
    by (lookups; reflexivity).
  erewrite (proj2 (var_frame_inv _ "labels_df" l))
    by (lookups; reflexivity).
  cbn [rbind].
  destruct (assert_array_equal (index f) (index l)) as [[]|ex]; reflexivity.
Qed.

Lemma reaches_check (disk : gmap string DataFrame) (g : RandomState)
    (s4 : session) :
  run (before_test ++ predicting) (fresh disk g) = (None, s4) ->
  exists t sub,
    read_csv (fresh disk g) test_set_features "respondent_id" = Ok t /\
    read_csv (fresh disk g) submission_format "respondent_id" = Ok sub /\
    var_frame s4 "test_features_df" = Ok t /\
    var_frame s4 "submission_df" = Ok sub.
Proof.
  rewrite run_app.
  destruct (run before_test (fresh disk g)) as [[ce|] s1] eqn:E1;
    [discriminate|].
  apply before_test_facts in E1 as (HF & HD & _ & _ & _).
  rewrite (run_predicting s1 HD).
  rewrite !(read_csv_files s1 (fresh disk g)) by exact HF.
  destruct (read_csv (fresh disk g) test_set_features _) as [t|];
    [|discriminate].
  cbv zeta.
  destruct (predict_on "test_features_df" _) as [v|]; [|discriminate].
  destruct (read_csv (fresh disk g) submission_format _) as [sub|];
    [|discriminate].
  intros [= <-]. exists t, sub.
  repeat split; try apply var_frame_inv; lookups; reflexivity.
Qed.

Lemma notebook_checks :
  notebook =
  (firstn 6 notebook ++
   (20%nat, Expr (same_index "features_df" "labels_df")) ::
   firstn 48 (skipn 7 notebook) ++
   (100%nat, Expr (same_index "test_features_df" "submission_df")) ::
   skipn 56 notebook)%list.
Proof. reflexivity. Qed.

Lemma only_two_assertions (s s' : session) (c : nat) :
  run notebook s = (Some (c, AssertionError), s') ->
  c = 20%nat \/ c = 100%nat.
Proof.
  destruct silent_cells as (FA & FM & FZ).
  rewrite notebook_checks, run_app.
  destruct (run (firstn 6 notebook) s) as [[ce|] sA] eqn:EA.
  { intros [= -> ->]. now apply run_silent in EA. }
  cbn [run].
  destruct (exec _ sA) as [[ex|] sB]; [intros [= -> _ _]; now left|].
  rewrite run_app.
  destruct (run (firstn 48 (skipn 7 notebook)) sB) as [[ce|] sC] eqn:EM.
  { intros [= -> ->]. now apply run_silent in EM. }
  cbn [run].
  destruct (exec _ sC) as [[ex|] sD]; [intros [= -> _ _]; now right|].
  intros EZ. now apply run_silent in EZ.
Qed.

(** C3: the two index checks.  [assert_array_equal] raises exactly when
    its two arrays differ, in a key or in the order, and returns
    otherwise; a check between frames with equal indices leaves the
    session untouched and lets the run go on.  No statement other than
    the checks of cells 20 and 100 can stop a run on an assertion.  The
    run stops on the assertion of cell 20 exactly when the two training
    files load and their index arrays differ; it stops on the assertion
    of cell 100 exactly when it gets through cell 98 and the test set's
    index array differs from the template's. *)
Theorem assertions_abort_exactly_on_mismatch
    (disk : gmap string DataFrame) (g : RandomState) :
  (forall a b : list Z,
      (assert_array_equal a b = Raise AssertionError <-> a <> b) /\
      (assert_array_equal a b = Ok tt <-> a = b)) /\
  (forall (s : session) (x y : string) (a b : DataFrame),
      var_frame s x = Ok a -> var_frame s y = Ok b ->
      index a = index b ->
      exec (Expr (same_index x y)) s = (None, s)) /\
  (forall (c : nat) (s' : session),
      run notebook (fresh disk g) = (Some (c, AssertionError), s') ->
      c = 20%nat \/ c = 100%nat) /\
  ((exists s', run notebook (fresh disk g)
               = (Some (20%nat, AssertionError), s')) <->
   (exists f l,
       read_csv (fresh disk g) training_set_features "respondent_id" = Ok f /\
       read_csv (fresh disk g) training_set_labels "respondent_id" = Ok l /\
       index f <> index l)) /\
  ((exists s', run notebook (fresh disk g)
               = (Some (100%nat, AssertionError), s')) <->
   (exists s4 t sub,
       run (before_test ++ predicting) (fresh disk g) = (None, s4) /\
       read_csv (fresh disk g) test_set_features "respondent_id" = Ok t /\
       read_csv (fresh disk g) submission_format "respondent_id" = Ok sub /\
       index t <> index sub)).
Proof.
  split; [|split; [|split; [|split]]].
  - intros a b. split.
    + apply assert_array_equal_raises.
    + apply assert_array_equal_ok.
  - intros s x y a b Ha Hb E. cbn [exec]. unfold same_index.
    rewrite Ha, Hb. cbn [rbind].
    rewrite (proj2 (assert_array_equal_ok _ _) E). reflexivity.
  - intros c s'. apply only_two_assertions.
  - change notebook with
      (loading ++ exploring ++ modelling ++ predicting ++ submitting)%list.
    rewrite run_app, run_loading. cbv zeta.
    destruct (read_csv (fresh disk g) training_set_features _) as [f|ex].
    2:{ split; [intros [s' [= _]]|intros (f & l & [= ] & _)]. }
    destruct (read_csv (fresh disk g) training_set_labels _) as [l|ex].
    2:{ split; [intros [s' [= _]]|intros (f' & l & _ & [= ] & _)]. }
    destruct (assert_array_equal (index f) (index l)) as [[]|ex] eqn:E.
    + split.
      * intros [s' H]. apply run_stops_in in H. exfalso.
        assert (F : forallb (fun c => negb (Nat.eqb c 20))
                      (map fst (exploring ++ modelling ++ predicting
                                  ++ submitting)%list) = true)
          by (vm_compute; reflexivity).
        rewrite forallb_forall in F. specialize (F _ H).
        discriminate.
      * intros (f' & l' & [= <-] & [= <-] & Hne).
        apply assert_array_equal_ok in E. contradiction.
    + split.
      * intros [s' [= -> _]]. exists f, l.
        apply assert_array_equal_raises in E. auto.
      * intros (f' & l' & [= <-] & [= <-] & Hne).
        apply assert_array_equal_raises in Hne.
        rewrite Hne in E. injection E as <-. eauto.
  - change notebook with
      ((before_test ++ predicting) ++ submitting)%list.
    rewrite run_app. split.
    + intros [s' H].
      destruct (run (before_test ++ predicting) (fresh disk g))
        as [[ce|] s4] eqn:E4.
      { injection H as -> ->. apply run_stops_in in E4. exfalso.
        assert (F : forallb (fun c => negb (Nat.eqb c 100))
                      (map fst (before_test ++ predicting)%list) = true)
          by (vm_compute; reflexivity).
        rewrite forallb_forall in F. specialize (F _ E4).
        discriminate. }
      destruct (reaches_check disk g s4 E4) as (t & sub & Ht & Hs & Vt & Vs).
      exists s4, t, sub. repeat split; try assumption.
      rewrite (run_submitting s4 t sub Vt Vs) in H.
      destruct (assert_array_equal (index t) (index sub)) as [[]|ex] eqn:E.
      * exfalso.
        assert (Q : forall k df name,
                   quiet (let* v := test_class_1 k s4 in
                          setitem df name v)).
        { intros. unfold test_class_1. quiet_tac. }
        destruct (rbind (test_class_1 0 s4) _) as [sub1|ex] eqn:E0.
        2:{ injection H as -> _. now apply Q in E0. }
        cbv zeta in H.
        destruct (rbind (test_class_1 1 s4) _) as [sub2|ex] eqn:E1.
        2:{ injection H as -> _. now apply Q in E1. }
        discriminate.
      * injection H as -> _. now apply assert_array_equal_raises.
    + intros (s4 & t & sub & E4 & Ht & Hs & Hne). rewrite E4.
      destruct (reaches_check disk g s4 E4)
        as (t' & sub' & Ht' & Hs' & Vt & Vs).
      rewrite Ht in Ht'. injection Ht' as <-.
      rewrite Hs in Hs'. injection Hs' as <-.
      rewrite (run_submitting s4 t sub Vt Vs).
      apply assert_array_equal_raises in Hne. rewrite Hne. eauto.
Qed.

(** ** The seed *)

(** ** What the pipeline reads of a feature table *)

Lemma same_numeric_names (X X' : DataFrame) :
  same_numeric X X' -> non_object_columns X = non_object_columns X'.
Proof.
  intros [_ F]. unfold non_object_columns.
  induction F as [|[n c] [n' c'] cols cols' (E1 & E2 & E3) F IH];
    cbn [List.filter map fst snd] in *.
  - reflexivity.
  - subst n'. rewrite <- E2.
    destruct (is_object c); cbn [negb map fst]; [exact IH|].
    now rewrite IH.
Qed.

Lemma same_numeric_column (X X' : DataFrame) (n : string) :
  same_numeric X X' ->
  match get_column n (columns X) with
  | Some c => to_float c
  | None => Raise ValueError
  end =
  match get_column n (columns X') with
  | Some c => to_float c
  | None => Raise ValueError
  end.
Proof.
  intros [_ F].
  induction F as [|[m c] [m' c'] cols cols' (E1 & E2 & E3) F IH];
    cbn [get_column fst snd] in *.
  - reflexivity.
  - subst m'. destruct (String.eqb m n); [|exact IH].
    destruct c; cbn [is_object] in *.
    + now rewrite <- E3.
    + now rewrite <- E3.
    + destruct c'; cbn [is_object] in *; try discriminate. reflexivity.
Qed.

Lemma rmap_ext {A B} (f f' : A -> result B) (l : list A) :
  (forall a, f a = f' a) -> rmap f l = rmap f' l.
Proof.
  intros E. induction l as [|a l IH]; simpl; [reflexivity|].
  now rewrite E, IH.
Qed.

Lemma same_numeric_select (X X' : DataFrame) (names : list string) :
  same_numeric X X' -> select_columns names X = select_columns names X'.
Proof.
  intros H. unfold select_columns. apply rmap_ext.
  intros n. now apply same_numeric_column.
Qed.

(** C9: the pipeline reads a feature table only through its columns that
    are not of dtype object.  For two training tables and two test
    tables that differ at most in their object columns, [numeric_cols]
    is the same list, fitting gives the same fitted pipeline, and every
    pipeline, fitted on whatever, predicts the same probabilities. *)
Theorem object_columns_do_not_interfere (X X' T T' : DataFrame) :
  same_numeric X X' -> same_numeric T T' ->
  non_object_columns X = non_object_columns X' /\
  (forall p y, fit p X y = fit p X' y) /\
  (forall p, predict_proba p T = predict_proba p T').
Proof.
  intros HX HT. split; [now apply same_numeric_names|]. split.
  - intros p y. unfold fit.
    rewrite (same_numeric_select X X' _ HX).
    destruct HX as [-> _]. reflexivity.
  - intros p. unfold predict_proba.
    destruct (fitted_ p) as [f|]; [|reflexivity].
    rewrite (same_numeric_select T T' _ HT).
    destruct HT as [-> _]. reflexivity.
Qed.

(** ** Probabilities *)

Lemma expit_bounds (z : R) : (0 < expit z < 1)%R.
Proof.
  unfold expit. pose proof (exp_pos (- z)) as H.
  split.
  - apply Rdiv_lt_0_compat; lra.
  - apply (Rmult_lt_reg_r (1 + exp (- z))); [lra|].
    unfold Rdiv. rewrite Rmult_assoc, Rinv_l by lra. lra.
Qed.

Lemma Rsum_exp_pos (zs : list R) (z : R) :
  In z zs -> (0 < exp z <= Rsum (map exp zs))%R.
Proof.
  induction zs as [|y zs IH]; simpl; [tauto|].
  assert (P : (0 <= Rsum (map exp zs))%R).
  { clear. induction zs as [|y zs IH]; simpl; [lra|].
    pose proof (exp_pos y). lra. }
  pose proof (exp_pos y) as Hy.
  intros [<- | Hin]; [lra|].
  specialize (IH Hin). lra.
Qed.

Lemma softmax_bounds (zs : list R) : Forall unit_interval (softmax zs).
Proof.
  unfold softmax. rewrite List.Forall_forall. intros x Hx.
  apply in_map_iff in Hx as (e & <- & He).
  apply in_map_iff in He as (z & <- & Hz).
  destruct (Rsum_exp_pos zs z Hz) as [P L].
  split.
  - apply Rlt_le, Rdiv_lt_0_compat; lra.
  - apply (Rmult_le_reg_r (Rsum (map exp zs))); [lra|].
    unfold Rdiv. rewrite Rmult_assoc, Rinv_l by lra. lra.
Qed.

Lemma predict_proba_row_bounds (m : LogisticRegression) (x : list R) :
  Forall unit_interval (predict_proba_row m x).
Proof.
  unfold predict_proba_row. destruct (Nat.eqb (n_classes m) 2).
  - pose proof (expit_bounds
                  (decision_function (hd ([], 0%R) (coef_ m)) x)) as H.
    repeat constructor; lra.
  - apply softmax_bounds.
Qed.

Lemma predict_proba_bounds (p : Pipeline) (X : DataFrame)
    (a : list (list (list R))) :
  predict_proba p X = Ok a -> probas_ok a.
Proof.
  unfold predict_proba. destruct (fitted_ p) as [f|]; [|discriminate].
  intros H.
  apply rbind_ok in H as (cols & _ & H).
  apply rbind_ok in H as (rows & _ & H).
  injection H as <-. unfold probas_ok.
  rewrite List.Forall_forall. intros arr Harr.
  apply in_map_iff in Harr as (m & <- & _).
  rewrite List.Forall_forall. intros row Hrow.
  apply in_map_iff in Hrow as (x & <- & _).
  apply predict_proba_row_bounds.
Qed.

Lemma rmap_ok_Forall {A B} (f : A -> result B) (P : A -> Prop)
    (Q : B -> Prop) (l : list A) (l' : list B) :
  (forall a b, P a -> f a = Ok b -> Q b) ->
  Forall P l -> rmap f l = Ok l' -> Forall Q l'.
Proof.
  intros Hf F. revert l'. induction F as [|a l Ha F IH]; intros l'; simpl.
  - intros [= <-]. constructor.
  - intros H. apply rbind_ok in H as (b & Hb & H).
    apply rbind_ok in H as (bs & Hbs & H). injection H as <-.
    constructor; [eapply Hf; eassumption|apply IH, Hbs].
Qed.

Lemma class_1_bounds (a : list (list (list R))) (k : nat) (v : list R) :
  probas_ok a -> class_1 a k = Ok v -> Forall unit_interval v.
Proof.
  unfold class_1, probas_ok. intros Ha.
  destruct (nth_error a k) as [arr|] eqn:E; [|discriminate].
  assert (Harr : Forall (Forall unit_interval) arr).
  { rewrite List.Forall_forall in Ha. apply Ha. eapply nth_error_In, E. }
  apply (rmap_ok_Forall _ (Forall unit_interval)); [|exact Harr].
  intros row x Hrow.
  destruct (nth_error row 1) as [y|] eqn:E1; [|discriminate].
  intros [= <-]. rewrite List.Forall_forall in Hrow.
  apply Hrow. eapply nth_error_In, E1.
Qed.

Lemma get_column_set_same (name : string) (c : column)
    (cols : list (string * column)) :
  get_column name (set_column name c cols) = Some c.
Proof.
  unfold set_column. destruct (has_column name cols) eqn:H.
  - induction cols as [|[n c0] cols IH]; simpl in *; [discriminate|].
    destruct (String.eqb n name) eqn:E; simpl.
    + rewrite E. reflexivity.
    + rewrite E. apply IH, H.
  - induction cols as [|[n c0] cols IH]; simpl in *.
    + rewrite String.eqb_refl. reflexivity.
    + apply orb_false_iff in H as [E H]. rewrite E. apply IH, H.
Qed.

Lemma get_column_set_other (name n : string) (c : column)
    (cols : list (string * column)) :
  n <> name ->
  get_column n (set_column name c cols) = get_column n cols.
Proof.
  intros Hne. apply String.eqb_neq in Hne.
  assert (Hne' : String.eqb name n = false)
    by (rewrite String.eqb_sym; exact Hne).
  unfold set_column. destruct (has_column name cols).
  - induction cols as [|[m c0] cols IH]; simpl; [reflexivity|].
    destruct (String.eqb m name) eqn:E; simpl.
    + apply String.eqb_eq in E. subst m. rewrite Hne'. exact IH.
    + destruct (String.eqb m n); [reflexivity|exact IH].
  - induction cols as [|[m c0] cols IH]; simpl.
    + rewrite Hne'. reflexivity.
    + destruct (String.eqb m n); [reflexivity|exact IH].
Qed.

Lemma bind_var_ok (x : string) (v : value) (s : session) :
  value_ok v -> session_ok s -> session_ok (bind_var x v s).
Proof.
  intros Hv Hs y w. cbn [globals bind_var].
  destruct (decide (x = y)) as [->|Hne].
  - rewrite lookup_insert_eq. intros [= <-]. exact Hv.
  - rewrite lookup_insert_ne by exact Hne. apply Hs.
Qed.

Lemma bind_vars_ok (xs : list string) (vs : list value) (s : session) :
  Forall value_ok vs -> session_ok s -> session_ok (bind_vars xs vs s).
Proof.
  intros F. revert xs s.
  induction F as [|v vs Hv F IH]; intros [|x xs] s Hs; simpl; auto.
  apply IH, bind_var_ok; assumption.
Qed.

Lemma exec_ok (st : stmt) (s : session) :
  stmt_ok st -> session_ok s -> session_ok (snd (exec st s)).
Proof.
  destruct st; cbn [stmt_ok exec]; intros Hst Hs.
  - destruct (e s) eqn:E; cbn [snd]; [|exact Hs].
    apply bind_var_ok; eauto.
  - destruct (e s) eqn:E; cbn [snd]; [|exact Hs].
    destruct (Nat.eqb _ _); cbn [snd]; [|exact Hs].
    apply bind_vars_ok; eauto.
  - destruct (e s); exact Hs.
  - destruct (rbind _ _); cbn [snd]; [|exact Hs].
    apply bind_var_ok; [exact I|exact Hs].
  - destruct (rbind _ _) as [[? ?]|]; exact Hs.
Qed.

Lemma run_ok (p : list (nat * stmt)) (s : session) :
  Forall (fun cs => stmt_ok (snd cs)) p ->
  session_ok s -> session_ok (snd (run p s)).
Proof.
  intros F. revert s. induction F as [|[c st] p Hst F IH]; intros s Hs.
  - exact Hs.
  - cbn [run]. pose proof (exec_ok st s Hst Hs) as H1.
    destruct (exec st s) as [[ex|] s1]; cbn [snd] in *; [exact H1|].
    apply IH, H1.
Qed.

Ltac value_tac :=
  let H := fresh "H" in
  intros ? ? H;
  cbv [const load derived split fit_on make_y_preds] in H;
  repeat (apply rbind_ok in H as (? & ? & H));
  try (injection H as <-);
  try exact I; try (repeat constructor).

Lemma train_test_split_ok s X y st seed vs :
  train_test_split s X y st seed = Ok vs -> Forall value_ok vs.
Proof.
  unfold train_test_split. intros H.
  destruct (negb _); [discriminate|].
  destruct (Nat.eqb _ 0); [discriminate|].
  destruct (StratifiedShuffleSplit _ _ _ _) as [[train test]|];
    [|discriminate].
  repeat (apply rbind_ok in H as (? & ? & H)).
  injection H as <-. repeat constructor.
Qed.

Lemma notebook_ok : Forall (fun cs => stmt_ok (snd cs)) notebook.
Proof.
  unfold notebook, loading, exploring, modelling, predicting, submitting,
    cell, show, subplots.
  cbn [map app].
  repeat (constructor;
          [cbn [snd stmt_ok];
           first [ exact I
                 | intros s v H; apply predict_on_inv in H
                     as (p & X & a & _ & _ & Ha & ->);
                   exact (predict_proba_bounds _ _ _ Ha)
                 | intros s vs H; unfold split in H;
                   repeat (apply rbind_ok in H as (? & ? & H));
                   exact (train_test_split_ok _ _ _ _ _ _ H)
                 | value_tac ] |]).
  constructor.
Qed.

(** C2: every probability the program produces lies in [0, 1].  Whatever
    the pipeline was fitted to, every entry of a [predict_proba] result
    does; so at whatever point a run ends, every array of probabilities
    held by a variable ([preds] for the evaluation rows, [test_probas]
    for the test rows) does; and in a run that reaches its end the two
    columns of the written submission hold numbers of [0, 1]. *)
Theorem every_probability_in_unit_interval
    (disk : gmap string DataFrame) (g : RandomState) :
  (forall p X a, predict_proba p X = Ok a -> probas_ok a) /\
  (forall x a,
      globals (snd (run notebook (fresh disk g))) !! x = Some (VProbas a) ->
      probas_ok a) /\
  (forall s',
      run notebook (fresh disk g) = (None, s') ->
      exists out a h1n1 seasonal,
        globals s' !! "test_probas" = Some (VProbas a) /\
        class_1 a 0 = Ok h1n1 /\ class_1 a 1 = Ok seasonal /\
        files s' !! OUTPUT_DATA_PATH = Some out /\
        get_column "h1n1_vaccine" (columns out)
        = Some (FloatCol (map Some h1n1)) /\
        get_column "seasonal_vaccine" (columns out)
        = Some (FloatCol (map Some seasonal)) /\
        Forall unit_interval h1n1 /\ Forall unit_interval seasonal).
Proof.
  split; [exact predict_proba_bounds|]. split.
  - intros x a H.
    assert (S0 : session_ok (fresh disk g)).
    { intros y v. cbn [globals fresh]. rewrite lookup_empty. discriminate. }
    exact (run_ok notebook _ notebook_ok S0 x _ H).
  - intros s' H.
    apply successful_run in H
      as (t & sub & p & a & v0 & v1 & _ & _ & Ha & H0 & H1 & _ & _ & _
          & Hg & HF).
    apply predict_proba_bounds in Ha.
    eexists _, a, v0, v1. rewrite HF, lookup_insert_eq.
    repeat split; try eassumption; try reflexivity; cbn [columns].
    + rewrite get_column_set_other by discriminate.
      apply get_column_set_same.
    + apply get_column_set_same.
    + eapply class_1_bounds; eassumption.
    + eapply class_1_bounds; eassumption.
Qed.

(** ** Scaling, then median imputation *)

Lemma insert_sorted_length (x : R) (l : list R) :
  length (insert_sorted x l) = S (length l).
Proof.
  induction l as [|y l IH]; simpl; [reflexivity|].
  destruct (Rle_dec x y); simpl; [reflexivity|]. now rewrite IH.
Qed.

Lemma sort_length (l : list R) : length (sort l) = length l.
Proof.
  induction l as [|x l IH]; simpl; [reflexivity|].
  now rewrite insert_sorted_length, IH.
Qed.

Section Increasing.
Variable f : R -> R.
Hypothesis f_le : forall x y, (x <= y)%R <-> (f x <= f y)%R.

Lemma insert_sorted_map (x : R) (l : list R) :
  insert_sorted (f x) (map f l) = map f (insert_sorted x l).
Proof.
  induction l as [|y l IH]; simpl; [reflexivity|].
  destruct (Rle_dec (f x) (f y)) as [H|H], (Rle_dec x y) as [H'|H'];
    simpl.
  - reflexivity.
  - apply f_le in H. contradiction.
  - apply f_le in H'. contradiction.
  - now rewrite IH.
Qed.

Lemma sort_map (l : list R) : sort (map f l) = map f (sort l).
Proof.
  induction l as [|x l IH]; simpl; [reflexivity|].
  now rewrite IH, insert_sorted_map.
Qed.
End Increasing.

Lemma scale_value_le (p : R * R) (x y : R) :
  (0 < snd p)%R -> (x <= y)%R <-> (scale_value p x <= scale_value p y)%R.
Proof.
  intros Hs. unfold scale_value.
  assert (Hi : (0 < / snd p)%R) by now apply Rinv_0_lt_compat.
  unfold Rdiv. split; intros H.
  - apply Rmult_le_compat_r; lra.
  - apply (Rmult_le_reg_r (/ snd p)) in H; lra.
Qed.

Lemma nth_map_in_range (f : R -> R) (l : list R) (i : nat) :
  (i < length l)%nat -> nth i (map f l) 0%R = f (nth i l 0%R).
Proof.
  intros H. rewrite (nth_indep _ 0%R (f 0%R)) by now rewrite length_map.
  apply map_nth.
Qed.

(** The median commutes with the scaler's map. *)
Lemma median_scaled (p : R * R) (xs : list R) :
  (0 < snd p)%R ->
  median (map (scale_value p) xs) = option_map (scale_value p) (median xs).
Proof.
  intros Hs. unfold median.
  rewrite length_map,
    (sort_map _ (fun x y => scale_value_le p x y Hs)).
  destruct (length xs) as [|n] eqn:Hn; [reflexivity|].
  cbn [option_map]. f_equal.
  assert (L : length (sort xs) = S n) by now rewrite sort_length.
  assert (H2 : (S n / 2 < S n)%nat)
    by (apply Nat.Div0.div_lt_upper_bound; lia).
  destruct (Nat.even (S n)).
  - rewrite !nth_map_in_range by lia.
    unfold scale_value. field. lra.
  - rewrite nth_map_in_range by lia. reflexivity.
Qed.

Lemma observed_scaled (p : R * R) (c : list (option R)) :
  observed (scaler_transform (Some p) c) = map (scale_value p) (observed c).
Proof.
  induction c as [|[x|] c IH]; simpl; [reflexivity| |exact IH].
  now rewrite IH.
Qed.

Lemma handle_zeros_in_scale_pos (v : R) :
  (0 < handle_zeros_in_scale (sqrt v))%R.
Proof.
  unfold handle_zeros_in_scale. pose proof (sqrt_pos v).
  destruct (Req_dec_T (sqrt v) 0); lra.
Qed.

Lemma scaler_fit_observed (c : list (option R)) :
  observed c <> [] ->
  exists mu sigma,
    scaler_fit c = Some (mu, sigma) /\ nanmean c = Some mu /\
    (0 < sigma)%R.
Proof.
  intros H. unfold scaler_fit, nanmean, nanvar.
  destruct (observed c) as [|x xs]; [contradiction|].
  eexists _, _. repeat split. apply handle_zeros_in_scale_pos.
Qed.

Lemma median_nonempty (xs : list R) :
  xs <> [] -> exists m, median xs = Some m.
Proof.
  unfold median. destruct xs as [|x xs]; [contradiction|].
  intros _. cbn [length]. eauto.
Qed.

Lemma fit_steps (p p' : Pipeline) (X y : DataFrame) :
  fit p X y = Ok p' ->
  exists cols f,
    select_columns (columns_ p) X = Ok cols /\
    fitted_ p' = Some f /\ numeric_ f = map numeric_fit cols.
Proof.
  unfold fit. intros H.
  apply rbind_ok in H as (cols & Hc & H).
  apply rbind_ok in H as (rows & _ & H).
  destruct (negb _); [discriminate|].
  apply rbind_ok in H as (models & _ & H).
  injection H as <-. eexists _, _. repeat split. exact Hc.
Qed.

Lemma numeric_fit_statistic (c : list (option R)) :
  (observed c = [] -> statistic_ (numeric_fit c) = None) /\
  (observed c <> [] -> exists m, statistic_ (numeric_fit c) = Some m).
Proof.
  unfold numeric_fit. cbn [statistic_]. unfold imputer_fit, nanmedian.
  split.
  - intros E. unfold scaler_fit, nanmean. rewrite E.
    assert (O : observed (scaler_transform None c) = []).
    { clear. induction c as [|[x|] c IH]; simpl; auto. }
    rewrite O. reflexivity.
  - intros H.
    destruct (scaler_fit_observed c H) as (mu & sigma & -> & _ & _).
    apply median_nonempty. rewrite observed_scaled.
    destruct (observed c); [contradiction|discriminate].
Qed.

Lemma fit_inv (p p' : Pipeline) (X y : DataFrame) :
  fit p X y = Ok p' ->
  exists cols rows models,
    select_columns (columns_ p) X = Ok cols /\
    check_array (length (index X))
      (transform_columns (map numeric_fit cols) cols) = Ok rows /\
    length (index y) = length (index X) /\
    rmap (fun nc => fit_target rows (snd nc)) (columns y) = Ok models /\
    p' = {| columns_ := columns_ p;
            fitted_ := Some {| numeric_ := map numeric_fit cols;
                               estimators_ := models |} |}.
Proof.
  unfold fit. intros H.
  apply rbind_ok in H as (cols & Hc & H).
  apply rbind_ok in H as (rows & Hr & H).
  destruct (Nat.eqb _ _) eqn:L; [|discriminate]. cbn [negb] in H.
  apply Nat.eqb_eq in L.
  apply rbind_ok in H as (models & Hm & H).
  injection H as <-. exists cols, rows, models. auto.
Qed.

(** One column: the scaler followed by the imputer, fitted on [t], does
    to [c] what the specification says. *)
Lemma numeric_transform_spec (t c : list (option R)) :
  numeric_transform (numeric_fit t) c = median_filled_standardised t c.
Proof.
  unfold numeric_transform, median_filled_standardised.
  destruct (numeric_fit_statistic t) as [He Hn].
  destruct (observed t) as [|x xs] eqn:E.
  - rewrite (He eq_refl). reflexivity.
  - assert (Hobs : observed t <> []) by (rewrite E; discriminate).
    destruct (scaler_fit_observed t Hobs) as (mu & sigma & Hfit & _ & Hs).
    destruct (median_nonempty (x :: xs)) as (m & Hm); [discriminate|].
    assert (Hstat : statistic_ (numeric_fit t)
                    = Some (scale_value (mu, sigma) m)).
    { unfold numeric_fit. cbn [statistic_]. unfold imputer_fit, nanmedian.
      rewrite Hfit, observed_scaled, median_scaled by exact Hs.
      rewrite E, Hm. reflexivity. }
    rewrite Hstat, Hm, Hfit. unfold numeric_fit. cbn [scaler_].
    rewrite Hfit. unfold imputer_transform, scaler_transform.
    rewrite map_map. f_equal. apply map_ext. intros [v|]; reflexivity.
Qed.

Lemma transform_columns_spec (train cols : list (list (option R))) :
  transform_columns (map numeric_fit train) cols = spec_preprocess train cols.
Proof.
  revert cols. induction train as [|t train IH]; intros [|c cols];
    try reflexivity.
  cbn [map transform_columns spec_preprocess].
  rewrite numeric_transform_spec, IH. reflexivity.
Qed.


(** ** The area under the ROC curve *)

(** *** The thresholds: every score once, in decreasing order *)

Lemma insert_desc_In (x y : R) (l : list R) :
  In y (insert_desc x l) <-> y = x \/ In y l.
Proof.
  induction l as [|z l IH]; simpl.
  - intuition congruence.
  - destruct (Rlt_le_dec z x); simpl; [intuition congruence|].
    destruct (Req_dec_T x z) as [->|]; simpl.
    + intuition congruence.
    + rewrite IH. intuition congruence.
Qed.

Lemma thresholds_In (x : R) (l : list R) : In x (thresholds l) <-> In x l.
Proof.
  induction l as [|y l IH]; simpl; [tauto|].
  rewrite insert_desc_In, IH. intuition congruence.
Qed.

Lemma insert_desc_decreasing (x : R) (l : list R) :
  decreasing l -> decreasing (insert_desc x l).
Proof.
  induction l as [|z l IH]; simpl.
  - intros _. split; [intros y []|exact I].
  - intros [Hz Hl].
    destruct (Rlt_le_dec z x) as [Hlt|Hle]; simpl.
    + split; [|split; assumption].
      intros y [<-|Hy]; [exact Hlt|]. specialize (Hz y Hy). lra.
    + destruct (Req_dec_T x z) as [->|Hne]; simpl; [split; assumption|].
      split; [|apply IH, Hl].
      intros y Hy. apply insert_desc_In in Hy as [->|Hy]; [lra|].
      apply Hz, Hy.
Qed.

Lemma thresholds_decreasing (l : list R) : decreasing (thresholds l).
Proof.
  induction l as [|x l IH]; simpl; [exact I|].
  apply insert_desc_decreasing, IH.
Qed.

(** *** Counting samples *)

Lemma count_if_cons (f : bool * R -> bool) (p : bool * R)
    (l : list (bool * R)) :
  count_if f (p :: l) = ((if f p then 1 else 0) + count_if f l)%nat.
Proof. unfold count_if. simpl. destruct (f p); reflexivity. Qed.

Lemma count_if_ext (f f' : bool * R -> bool) (l : list (bool * R)) :
  (forall p, In p l -> f p = f' p) -> count_if f l = count_if f' l.
Proof.
  induction l as [|p l IH]; intros H; [reflexivity|].
  rewrite !count_if_cons, (H p) by now left.
  rewrite IH; [reflexivity|]. intros q Hq. apply H. now right.
Qed.

Lemma count_if_split (f f1 f2 : bool * R -> bool) (l : list (bool * R)) :
  (forall p, In p l -> f p = f1 p || f2 p /\ f1 p && f2 p = false) ->
  count_if f l = (count_if f1 l + count_if f2 l)%nat.
Proof.
  induction l as [|p l IH]; intros H; [reflexivity|].
  rewrite !count_if_cons, IH by (intros q Hq; apply H; now right).
  destruct (H p (or_introl eq_refl)) as [E X]. rewrite E.
  destruct (f1 p), (f2 p); simpl in *; try discriminate; lia.
Qed.

Lemma count_if_false (f : bool * R -> bool) (l : list (bool * R)) :
  (forall p, In p l -> f p = false) -> count_if f l = 0%nat.
Proof.
  induction l as [|p l IH]; intros H; [reflexivity|].
  rewrite count_if_cons, (H p) by now left.
  apply IH. intros q Hq. apply H. now right.
Qed.

Lemma geb_true (t s : R) : geb t s = true <-> (t <= s)%R.
Proof. unfold geb. destruct (Rle_dec t s); intuition congruence. Qed.
Lemma gtb_true (t s : R) : gtb t s = true <-> (t < s)%R.
Proof.
  unfold gtb. destruct (Rlt_le_dec t s); split; try congruence; lra.
Qed.
Lemma eqb_R_true (t s : R) : eqb_R t s = true <-> t = s.
Proof. unfold eqb_R. destruct (Req_dec_T t s); intuition congruence. Qed.

Lemma bool_eq_iff (a b : bool) : (a = true <-> b = true) -> a = b.
Proof. destruct a, b; intuition congruence. Qed.

(** *** The trapezoids, threshold by threshold *)

Lemma trapz_cons2 (p q : R * R) (r : list (R * R)) :
  trapz (p :: q :: r)
  = ((fst q - fst p) * (snd q + snd p) / 2 + trapz (q :: r))%R.
Proof. reflexivity. Qed.

Section Curve.
Variable samples : list (bool * R).

Lemma trapz_area2 (pn pp : R) (T : list R) :
  n_neg samples <> 0%nat -> n_pos samples <> 0%nat ->
  trapz (((pn / INR (n_neg samples))%R, (pp / INR (n_pos samples))%R) ::
         map (fun t => ((INR (fps samples t) / INR (n_neg samples))%R,
                        (INR (tps samples t) / INR (n_pos samples))%R)) T)
  = (area2 samples pn pp T
     / (INR (n_neg samples) * INR (n_pos samples)))%R.
Proof.
  intros HN HP.
  assert (HN' : INR (n_neg samples) <> 0%R) by now apply not_0_INR.
  assert (HP' : INR (n_pos samples) <> 0%R) by now apply not_0_INR.
  revert pn pp. induction T as [|t T IH]; intros pn pp.
  - simpl. field. auto.
  - cbn [map]. rewrite trapz_cons2, IH. cbn [area2 fst snd].
    field. auto.
Qed.

Lemma area2_groups (A : R -> bool) (T : list R) :
  decreasing T ->
  (forall p, In p samples -> A (snd p) = true \/ In (snd p) T) ->
  (forall p u, In p samples -> A (snd p) = true -> In u T ->
               (u < snd p)%R) ->
  area2 samples (INR (neg_with A samples)) (INR (pos_with A samples)) T
  = Rsum (map (group samples) T).
Proof.
  revert A. induction T as [|u T IH]; intros A HT Hcov Habove.
  - reflexivity.
  - destruct HT as [Hu HT]. cbn [area2 map Rsum fold_right].
    change (fold_right Rplus 0%R (map (group samples) T))
      with (Rsum (map (group samples) T)).
    rewrite <- (IH (geb u) HT).
    + assert (K : forall p, In p samples ->
                    geb u (snd p) = A (snd p) || eqb_R u (snd p) /\
                    A (snd p) && eqb_R u (snd p) = false).
      { intros p Hp.
        destruct (A (snd p)) eqn:Ea.
        - pose proof (Habove p u Hp Ea (or_introl eq_refl)) as Hlt.
          rewrite (proj2 (geb_true u (snd p))) by lra.
          split; [reflexivity|].
          destruct (eqb_R u (snd p)) eqn:E; [|reflexivity].
          apply eqb_R_true in E. lra.
        - cbn [orb andb]. split; [|reflexivity].
          apply bool_eq_iff. rewrite geb_true, eqb_R_true.
          destruct (Hcov p Hp) as [Ha|[E|Hin]]; [congruence|lra|].
          specialize (Hu _ Hin). lra. }
      assert (F : fps samples u
                  = (neg_with A samples + neg_with (eqb_R u) samples)%nat).
      { apply count_if_split. intros p Hp.
        destruct (K p Hp) as [E X]. rewrite E.
        destruct (fst p); cbn [negb andb orb]; auto. }
      assert (G : pos_with A samples = pos_with (gtb u) samples).
      { apply count_if_ext. intros p Hp. f_equal.
        apply bool_eq_iff. rewrite gtb_true. split.
        - intros Ha. apply (Habove p u Hp Ha). now left.
        - intros Hlt. destruct (Hcov p Hp) as [Ha|[E|Hin]]; [exact Ha|lra|].
          specialize (Hu _ Hin). lra. }
      assert (P : tps samples u
                  = (pos_with (gtb u) samples
                     + pos_with (eqb_R u) samples)%nat).
      { apply count_if_split. intros p Hp.
        assert (E : geb u (snd p) = gtb u (snd p) || eqb_R u (snd p)).
        { apply bool_eq_iff.
          rewrite orb_true_iff, geb_true, gtb_true, eqb_R_true. lra. }
        assert (X : gtb u (snd p) && eqb_R u (snd p) = false).
        { destruct (gtb u (snd p)) eqn:E1; [|reflexivity].
          destruct (eqb_R u (snd p)) eqn:E2; [|reflexivity].
          apply gtb_true in E1. apply eqb_R_true in E2. lra. }
        rewrite E. destruct (fst p); simpl; auto. }
      unfold group, wins. rewrite F, P, G, !plus_INR.
      change (neg_with (geb u) samples) with (fps samples u).
      change (pos_with (geb u) samples) with (tps samples u).
      rewrite F, P, !plus_INR. lra.
    + intros p Hp. destruct (Hcov p Hp) as [Ha|[<-|Hin]].
      * left. apply geb_true.
        pose proof (Habove p u Hp Ha (or_introl eq_refl)). lra.
      * left. apply geb_true. lra.
      * now right.
    + intros p v Hp Hg Hv. apply geb_true in Hg.
      specialize (Hu v Hv). lra.
Qed.
End Curve.

(** *** The area is the Mann-Whitney count over the number of pairs *)

Lemma Rsum_map_plus {A} (f g : A -> R) (l : list A) :
  Rsum (map (fun a => (f a + g a)%R) l)
  = (Rsum (map f l) + Rsum (map g l))%R.
Proof. induction l as [|a l IH]; simpl; [lra|]. rewrite IH. lra. Qed.

Lemma Rsum_map_ext {A} (f g : A -> R) (l : list A) :
  (forall a, In a l -> f a = g a) -> Rsum (map f l) = Rsum (map g l).
Proof. intros H. f_equal. now apply map_ext_in. Qed.

Lemma Rsum_map_zero {A} (f : A -> R) (l : list A) :
  (forall a, In a l -> f a = 0%R) -> Rsum (map f l) = 0%R.
Proof.
  induction l as [|a l IH]; intros H; simpl; [reflexivity|].
  rewrite (H a) by now left. rewrite IH; [lra|].
  intros b Hb. apply H. now right.
Qed.

Lemma delta_sum (h : R -> R) (s : R) (T : list R) :
  decreasing T -> In s T ->
  Rsum (map (fun u => (delta s u * h u)%R) T) = h s.
Proof.
  induction T as [|x T IH]; simpl; [tauto|].
  intros [Hx HT] [->|Hin].
  - unfold delta at 1. rewrite (proj2 (eqb_R_true s s)) by reflexivity.
    rewrite Rsum_map_zero; [lra|].
    intros u Hu. specialize (Hx u Hu). unfold delta.
    destruct (eqb_R u s) eqn:E; [apply eqb_R_true in E; lra|lra].
  - rewrite (IH HT Hin). specialize (Hx s Hin). unfold delta at 1.
    destruct (eqb_R x s) eqn:E; [apply eqb_R_true in E; lra|lra].
Qed.

Lemma groups_sum (h : R -> R) (T : list R) (L : list (bool * R)) :
  decreasing T -> (forall p, In p L -> In (snd p) T) ->
  Rsum (map (fun u => (INR (neg_with (eqb_R u) L) * h u)%R) T)
  = Rsum (map (fun p : bool * R => if fst p then 0%R else h (snd p)) L).
Proof.
  intros HT. induction L as [|p L IH]; intros Hcov.
  - apply Rsum_map_zero. intros u _. unfold neg_with, count_if. simpl. lra.
  - cbn [map Rsum fold_right].
    change (fold_right Rplus 0%R ?l) with (Rsum l).
    rewrite <- IH by (intros q Hq; apply Hcov; now right).
    rewrite (Rsum_map_ext _
               (fun u => ((if fst p then 0 else delta (snd p) u) * h u
                          + INR (neg_with (eqb_R u) L) * h u)%R)).
    + rewrite Rsum_map_plus. f_equal.
      destruct (fst p).
      * apply Rsum_map_zero. intros; lra.
      * apply delta_sum; [exact HT|]. apply Hcov. now left.
    + intros u _. unfold neg_with. rewrite count_if_cons, plus_INR.
      unfold delta. destruct (fst p), (eqb_R u (snd p)); simpl; lra.
Qed.

Lemma auc_mann_whitney (samples : list (bool * R)) :
  n_neg samples <> 0%nat -> n_pos samples <> 0%nat ->
  auc samples
  = (mann_whitney samples / (INR (n_neg samples) * INR (n_pos samples)))%R.
Proof.
  intros HN HP. unfold auc, roc_points.
  assert (HN' : INR (n_neg samples) <> 0%R) by now apply not_0_INR.
  assert (HP' : INR (n_pos samples) <> 0%R) by now apply not_0_INR.
  replace (0%R, 0%R)
    with ((0 / INR (n_neg samples))%R, (0 / INR (n_pos samples))%R)
    by (f_equal; field; assumption).
  rewrite trapz_area2 by assumption. f_equal.
  set (A := fun _ : R => false).
  replace 0%R with (INR (neg_with A samples)) at 1
    by (unfold neg_with; rewrite count_if_false;
        [reflexivity|intros; apply andb_false_r]).
  replace 0%R with (INR (pos_with A samples)) at 1
    by (unfold pos_with; rewrite count_if_false;
        [reflexivity|intros; apply andb_false_r]).
  rewrite area2_groups.
  - unfold group, mann_whitney. apply groups_sum.
    + apply thresholds_decreasing.
    + intros p Hp. apply thresholds_In, in_map, Hp.
  - apply thresholds_decreasing.
  - intros p Hp. right. apply thresholds_In, in_map, Hp.
  - intros p u _ Ha. discriminate.
Qed.

Lemma sum_over_negatives (c : R) (L : list (bool * R)) :
  Rsum (map (fun p : bool * R => if fst p then 0%R else c) L)
  = (INR (n_neg L) * c)%R.
Proof.
  induction L as [|p L IH]; simpl.
  - unfold n_neg, count_if. simpl. lra.
  - unfold n_neg in *. rewrite count_if_cons, plus_INR, IH.
    destruct (fst p); simpl; lra.
Qed.

(** *** A perfect ranking *)

Lemma mann_whitney_perfect (samples : list (bool * R)) :
  separated samples ->
  mann_whitney samples = (INR (n_neg samples) * INR (n_pos samples))%R.
Proof.
  intros Hsep. unfold mann_whitney.
  rewrite <- sum_over_negatives. apply Rsum_map_ext.
  intros q Hq. destruct (fst q) eqn:Eq; [reflexivity|].
  unfold wins.
  assert (G : pos_with (gtb (snd q)) samples = n_pos samples).
  { apply count_if_ext. intros p Hp.
    destruct (fst p) eqn:Ep; [|reflexivity]. simpl.
    apply gtb_true. now apply Hsep. }
  assert (E : pos_with (eqb_R (snd q)) samples = 0%nat).
  { apply count_if_false. intros p Hp.
    destruct (fst p) eqn:Ep; [|reflexivity]. simpl.
    destruct (eqb_R (snd q) (snd p)) eqn:E; [|reflexivity].
    apply eqb_R_true in E. specialize (Hsep p q Hp Hq Ep Eq). lra. }
  rewrite G, E. simpl. lra.
Qed.

Lemma auc_perfect (samples : list (bool * R)) :
  n_neg samples <> 0%nat -> n_pos samples <> 0%nat ->
  separated samples -> auc samples = 1%R.
Proof.
  intros HN HP Hsep.
  rewrite auc_mann_whitney, mann_whitney_perfect by assumption.
  field. split; now apply not_0_INR.
Qed.

(** *** Reflecting the scores *)

Lemma count_if_map (f : bool * R -> bool) (g : bool * R -> bool * R)
    (l : list (bool * R)) :
  count_if f (map g l) = count_if (fun p => f (g p)) l.
Proof.
  induction l as [|p l IH]; [reflexivity|].
  cbn [map]. now rewrite !count_if_cons, IH.
Qed.

Lemma reflect_n_pos samples : n_pos (reflect samples) = n_pos samples.
Proof. unfold n_pos, reflect. now rewrite count_if_map. Qed.

Lemma reflect_n_neg samples : n_neg (reflect samples) = n_neg samples.
Proof. unfold n_neg, reflect. now rewrite count_if_map. Qed.

Lemma wins_reflect (samples : list (bool * R)) (s : R) :
  (wins (reflect samples) (1 - s) + wins samples s)%R
  = INR (n_pos samples).
Proof.
  unfold wins, pos_with, reflect. rewrite !count_if_map. cbn [fst snd].
  assert (E : count_if (fun p => fst p && eqb_R (1 - s) (1 - snd p)) samples
              = count_if (fun p => fst p && eqb_R s (snd p)) samples).
  { apply count_if_ext. intros p _. f_equal. apply bool_eq_iff.
    rewrite !eqb_R_true. lra. }
  rewrite E. clear E.
  assert (S3 : n_pos samples
               = (count_if (fun p => fst p && gtb (1 - s) (1 - snd p)) samples
                  + (count_if (fun p => fst p && gtb s (snd p)) samples
                     + count_if (fun p => fst p && eqb_R s (snd p)) samples))%nat).
  { unfold n_pos.
    rewrite <- (count_if_split (fun p => fst p && geb s (snd p))).
    - apply count_if_split. intros p _.
      destruct (fst p); [|auto]. cbn [andb]. split.
      + apply bool_eq_iff.
        rewrite orb_true_iff, gtb_true, geb_true. lra.
      + destruct (gtb (1 - s) (1 - snd p)) eqn:E1; [|reflexivity].
        destruct (geb s (snd p)) eqn:E2; [|reflexivity].
        apply gtb_true in E1. apply geb_true in E2. lra.
    - intros p _. destruct (fst p); [|auto]. cbn [andb]. split.
      + apply bool_eq_iff.
        rewrite orb_true_iff, gtb_true, geb_true, eqb_R_true. lra.
      + destruct (gtb s (snd p)) eqn:E1; [|reflexivity].
        destruct (eqb_R s (snd p)) eqn:E2; [|reflexivity].
        apply gtb_true in E1. apply eqb_R_true in E2. lra. }
  rewrite S3, !plus_INR. lra.
Qed.

Lemma mann_whitney_reflect (samples : list (bool * R)) :
  (mann_whitney (reflect samples) + mann_whitney samples)%R
  = (INR (n_neg samples) * INR (n_pos samples))%R.
Proof.
  unfold mann_whitney at 1 2. unfold reflect at 2. rewrite map_map.
  cbn [fst snd]. rewrite <- Rsum_map_plus, <- sum_over_negatives.
  apply Rsum_map_ext. intros p _.
  destruct (fst p); [lra|]. apply wins_reflect.
Qed.

(** Reflected scores rank the other way round: the two areas add up
    to one. *)
Lemma auc_reflect (samples : list (bool * R)) :
  n_neg samples <> 0%nat -> n_pos samples <> 0%nat ->
  (auc (reflect samples) + auc samples = 1)%R.
Proof.
  intros HN HP.
  rewrite (auc_mann_whitney samples HN HP).
  rewrite (auc_mann_whitney (reflect samples))
    by (now rewrite ?reflect_n_neg, ?reflect_n_pos).
  rewrite reflect_n_neg, reflect_n_pos.
  pose proof (mann_whitney_reflect samples) as H.
  assert (HN' : INR (n_neg samples) <> 0%R) by now apply not_0_INR.
  assert (HP' : INR (n_pos samples) <> 0%R) by now apply not_0_INR.
  rewrite <- Rdiv_plus_distr, H. field. split; assumption.
Qed.

(** *** [roc_auc_score] on a 0/1 target *)

Lemma unique_binary (y : list Z) :
  binary y ->
  unique Z.ltb Z.eqb y
  = ((if existsb (Z.eqb 0) y then [0] else []) ++
     (if existsb (Z.eqb 1) y then [1] else []))%list.
Proof.
  induction y as [|z y IH]; intros Hb; [reflexivity|].
  assert (Hy : binary y) by (intros w Hw; apply Hb; now right).
  change (unique Z.ltb Z.eqb (z :: y))
    with (insert_unique Z.ltb Z.eqb z (unique Z.ltb Z.eqb y)).
  rewrite (IH Hy). cbn [existsb].
  destruct (Hb z (or_introl eq_refl)) as [-> | ->];
    destruct (existsb (Z.eqb 0) y), (existsb (Z.eqb 1) y); reflexivity.
Qed.

Lemma existsb_eqb_In (z : Z) (y : list Z) :
  In z y -> existsb (Z.eqb z) y = true.
Proof.
  intros H. apply existsb_exists. exists z. split; [exact H|].
  apply Z.eqb_refl.
Qed.

Lemma count_if_pos (f : bool * R -> bool) (l : list (bool * R))
    (p : bool * R) :
  In p l -> f p = true -> count_if f l <> 0%nat.
Proof.
  induction l as [|q l IH]; simpl; [tauto|].
  intros [->|Hin] Hf; rewrite count_if_cons.
  - rewrite Hf. lia.
  - specialize (IH Hin Hf). lia.
Qed.

Lemma In_combine_nth {A B} (l : list A) (l' : list B) (a : A) (b : B) :
  In (a, b) (combine l l') ->
  exists i, nth_error l i = Some a /\ nth_error l' i = Some b.
Proof.
  revert l'. induction l as [|x l IH]; intros [|y l']; simpl; try tauto.
  intros [[= -> ->]|Hin].
  - exists 0%nat. auto.
  - destruct (IH _ Hin) as (i & H1 & H2). exists (S i). auto.
Qed.

Lemma nth_combine_In {A B} (l : list A) (l' : list B) (i : nat)
    (a : A) (b : B) :
  nth_error l i = Some a -> nth_error l' i = Some b ->
  In (a, b) (combine l l').
Proof.
  revert l l'. induction i as [|i IH]; intros [|x l] [|y l']; simpl;
    try discriminate.
  - intros [= ->] [= ->]. now left.
  - intros H1 H2. right. eapply IH; eassumption.
Qed.

Lemma labelled_classes (y : list Z) (sc : list R) :
  length sc = length y -> In 0 y -> In 1 y ->
  n_neg (labelled y sc) <> 0%nat /\ n_pos (labelled y sc) <> 0%nat.
Proof.
  intros L H0 H1.
  assert (K : forall z, In z y -> exists s, In (Z.eqb 1 z, s) (labelled y sc)).
  { intros z Hz. apply In_nth_error in Hz as [i Hi].
    destruct (nth_error sc i) as [s|] eqn:Es.
    - exists s. eapply nth_combine_In; [|exact Es].
      rewrite nth_error_map, Hi. reflexivity.
    - apply nth_error_None in Es.
      assert (i < length y)%nat by (apply nth_error_Some; congruence).
      lia. }
  destruct (K 0 H0) as [s0 I0]. destruct (K 1 H1) as [s1 I1].
  split.
  - apply (count_if_pos _ _ (Z.eqb 1 0, s0)); [exact I0|reflexivity].
  - apply (count_if_pos _ _ (Z.eqb 1 1, s1)); [exact I1|reflexivity].
Qed.

Lemma roc_auc_score_binary (y : list Z) (sc : list R) :
  binary y -> In 0 y -> In 1 y -> length sc = length y ->
  roc_auc_score y sc = Ok (auc (labelled y sc)).
Proof.
  intros Hb H0 H1 L.
  assert (U : unique Z.ltb Z.eqb y = [0; 1]).
  { rewrite (unique_binary y Hb), !existsb_eqb_In by assumption.
    reflexivity. }
  assert (E : map (fun z => if Z.eqb z 1 then 1 else 0) y = y).
  { rewrite <- (map_id y) at 2. apply map_ext_in.
    intros z Hz. destruct (Hb z Hz) as [-> | ->]; reflexivity. }
  unfold roc_auc_score. rewrite U, E.
  unfold binary_roc_auc_score. rewrite U. cbn [length Nat.eqb negb].
  unfold roc_curve. rewrite L, Nat.eqb_refl. cbn [negb].
  assert (S01 : subset_of [0; 1] y = true).
  { unfold subset_of. apply forallb_forall. intros z Hz.
    destruct (Hb z Hz) as [-> | ->]; reflexivity. }
  rewrite S01. reflexivity.
Qed.

Lemma perfect_ranking_separated (y : list Z) (sc : list R) :
  binary y -> perfect_ranking y sc -> separated (labelled y sc).
Proof.
  intros Hb Hp [b s] [b' s'] Hin Hin' Eb Eb'. cbn [fst snd] in *.
  subst b b'.
  apply In_combine_nth in Hin as (i & Hi & Hs).
  apply In_combine_nth in Hin' as (j & Hj & Hs').
  rewrite nth_error_map in Hi, Hj.
  destruct (nth_error y i) as [zi|] eqn:Ei; [|discriminate].
  destruct (nth_error y j) as [zj|] eqn:Ej; [|discriminate].
  assert (zi = 1).
  { destruct (Hb zi (nth_error_In _ _ Ei)) as [-> | ->];
      [discriminate|reflexivity]. }
  assert (zj = 0).
  { destruct (Hb zj (nth_error_In _ _ Ej)) as [-> | ->];
      [reflexivity|discriminate]. }
  subst zi zj. eapply Hp; eassumption.
Qed.

(** *** A predictor that scores at random *)

Lemma vectors_length (n : nat) (G : list R) (v : list R) :
  In v (vectors n G) -> length v = n.
Proof.
  revert v. induction n as [|n IH]; intros v; simpl.
  - intros [<-|[]]. reflexivity.
  - rewrite in_flat_map. intros (x & _ & Hv).
    apply in_map_iff in Hv as (w & <- & Hw). simpl. f_equal. apply IH, Hw.
Qed.

Lemma vectors_nonempty (n : nat) (G : list R) :
  G <> [] -> vectors n G <> [].
Proof.
  intros HG. induction n as [|n IH]; simpl; [discriminate|].
  destruct G as [|x G]; [contradiction|]. simpl.
  destruct (vectors n (x :: G)); [contradiction|]. discriminate.
Qed.

Lemma flat_map_map_r {A B C} (f : A -> list B) (h : B -> C) (l : list A) :
  map h (flat_map f l) = flat_map (fun a => map h (f a)) l.
Proof.
  induction l as [|a l IH]; simpl; [reflexivity|].
  now rewrite map_app, IH.
Qed.

Lemma flat_map_map_l {A B C} (f : B -> list C) (g : A -> B) (l : list A) :
  flat_map f (map g l) = flat_map (fun a => f (g a)) l.
Proof.
  induction l as [|a l IH]; simpl; [reflexivity|]. now rewrite IH.
Qed.

Lemma vectors_map (r : R -> R) (n : nat) (G : list R) :
  map (map r) (vectors n G) = vectors n (map r G).
Proof.
  induction n as [|n IH]; simpl; [reflexivity|].
  rewrite flat_map_map_r, flat_map_map_l, <- IH.
  apply flat_map_ext. intros x. rewrite !map_map. reflexivity.
Qed.

Lemma flat_map_Permutation_ext {A B} (f g : A -> list B) (l : list A) :
  (forall a, Permutation (f a) (g a)) ->
  Permutation (flat_map f l) (flat_map g l).
Proof.
  intros H. induction l as [|a l IH]; simpl; [constructor|].
  now apply Permutation_app.
Qed.

Lemma vectors_Permutation (n : nat) (G G' : list R) :
  Permutation G G' -> Permutation (vectors n G) (vectors n G').
Proof.
  intros HP. induction n as [|n IH]; simpl; [reflexivity|].
  etransitivity.
  - apply Permutation_flat_map, HP.
  - apply flat_map_Permutation_ext. intros x. now apply Permutation_map.
Qed.

Lemma rev_seq (m : nat) :
  rev (seq 0 (S m)) = map (fun k => (m - k)%nat) (seq 0 (S m)).
Proof.
  induction m as [|m IH]; [reflexivity|].
  rewrite seq_S at 1. rewrite rev_app_distr. cbn [rev app Nat.add].
  rewrite IH.
  change (seq 0 (S (S m))) with (0%nat :: seq 1 (S m)).
  rewrite <- seq_shift. cbn [map]. rewrite map_map.
  f_equal.
Qed.

Lemma grid_reflect (m : nat) :
  (0 < m)%nat ->
  Permutation (map (fun x => (1 - x)%R) (grid m)) (grid m).
Proof.
  intros Hm.
  assert (E : map (fun x => (1 - x)%R) (grid m) = rev (grid m)).
  { unfold grid. rewrite <- map_rev, rev_seq, !map_map.
    apply map_ext_in. intros k Hk. apply in_seq in Hk.
    rewrite minus_INR by lia. field.
    apply not_0_INR. lia. }
  rewrite E. symmetry. apply Permutation_rev.
Qed.

Lemma Rsum_Permutation (l l' : list R) :
  Permutation l l' -> Rsum l = Rsum l'.
Proof.
  induction 1; simpl; lra.
Qed.

Lemma labelled_reflect (y : list Z) (v : list R) :
  labelled y (map (fun x => (1 - x)%R) v) = reflect (labelled y v).
Proof.
  unfold labelled, reflect.
  revert v. induction (map (Z.eqb 1) y) as [|b l IH]; intros [|x v];
    simpl; try reflexivity.
  now rewrite IH.
Qed.

Lemma rmap_ok_map {A B} (f : A -> result B) (g : A -> B) (l : list A) :
  (forall a, In a l -> f a = Ok (g a)) -> rmap f l = Ok (map g l).
Proof.
  induction l as [|a l IH]; intros H; simpl; [reflexivity|].
  rewrite (H a) by now left. simpl.
  rewrite IH by (intros b Hb; apply H; now right). reflexivity.
Qed.

(** The mean area over all outcomes of the random predictor. *)
Lemma mean_auc_random (y : list Z) (m : nat) :
  In 0 y -> In 1 y -> (0 < m)%nat ->
  mean (map (fun v => auc (labelled y v)) (vectors (length y) (grid m)))
  = (1 / 2)%R.
Proof.
  intros H0 H1 Hm. unfold mean. rewrite length_map.
  set (V := vectors (length y) (grid m)).
  set (a := fun v => auc (labelled y v)).
  assert (HV : INR (length V) <> 0%R).
  { apply not_0_INR. intros E. apply length_zero_iff_nil in E.
    revert E. apply vectors_nonempty. discriminate. }
  assert (S1 : Rsum (map a V)
               = Rsum (map (fun v => (1 - a v)%R) V)).
  { transitivity (Rsum (map a (map (map (fun x => (1 - x)%R)) V))).
    - apply Rsum_Permutation, Permutation_map. symmetry.
      unfold V. rewrite vectors_map.
      apply vectors_Permutation, grid_reflect, Hm.
    - rewrite map_map. apply Rsum_map_ext. intros v Hv.
      apply vectors_length in Hv.
      destruct (labelled_classes y v Hv H0 H1) as [HN HP].
      unfold a. rewrite labelled_reflect.
      pose proof (auc_reflect (labelled y v) HN HP). lra. }
  assert (S2 : Rsum (map (fun v => (1 - a v)%R) V)
               = (INR (length V) - Rsum (map a V))%R).
  { clear. induction V as [|v V IH]; [simpl; lra|].
    cbn [map Rsum fold_right length].
    change (fold_right Rplus 0%R ?l) with (Rsum l).
    rewrite IH, S_INR. lra. }
  rewrite S2 in S1.
  apply (Rmult_eq_reg_r (INR (length V))); [|exact HV].
  unfold Rdiv. rewrite Rmult_assoc, Rinv_l by exact HV. lra.
Qed.

(** C7: the ROC-AUC the notebook computes, on a 0/1 target with both
    classes present.  Scores that put every positive sample above every
    negative one get exactly 1.  A predictor that scores every sample at
    random, uniformly over the evenly spaced levels 0, 1/m, ..., 1 of the
    unit interval, gets 1/2 on average: [roc_auc_score] returns on every
    one of the equally likely outcomes and the mean of what it returns is
    exactly 1/2. *)
Theorem roc_auc_perfect_and_random (y_true : list Z) :
  binary y_true -> In 0 y_true -> In 1 y_true ->
  (forall y_score,
      length y_score = length y_true ->
      perfect_ranking y_true y_score ->
      roc_auc_score y_true y_score = Ok 1%R) /\
  (forall m, (0 < m)%nat ->
      exists aucs,
        rmap (roc_auc_score y_true) (vectors (length y_true) (grid m))
        = Ok aucs /\
        mean aucs = (1 / 2)%R).
Proof.
  intros Hb H0 H1. split.
  - intros sc L Hp.
    rewrite (roc_auc_score_binary y_true sc Hb H0 H1 L). f_equal.
    destruct (labelled_classes y_true sc L H0 H1) as [HN HP].
    apply auc_perfect; [assumption..|].
    now apply perfect_ranking_separated.
  - intros m Hm. eexists. split.
    + apply rmap_ok_map. intros v Hv. apply vectors_length in Hv.
      apply (roc_auc_score_binary y_true v Hb H0 H1 Hv).
    + apply mean_auc_random; assumption.
Qed.

(** ** More on the ROC curve and its area *)

(** *** The curve sees the scores only through their order *)

Section Monotone.
Variable f : R -> R.
Hypothesis f_lt : forall a b, (a < b)%R -> (f a < f b)%R.

Lemma increasing_le (a b : R) : (a <= b)%R <-> (f a <= f b)%R.
Proof.
  split; intros H.
  - destruct (Rle_lt_or_eq_dec _ _ H) as [L| ->]; [|lra].
    apply f_lt in L. lra.
  - destruct (Rle_lt_dec a b) as [L|L]; [exact L|].
    apply f_lt in L. lra.
Qed.

Lemma increasing_eq (a b : R) : f a = f b -> a = b.
Proof.
  intros E. destruct (Rtotal_order a b) as [L|[L|L]]; [|exact L|];
    apply f_lt in L; lra.
Qed.

Lemma insert_desc_map (x : R) (l : list R) :
  insert_desc (f x) (map f l) = map f (insert_desc x l).
Proof.
  induction l as [|y l IH]; simpl; [reflexivity|].
  destruct (Rlt_le_dec (f y) (f x)) as [H|H], (Rlt_le_dec y x) as [H'|H'];
    simpl.
  - reflexivity.
  - apply increasing_le in H'. lra.
  - apply f_lt in H'. lra.
  - destruct (Req_dec_T (f x) (f y)) as [E|E], (Req_dec_T x y) as [E'|E'];
      simpl.
    + reflexivity.
    + apply increasing_eq in E. contradiction.
    + subst. contradiction.
    + now rewrite IH.
Qed.

Lemma thresholds_map (l : list R) :
  thresholds (map f l) = map f (thresholds l).
Proof.
  induction l as [|x l IH]; simpl; [reflexivity|].
  now rewrite IH, insert_desc_map.
Qed.

Lemma geb_increasing (t s : R) : geb (f t) (f s) = geb t s.
Proof.
  apply bool_eq_iff. rewrite !geb_true. symmetry. apply increasing_le.
Qed.

Lemma roc_points_rescored (samples : list (bool * R)) :
  roc_points (map (fun p => (fst p, f (snd p))) samples) = roc_points samples.
Proof.
  unfold roc_points. f_equal.
  rewrite map_map. cbn [snd].
  rewrite <- (map_map snd f), thresholds_map, map_map.
  apply map_ext. intros t.
  unfold fps, tps, n_neg, n_pos. rewrite !count_if_map. cbn [fst snd].
  rewrite (count_if_ext
             (fun p => negb (fst p) && geb (f t) (f (snd p)))
             (fun p => negb (fst p) && geb t (snd p)))
    by (intros; now rewrite geb_increasing).
  rewrite (count_if_ext
             (fun p => fst p && geb (f t) (f (snd p)))
             (fun p => fst p && geb t (snd p)))
    by (intros; now rewrite geb_increasing).
  reflexivity.
Qed.

Lemma combine_map_r {A} (l : list A) (s : list R) :
  combine l (map f s) = map (fun p => (fst p, f (snd p))) (combine l s).
Proof.
  revert s. induction l as [|a l IH]; intros [|x s]; simpl; try reflexivity.
  now rewrite IH.
Qed.

Lemma roc_curve_rescored (y : list Z) (s : list R) :
  roc_curve y (map f s) = roc_curve y s.
Proof.
  unfold roc_curve. rewrite length_map.
  destruct (negb _); [reflexivity|].
  destruct (_ || _); [|reflexivity].
  now rewrite combine_map_r, roc_points_rescored.
Qed.

Lemma roc_auc_score_rescored (y : list Z) (s : list R) :
  roc_auc_score y (map f s) = roc_auc_score y s.
Proof.
  unfold roc_auc_score, binary_roc_auc_score.
  destruct (unique Z.ltb Z.eqb y) as [|c0 [|c1 [|c2 cs]]]; try reflexivity.
  now rewrite roc_curve_rescored.
Qed.
End Monotone.

(** X1: the ROC curve and its area see the scores only through their
    order.  Passing every score through a strictly increasing function
    leaves the points of [roc_curve] (the false and the true positive
    rates) and [roc_auc_score] as they were, on every target and every
    score vector, errors included. *)
Theorem roc_depends_on_ranks_only (f : R -> R) (y_true : list Z)
    (y_score : list R) :
  (forall a b, (a < b)%R -> (f a < f b)%R) ->
  roc_curve y_true (map f y_score) = roc_curve y_true y_score /\
  roc_auc_score y_true (map f y_score) = roc_auc_score y_true y_score.
Proof.
  intros Hf. split.
  - now apply roc_curve_rescored.
  - now apply roc_auc_score_rescored.
Qed.

(** *** When [roc_auc_score] returns, and what *)

Lemma existsb_eqb_In_inv (z : Z) (y : list Z) :
  existsb (Z.eqb z) y = true -> In z y.
Proof.
  intros H. apply existsb_exists in H as (w & Hw & E).
  apply Z.eqb_eq in E. now subst.
Qed.

Lemma binarized_binary (c : Z) (y : list Z) :
  binary (map (fun z => if Z.eqb z c then 1 else 0) y).
Proof.
  intros w Hw. apply in_map_iff in Hw as (z & <- & _).
  destruct (Z.eqb z c); auto.
Qed.

Lemma binary_two_classes (y : list Z) :
  binary y -> length (unique Z.ltb Z.eqb y) = 2%nat -> In 0 y /\ In 1 y.
Proof.
  intros Hb. rewrite (unique_binary y Hb).
  destruct (existsb (Z.eqb 0) y) eqn:E0, (existsb (Z.eqb 1) y) eqn:E1;
    simpl; try discriminate.
  intros _. split; now apply existsb_eqb_In_inv.
Qed.

(** What a returned score is: the area for the samples labelled by the
    greater of the two classes. *)
Lemma roc_auc_score_inv (y : list Z) (s : list R) (a : R) :
  roc_auc_score y s = Ok a ->
  exists c0 c1 y',
    unique Z.ltb Z.eqb y = [c0; c1] /\
    y' = map (fun z => if Z.eqb z c1 then 1 else 0) y /\
    length s = length y' /\ length y' = length y /\
    binary y' /\ In 0 y' /\ In 1 y' /\
    a = auc (labelled y' s).
Proof.
  unfold roc_auc_score.
  destruct (unique Z.ltb Z.eqb y) as [|c0 [|c1 [|c2 cs]]] eqn:U;
    try discriminate.
  set (y' := map (fun z => if Z.eqb z c1 then 1 else 0) y).
  unfold binary_roc_auc_score.
  destruct (Nat.eqb (length (unique Z.ltb Z.eqb y')) 2) eqn:U';
    [|discriminate].
  apply Nat.eqb_eq in U'. cbn [negb]. unfold roc_curve.
  destruct (Nat.eqb (length y') (length s)) eqn:L; [|discriminate].
  apply Nat.eqb_eq in L. cbn [negb].
  destruct (_ || _); [|discriminate].
  cbn [rbind]. intros [= <-].
  pose proof (binarized_binary c1 y) as Hb. fold y' in Hb.
  destruct (binary_two_classes y' Hb U') as [H0 H1].
  exists c0, c1, y'. repeat split; auto.
  unfold y'. apply length_map.
Qed.

Lemma count_if_le (f g : bool * R -> bool) (l : list (bool * R)) :
  (forall p, In p l -> f p = true -> g p = true) ->
  (count_if f l <= count_if g l)%nat.
Proof.
  induction l as [|p l IH]; intros H; [reflexivity|].
  rewrite !count_if_cons.
  assert (IH' := IH (fun q Hq => H q (or_intror Hq))).
  pose proof (H p (or_introl eq_refl)) as Hp.
  destruct (f p), (g p); lia.
Qed.

Lemma wins_bounds (samples : list (bool * R)) (s : R) :
  (0 <= wins samples s <= INR (n_pos samples))%R.
Proof.
  unfold wins.
  assert (T : (pos_with (gtb s) samples + pos_with (eqb_R s) samples
               <= n_pos samples)%nat).
  { unfold pos_with, n_pos.
    rewrite <- (count_if_split (fun p => fst p && geb s (snd p))).
    - apply count_if_le. intros p _ H.
      apply andb_true_iff in H. tauto.
    - intros p _. destruct (fst p); [|auto]. cbn [andb]. split.
      + apply bool_eq_iff.
        rewrite orb_true_iff, gtb_true, geb_true, eqb_R_true. lra.
      + destruct (gtb s (snd p)) eqn:E1; [|reflexivity].
        destruct (eqb_R s (snd p)) eqn:E2; [|reflexivity].
        apply gtb_true in E1. apply eqb_R_true in E2. lra. }
  apply le_INR in T. rewrite plus_INR in T.
  pose proof (pos_INR (pos_with (gtb s) samples)).
  pose proof (pos_INR (pos_with (eqb_R s) samples)).
  lra.
Qed.

Lemma Rsum_map_le {A} (f g : A -> R) (l : list A) :
  (forall a, In a l -> (f a <= g a)%R) ->
  (Rsum (map f l) <= Rsum (map g l))%R.
Proof.
  induction l as [|a l IH]; intros H; simpl; [lra|].
  pose proof (H a (or_introl eq_refl)).
  assert (IH' := IH (fun b Hb => H b (or_intror Hb))). lra.
Qed.

Lemma mann_whitney_bounds (samples : list (bool * R)) :
  (0 <= mann_whitney samples
   <= INR (n_neg samples) * INR (n_pos samples))%R.
Proof.
  unfold mann_whitney. split.
  - induction samples as [|q l IH] at 2; simpl; [lra|].
    destruct (fst q); [lra|]. pose proof (wins_bounds samples (snd q)). lra.
  - rewrite <- sum_over_negatives. apply Rsum_map_le. intros p _.
    destruct (fst p); [lra|]. apply wins_bounds.
Qed.

Lemma auc_bounds (samples : list (bool * R)) :
  n_neg samples <> 0%nat -> n_pos samples <> 0%nat ->
  (0 <= auc samples <= 1)%R.
Proof.
  intros HN HP. rewrite (auc_mann_whitney samples HN HP).
  pose proof (mann_whitney_bounds samples) as [L U].
  assert (D : (0 < INR (n_neg samples) * INR (n_pos samples))%R).
  { apply Rmult_lt_0_compat; apply lt_0_INR; lia. }
  split.
  - apply Rmult_le_pos; [exact L|]. apply Rlt_le, Rinv_0_lt_compat, D.
  - apply (Rmult_le_reg_r (INR (n_neg samples) * INR (n_pos samples)));
      [exact D|].
    unfold Rdiv. rewrite Rmult_assoc, Rinv_l by lra. lra.
Qed.

(** X2: whenever [roc_auc_score] returns a score, the score is a number
    between 0 and 1. *)
Theorem roc_auc_score_in_unit_interval (y_true : list Z) (y_score : list R)
    (a : R) :
  roc_auc_score y_true y_score = Ok a -> (0 <= a <= 1)%R.
Proof.
  intros H.
  apply roc_auc_score_inv in H
    as (c0 & c1 & y' & _ & _ & L & _ & Hb & H0 & H1 & ->).
  destruct (labelled_classes y' y_score L H0 H1) as [HN HP].
  now apply auc_bounds.
Qed.

Lemma insert_unique_In (z a : Z) (u : list Z) :
  In z (insert_unique Z.ltb Z.eqb a u) <-> z = a \/ In z u.
Proof.
  clear.
  induction u as [|b u IH]; simpl.
  - intuition congruence.
  - destruct (Z.ltb a b); simpl; [intuition congruence|].
    destruct (Z.eqb a b) eqn:E; simpl.
    + apply Z.eqb_eq in E. subst. intuition congruence.
    + rewrite IH. intuition congruence.
Qed.

Lemma insert_unique_ascending (a : Z) (u : list Z) :
  ascending u -> ascending (insert_unique Z.ltb Z.eqb a u).
Proof.
  clear.
  induction u as [|b u IH]; simpl.
  - intros _. split; [intros y []|exact I].
  - intros [Hb Hu]. destruct (Z.ltb a b) eqn:L; simpl.
    + apply Z.ltb_lt in L. split; [|split; assumption].
      intros y [<-|Hy]; [exact L|]. specialize (Hb y Hy). lia.
    + destruct (Z.eqb a b) eqn:E; simpl; [split; assumption|].
      apply Z.ltb_ge in L. apply Z.eqb_neq in E.
      split; [|apply IH, Hu].
      intros y Hy. apply insert_unique_In in Hy as [->|Hy]; [lia|].
      apply Hb, Hy.
Qed.

Lemma unique_ascending (l : list Z) : ascending (unique Z.ltb Z.eqb l).
Proof.
  clear.
  induction l as [|a l IH]; simpl; [exact I|].
  apply insert_unique_ascending, IH.
Qed.

Lemma unique_In (z : Z) (l : list Z) :
  In z (unique Z.ltb Z.eqb l) <-> In z l.
Proof.
  clear.
  induction l as [|a l IH]; simpl; [tauto|].
  change (fold_right (insert_unique Z.ltb Z.eqb) [] l)
    with (unique Z.ltb Z.eqb l).
  rewrite insert_unique_In, IH. intuition congruence.
Qed.

(** X3: [roc_auc_score] returns a score exactly when the target has
    exactly two distinct labels and there is one score per label; in
    every other case (a single class, more than two classes, arrays of
    different lengths) it raises [ValueError]. *)
Theorem roc_auc_score_returns_iff (y_true : list Z) (y_score : list R) :
  ((exists a, roc_auc_score y_true y_score = Ok a) <->
   length (unique Z.ltb Z.eqb y_true) = 2%nat /\
   length y_score = length y_true) /\
  ((forall a, roc_auc_score y_true y_score <> Ok a) ->
   roc_auc_score y_true y_score = Raise ValueError).
Proof.
  split; [split|].
  - intros [a H].
    apply roc_auc_score_inv in H
      as (c0 & c1 & y' & U & _ & L & L' & _).
    rewrite U. split; [reflexivity|congruence].
  - intros [U L]. unfold roc_auc_score.
    destruct (unique Z.ltb Z.eqb y_true) as [|c0 [|c1 [|c2 cs]]] eqn:E;
      try discriminate.
    set (y' := map (fun z => if Z.eqb z c1 then 1 else 0) y_true).
    assert (Hb : binary y') by apply binarized_binary.
    assert (I1 : In 1 y').
    { assert (In c1 y_true) by (apply unique_In; rewrite E; simpl; auto).
      apply in_map_iff. exists c1. now rewrite Z.eqb_refl. }
    assert (I0 : In 0 y').
    { assert (In c0 y_true) by (apply unique_In; rewrite E; simpl; auto).
      apply in_map_iff. exists c0.
      destruct (Z.eqb c0 c1) eqn:E01; [|auto].
      apply Z.eqb_eq in E01. subst c1. exfalso.
      pose proof (unique_ascending y_true) as D. rewrite E in D.
      destruct D as [D _]. specialize (D c0 (or_introl eq_refl)). lia. }
    assert (L' : length y_score = length y')
      by (unfold y'; now rewrite length_map).
    pose proof (roc_auc_score_binary y' y_score Hb I0 I1 L') as R.
    unfold roc_auc_score in R.
    rewrite (unique_binary y' Hb), !existsb_eqb_In in R by assumption.
    cbn [app] in R.
    assert (Ey : map (fun z => if Z.eqb z 1 then 1 else 0) y' = y').
    { rewrite <- (map_id y') at 2. apply map_ext_in.
      intros z Hz. destruct (Hb z Hz) as [-> | ->]; reflexivity. }
    rewrite Ey in R. eauto.
  - intros H. unfold roc_auc_score in *.
    destruct (unique Z.ltb Z.eqb y_true) as [|c0 [|c1 [|c2 cs]]];
      try reflexivity.
    unfold binary_roc_auc_score in *.
    destruct (negb _); [reflexivity|].
    unfold roc_curve in *.
    destruct (negb _); [reflexivity|].
    destruct (_ || _); [|reflexivity].
    cbn [rbind] in H. exfalso. eapply H. reflexivity.
Qed.

Lemma binary_roc_auc_score_binary (y : list Z) (sc : list R) :
  binary y -> In 0 y -> In 1 y -> length sc = length y ->
  binary_roc_auc_score y sc = Ok (auc (labelled y sc)).
Proof.
  intros Hb H0 H1 L.
  unfold binary_roc_auc_score.
  rewrite (unique_binary y Hb), !existsb_eqb_In by assumption.
  cbn [app length Nat.eqb negb].
  unfold roc_curve. rewrite L, Nat.eqb_refl. cbn [negb].
  assert (S01 : subset_of [0; 1] y = true).
  { unfold subset_of. apply forallb_forall. intros z Hz.
    destruct (Hb z Hz) as [-> | ->]; reflexivity. }
  rewrite S01. reflexivity.
Qed.

(** The score of a target with the two classes [c0 < c1]. *)
Lemma roc_auc_score_value (y : list Z) (s : list R) (c0 c1 : Z) :
  unique Z.ltb Z.eqb y = [c0; c1] -> length s = length y ->
  let y' := map (fun z => if Z.eqb z c1 then 1 else 0) y in
  binary y' /\ In 0 y' /\ In 1 y' /\ length s = length y' /\
  roc_auc_score y s = Ok (auc (labelled y' s)).
Proof.
  intros E L y'.
  assert (Hb : binary y') by apply binarized_binary.
  assert (I1 : In 1 y').
  { assert (In c1 y) by (apply unique_In; rewrite E; simpl; auto).
    apply in_map_iff. exists c1. now rewrite Z.eqb_refl. }
  assert (I0 : In 0 y').
  { assert (In c0 y) by (apply unique_In; rewrite E; simpl; auto).
    apply in_map_iff. exists c0.
    destruct (Z.eqb c0 c1) eqn:E01; [|auto].
    apply Z.eqb_eq in E01. subst c1. exfalso.
    pose proof (unique_ascending y) as D. rewrite E in D.
    destruct D as [D _]. specialize (D c0 (or_introl eq_refl)). lia. }
  assert (L' : length s = length y')
    by (unfold y'; now rewrite length_map).
  repeat split; try assumption.
  unfold roc_auc_score. rewrite E. fold y'.
  now apply binary_roc_auc_score_binary.
Qed.

(** X4: scoring the other way round turns a score [a] into [1 - a]:
    whenever [roc_auc_score] returns [a] for some scores, it returns
    [1 - a] for the scores mirrored in 1/2 (as the probability of the
    other class is). *)
Theorem roc_auc_score_of_mirrored_scores (y_true : list Z)
    (y_score : list R) (a : R) :
  roc_auc_score y_true y_score = Ok a ->
  roc_auc_score y_true (map (fun x => (1 - x)%R) y_score) = Ok (1 - a)%R.
Proof.
  intros H.
  apply roc_auc_score_inv in H
    as (c0 & c1 & y' & U & Ey & L & L' & Hb & H0 & H1 & ->).
  assert (Lm : length (map (fun x => (1 - x)%R) y_score) = length y_true)
    by (rewrite length_map; congruence).
  destruct (roc_auc_score_value y_true _ c0 c1 U Lm) as (_ & _ & _ & _ & R).
  rewrite R. rewrite <- Ey. f_equal.
  rewrite labelled_reflect.
  destruct (labelled_classes y' y_score L H0 H1) as [HN HP].
  pose proof (auc_reflect (labelled y' y_score) HN HP). lra.
Qed.

Lemma wins_constant (samples : list (bool * R)) (c : R) :
  (forall p, In p samples -> snd p = c) ->
  wins samples c = (INR (n_pos samples) / 2)%R.
Proof.
  intros Hc. unfold wins.
  assert (G : pos_with (gtb c) samples = 0%nat).
  { apply count_if_false. intros p Hp. rewrite (Hc p Hp).
    destruct (gtb c c) eqn:E; [apply gtb_true in E; lra|].
    apply andb_false_r. }
  assert (E : pos_with (eqb_R c) samples = n_pos samples).
  { apply count_if_ext. intros p Hp. rewrite (Hc p Hp).
    rewrite (proj2 (eqb_R_true c c)) by reflexivity. apply andb_true_r. }
  rewrite G, E. simpl. lra.
Qed.

(** X5: a predictor that gives every sample the same score gets exactly
    1/2, on every target with two classes: ties count for half. *)
Theorem roc_auc_score_of_constant_scores (y_true : list Z) (c : R) :
  length (unique Z.ltb Z.eqb y_true) = 2%nat ->
  roc_auc_score y_true (map (fun _ => c) y_true) = Ok (1 / 2)%R.
Proof.
  intros U.
  destruct (unique Z.ltb Z.eqb y_true) as [|c0 [|c1 [|c2 cs]]] eqn:E;
    try discriminate.
  assert (L : length (map (fun _ : Z => c) y_true) = length y_true)
    by apply length_map.
  destruct (roc_auc_score_value y_true _ c0 c1 E L)
    as (Hb & H0 & H1 & L' & R).
  rewrite R. f_equal.
  set (samples := labelled _ _).
  destruct (labelled_classes _ _ L' H0 H1) as [HN HP]. fold samples in HN, HP.
  rewrite (auc_mann_whitney samples HN HP).
  assert (Hc : forall p, In p samples -> snd p = c).
  { intros [b s] Hp. unfold samples, labelled in Hp.
    apply in_combine_r in Hp. apply in_map_iff in Hp as (z & <- & _).
    reflexivity. }
  assert (M : mann_whitney samples
              = (INR (n_neg samples) * (INR (n_pos samples) / 2))%R).
  { unfold mann_whitney. rewrite <- sum_over_negatives.
    apply Rsum_map_ext. intros p Hp.
    destruct (fst p); [reflexivity|].
    rewrite (Hc p Hp). now apply wins_constant. }
  rewrite M. field. split; now apply not_0_INR.
Qed.

(** X6: on the two targets of the competition the overall score of cell
    88 is the average of the two targets' scores: for two 0/1 targets
    with both classes present and one score per label,
    [roc_auc_score(y_eval, y_preds)] returns the mean of what
    [roc_auc_score] returns on each column. *)
Theorem overall_score_is_mean_of_two (y1 y2 : list Z) (s1 s2 : list R) :
  binary y1 -> In 0 y1 -> In 1 y1 -> length s1 = length y1 ->
  binary y2 -> In 0 y2 -> In 1 y2 -> length s2 = length y2 ->
  exists a1 a2,
    roc_auc_score y1 s1 = Ok a1 /\ roc_auc_score y2 s2 = Ok a2 /\
    roc_auc_score_multilabel [y1; y2] [s1; s2] = Ok ((a1 + a2) / 2)%R.
Proof.
  intros B1 Z1 O1 L1 B2 Z2 O2 L2.
  exists (auc (labelled y1 s1)), (auc (labelled y2 s2)).
  split; [now apply roc_auc_score_binary|].
  split; [now apply roc_auc_score_binary|].
  unfold roc_auc_score_multilabel. cbn [length Nat.eqb negb concat].
  assert (B : binary (y1 ++ y2 ++ [])).
  { intros z Hz. rewrite app_nil_r in Hz.
    apply in_app_or in Hz as [Hz|Hz]; auto. }
  rewrite (unique_binary _ B).
  rewrite !existsb_eqb_In by (apply in_or_app; auto).
  cbn [app length Nat.ltb Nat.leb column_scores].
  rewrite !binary_roc_auc_score_binary by assumption.
  cbn [rbind]. f_equal. unfold mean. simpl. lra.
Qed.

(** ** The session at each point of a complete run *)

Lemma firstn_plus {A} (j k : nat) (l : list A) :
  firstn (j + k) l = (firstn j l ++ firstn k (skipn j l))%list.
Proof.
  revert l. induction j as [|j IH]; intros [|a l]; simpl;
    try reflexivity.
  - now rewrite firstn_nil.
  - now rewrite IH.
Qed.

Lemma run_prefix (p : list (nat * stmt)) (k : nat) (s s' : session) :
  run p s = (None, s') ->
  run (firstn k p) s = (None, snd (run (firstn k p) s)) /\
  run (skipn k p) (snd (run (firstn k p) s)) = (None, s').
Proof.
  intros H. rewrite <- (firstn_skipn k p), run_app in H.
  destruct (run (firstn k p) s) as [[ce|] s1]; [discriminate|]. auto.
Qed.

Lemma run_step (p : list (nat * stmt)) (k c : nat) (st : stmt)
    (s s' : session) :
  run p s = (None, s') ->
  nth_error p k = Some (c, st) ->
  exec st (snd (run (firstn k p) s))
  = (None, snd (run (firstn (S k) p) s)).
Proof.
  intros H E. destruct (nth_error_split p k E) as (l1 & l2 & -> & <-).
  replace (S (length l1)) with (length l1 + 1)%nat by lia.
  rewrite firstn_app_2. cbn [firstn].
  rewrite firstn_app, Nat.sub_diag, firstn_all. cbn [firstn].
  rewrite app_nil_r.
  rewrite run_app in H. rewrite run_app.
  destruct (run l1 s) as [[ce|] s1]; [discriminate|]. cbn [snd run] in *.
  destruct (exec st s1) as [[ex|] s2]; [discriminate|]. reflexivity.
Qed.

Lemma state_at_step (k c : nat) (st : stmt) (s s' : session) :
  run notebook s = (None, s') ->
  nth_error notebook k = Some (c, st) ->
  exec st (state_at k s) = (None, state_at (S k) s).
Proof. apply run_step. Qed.

Lemma state_at_end (s s' : session) :
  run notebook s = (None, s') -> state_at 61 s = s'.
Proof.
  intros H. unfold state_at.
  change (firstn 61 notebook) with notebook. now rewrite H.
Qed.

Lemma state_at_frame (j k : nat) (x : string) (s : session) :
  (j <= k)%nat ->
  forallb (fun cs => negb (binds x (snd cs)))
          (firstn (k - j) (skipn j notebook)) = true ->
  globals (state_at k s) !! x = globals (state_at j s) !! x.
Proof.
  intros L H. unfold state_at.
  replace k with (j + (k - j))%nat at 1 by lia.
  rewrite firstn_plus, run_app.
  destruct (run (firstn j notebook) s) as [[ce|] s1]; [reflexivity|].
  cbn [snd]. now apply run_globals_frame.
Qed.

Lemma state_at_files (k : nat) (s : session) :
  (k <= 60)%nat -> files (state_at k s) = files s.
Proof.
  intros L. unfold state_at. apply run_files_frame.
  replace k with (Nat.min k 60) by lia.
  rewrite <- firstn_firstn. apply forallb_firstn.
  vm_compute. reflexivity.
Qed.

Lemma exec_assign_inv (x : string) (e : session -> result value)
    (s s1 : session) :
  exec (Assign x e) s = (None, s1) ->
  exists v, e s = Ok v /\ s1 = bind_var x v s.
Proof.
  cbn [exec]. destruct (e s) as [v|ex]; [|discriminate].
  intros [= <-]. now exists v.
Qed.

Lemma exec_unpack_inv (xs : list string) (e : session -> result (list value))
    (s s1 : session) :
  exec (Unpack xs e) s = (None, s1) ->
  exists vs, e s = Ok vs /\ length vs = length xs /\
             s1 = bind_vars xs vs s.
Proof.
  cbn [exec]. destruct (e s) as [vs|ex]; [|discriminate].
  destruct (Nat.eqb _ _) eqn:L; [|discriminate].
  intros [= <-]. apply Nat.eqb_eq in L. now exists vs.
Qed.

Lemma exec_expr_inv (e : session -> result unit) (s s1 : session) :
  exec (Expr e) s = (None, s1) -> e s = Ok tt /\ s1 = s.
Proof.
  cbn [exec]. destruct (e s) as [[]|ex]; [|discriminate].
  intros [= <-]. auto.
Qed.

Ltac carried j :=
  rewrite (state_at_frame j) by first [lia | vm_compute; reflexivity].

(** Cells 9 to 20 of a complete run. *)
Lemma loading_done (disk : gmap string DataFrame) (g : RandomState)
    (s' : session) :
  run notebook (fresh disk g) = (None, s') ->
  exists f l,
    read_csv (fresh disk g) training_set_features "respondent_id" = Ok f /\
    read_csv (fresh disk g) training_set_labels "respondent_id" = Ok l /\
    index f = index l /\
    globals (state_at 7 (fresh disk g)) !! "DATA_PATH"
    = Some (VPath "../data/raw") /\
    globals (state_at 7 (fresh disk g)) !! "features_df" = Some (VFrame f) /\
    globals (state_at 7 (fresh disk g)) !! "labels_df" = Some (VFrame l).
Proof.
  intros H. destruct (run_prefix notebook 7 _ _ H) as [H7 _].
  unfold state_at.
  change (firstn 7 notebook) with loading in *.
  rewrite run_loading in *.
  destruct (read_csv (fresh disk g) training_set_features _) as [f|];
    [|discriminate].
  destruct (read_csv (fresh disk g) training_set_labels _) as [l|];
    [|discriminate].
  cbv zeta in *.
  destruct (assert_array_equal (index f) (index l)) as [[]|] eqn:A;
    [|discriminate].
  apply assert_array_equal_ok in A.
  exists f, l. cbn [snd]. repeat split; try assumption; lookups; reflexivity.
Qed.

Lemma fit_columns_only (p q : Pipeline) (X y : DataFrame) :
  columns_ p = columns_ q -> fit p X y = fit q X y.
Proof. unfold fit. intros ->. reflexivity. Qed.

Lemma fit_keeps_columns (p p' : Pipeline) (X y : DataFrame) :
  fit p X y = Ok p' -> columns_ p' = columns_ p.
Proof.
  unfold fit. intros H.
  apply rbind_ok in H as (cols & _ & H).
  apply rbind_ok in H as (rows & _ & H).
  destruct (negb _); [discriminate|].
  apply rbind_ok in H as (ms & _ & H).
  injection H as <-. reflexivity.
Qed.

Lemma var_pipeline_inv (s : session) (x : string) (p : Pipeline) :
  var_pipeline s x = Ok p <-> globals s !! x = Some (VPipeline p).
Proof.
  unfold var_pipeline, var.
  destruct (globals s !! x) as [[]|]; simpl; split; congruence.
Qed.

Lemma var_probas_inv (s : session) (x : string) (a : list (list (list R))) :
  var_probas s x = Ok a <-> globals s !! x = Some (VProbas a).
Proof.
  unfold var_probas, var.
  destruct (globals s !! x) as [[]|]; simpl; split; congruence.
Qed.

Lemma var_names_inv (s : session) (x : string) (l : list string) :
  var_names s x = Ok l <-> globals s !! x = Some (VNames l).
Proof.
  unfold var_names, var.
  destruct (globals s !! x) as [[]|]; simpl; split; congruence.
Qed.

Lemma var_int_inv (s : session) (x : string) (z : Z) :
  var_int s x = Ok z <-> globals s !! x = Some (VInt z).
Proof.
  unfold var_int, var.
  destruct (globals s !! x) as [[]|]; simpl; split; congruence.
Qed.

Lemma fit_on_inv (X y : string) (s : session) (v : value) :
  fit_on X y s = Ok v ->
  exists p Xf yf p',
    var_pipeline s "full_pipeline" = Ok p /\ var_frame s X = Ok Xf /\
    var_frame s y = Ok yf /\ fit p Xf yf = Ok p' /\ v = VPipeline p'.
Proof.
  unfold fit_on. intros H.
  apply rbind_ok in H as (p & Hp & H).
  apply rbind_ok in H as (Xf & HX & H).
  apply rbind_ok in H as (yf & Hy & H).
  apply rbind_ok in H as (p' & Hf & H).
  injection H as <-. exists p, Xf, yf, p'. auto.
Qed.

Lemma train_test_split_inv (s : session) (X y stratify : DataFrame)
    (random_state : option Z) (vs : list value) :
  train_test_split s X y stratify random_state = Ok vs ->
  exists train test X_train X_test y_train y_test,
    length (index y) = length (index X) /\
    StratifiedShuffleSplit (check_random_state random_state s) stratify
      (length (index X) - n_test_of (length (index X)))
      (n_test_of (length (index X))) = Some (train, test) /\
    iloc X train = Ok X_train /\ iloc X test = Ok X_test /\
    iloc y train = Ok y_train /\ iloc y test = Ok y_test /\
    vs = [VFrame X_train; VFrame X_test; VFrame y_train; VFrame y_test].
Proof.
  unfold train_test_split. intros H.
  destruct (Nat.eqb (length (index y)) (length (index X))) eqn:L;
    [|discriminate].
  apply Nat.eqb_eq in L. cbn [negb] in H.
  destruct (Nat.eqb _ 0); [discriminate|].
  destruct (StratifiedShuffleSplit _ _ _ _) as [[train test]|];
    [|discriminate].
  apply rbind_ok in H as (Xt & HXt & H).
  apply rbind_ok in H as (Xe & HXe & H).
  apply rbind_ok in H as (yt & Hyt & H).
  apply rbind_ok in H as (ye & Hye & H).
  injection H as <-.
  exists train, test, Xt, Xe, yt, ye. auto 10.
Qed.

Lemma iloc_index (df df' : DataFrame) (rows : list nat) :
  iloc df rows = Ok df' ->
  take rows (index df) = Ok (index df') /\ index_name df' = index_name df.
Proof.
  unfold iloc. intros H.
  apply rbind_ok in H as (idx & Hi & H).
  apply rbind_ok in H as (cols & _ & H).
  injection H as <-. auto.
Qed.

Lemma make_y_preds_inv (s : session) (v : value) :
  make_y_preds s = Ok v ->
  exists a y_eval v0 v1 df,
    var_probas s "preds" = Ok a /\ var_frame s "y_eval" = Ok y_eval /\
    class_1 a 0 = Ok v0 /\ class_1 a 1 = Ok v1 /\
    DataFrame_of [("h1n1_vaccine", v0); ("seasonal_vaccine", v1)]
      (index_name y_eval) (index y_eval) = Ok df /\
    v = VFrame df.
Proof.
  unfold make_y_preds. intros H.
  apply rbind_ok in H as (a & Ha & H).
  apply rbind_ok in H as (v0 & H0 & H).
  apply rbind_ok in H as (v1 & H1 & H).
  apply rbind_ok in H as (ye & Hy & H).
  apply rbind_ok in H as (df & Hd & H).
  injection H as <-. exists a, ye, v0, v1, df. auto 10.
Qed.

(** What the modelling cells (60 to 90) of a complete run have computed,
    and what the variables hold when the test set is read. *)
Lemma modelling_trace (disk : gmap string DataFrame) (g : RandomState)
    (s' : session) :
  run notebook (fresh disk g) = (None, s') ->
  exists f l train test X_train X_eval y_train y_eval p a v0 v1 y_preds p',
    read_csv (fresh disk g) training_set_features "respondent_id" = Ok f /\
    read_csv (fresh disk g) training_set_labels "respondent_id" = Ok l /\
    index f = index l /\
    StratifiedShuffleSplit (RandomState_of_seed 6) l
      (length (index f) - n_test_of (length (index f)))
      (n_test_of (length (index f))) = Some (train, test) /\
    iloc f train = Ok X_train /\ iloc f test = Ok X_eval /\
    iloc l train = Ok y_train /\ iloc l test = Ok y_eval /\
    fit (unfitted f) X_train y_train = Ok p /\
    predict_proba p X_eval = Ok a /\
    class_1 a 0 = Ok v0 /\ class_1 a 1 = Ok v1 /\
    DataFrame_of [("h1n1_vaccine", v0); ("seasonal_vaccine", v1)]
      (index_name y_eval) (index y_eval) = Ok y_preds /\
    fit (unfitted f) f l = Ok p' /\
    globals (state_at 50 (fresh disk g)) !! "DATA_PATH"
    = Some (VPath "../data/raw") /\
    globals (state_at 50 (fresh disk g)) !! "X_train"
    = Some (VFrame X_train) /\
    globals (state_at 50 (fresh disk g)) !! "X_eval"
    = Some (VFrame X_eval) /\
    globals (state_at 50 (fresh disk g)) !! "y_train"
    = Some (VFrame y_train) /\
    globals (state_at 50 (fresh disk g)) !! "y_eval"
    = Some (VFrame y_eval) /\
    globals (state_at 50 (fresh disk g)) !! "preds" = Some (VProbas a) /\
    globals (state_at 50 (fresh disk g)) !! "y_preds"
    = Some (VFrame y_preds) /\
    globals (state_at 50 (fresh disk g)) !! "full_pipeline"
    = Some (VPipeline p').
Proof.
  intros H. set (s0 := fresh disk g) in *.
  destruct (loading_done _ _ _ H) as (f & l & Hf & Hl & Hidx & D7 & F7 & L7).
  fold s0 in D7, F7, L7.
  (* cell 60 *)
  pose proof (state_at_step 29 _ _ _ _ H eq_refl) as S.
  apply exec_assign_inv in S as (v & E & S29). injection E as <-.
  (* cell 63 *)
  pose proof (state_at_step 31 _ _ _ _ H eq_refl) as S.
  apply exec_assign_inv in S as (v & E & S31).
  assert (F31 : var_frame (state_at 31 s0) "features_df" = Ok f)
    by (apply var_frame_inv; carried 7%nat; exact F7).
  rewrite F31 in E. injection E as <-.
  (* cell 66 *)
  pose proof (state_at_step 33 _ _ _ _ H eq_refl) as S.
  apply exec_assign_inv in S as (v & E & S33).
  assert (N33 : var_names (state_at 33 s0) "numeric_cols"
                = Ok (non_object_columns f)).
  { apply var_names_inv. carried 32%nat. rewrite S31. lookups. reflexivity. }
  rewrite N33 in E. injection E as <-.
  (* cell 71 *)
  pose proof (state_at_step 35 _ _ _ _ H eq_refl) as S.
  apply exec_assign_inv in S as (v & E & S35).
  assert (P35 : var_pipeline (state_at 35 s0) "preprocessor"
                = Ok (unfitted f)).
  { apply var_pipeline_inv. carried 34%nat. rewrite S33. lookups.
    reflexivity. }
  rewrite P35 in E. cbn [rbind] in E.
  apply rbind_ok in E as (? & _ & E). injection E as <-.
  (* cell 78 *)
  pose proof (state_at_step 37 _ _ _ _ H eq_refl) as S.
  apply exec_unpack_inv in S as (vs & E & _ & S37).
  unfold split in E.
  assert (F37 : var_frame (state_at 37 s0) "features_df" = Ok f)
    by (apply var_frame_inv; carried 7%nat; exact F7).
  assert (L37 : var_frame (state_at 37 s0) "labels_df" = Ok l)
    by (apply var_frame_inv; carried 7%nat; exact L7).
  assert (R37 : var_int (state_at 37 s0) "RANDOM_SEED" = Ok 6).
  { apply var_int_inv. carried 30%nat. rewrite S29. lookups. reflexivity. }
  rewrite F37, L37, R37 in E. cbn [rbind] in E.
  apply train_test_split_inv in E
    as (train & test & Xt & Xe & yt & ye & _ & HS & HXt & HXe & Hyt & Hye & ->).
  cbn [check_random_state] in HS. cbn [bind_vars] in S37.
  (* cell 80 *)
  pose proof (state_at_step 38 _ _ _ _ H eq_refl) as S.
  apply exec_assign_inv in S as (v & E & S38).
  apply fit_on_inv in E as (p0 & X & y & p & Hp0 & HX & Hy & Hfit & ->).
  apply var_pipeline_inv in Hp0. revert Hp0. carried 36%nat.
  rewrite S35. lookups. intros [= <-].
  apply var_frame_inv in HX, Hy. rewrite S37 in HX, Hy. revert HX Hy.
  lookups. intros [= <-] [= <-].
  pose proof (state_at_step 39 _ _ _ _ H eq_refl) as S.
  apply exec_assign_inv in S as (v & E & S39).
  apply predict_on_inv in E as (p1 & X & a & Hp1 & HX & Ha & ->).
  apply var_pipeline_inv in Hp1. rewrite S38 in Hp1. revert Hp1.
  lookups. intros [= <-].
  apply var_frame_inv in HX. rewrite S38, S37 in HX. revert HX.
  lookups. intros [= <-].
  (* cell 83 *)
  pose proof (state_at_step 42 _ _ _ _ H eq_refl) as S.
  apply exec_assign_inv in S as (v & E & S42).
  apply make_y_preds_inv in E
    as (a' & ye' & v0 & v1 & yp & Ha' & Hye' & H0 & H1 & Hyp & ->).
  apply var_probas_inv in Ha'. revert Ha'. carried 40%nat.
  rewrite S39. lookups. intros [= <-].
  apply var_frame_inv in Hye'. revert Hye'. carried 38%nat.
  rewrite S37. lookups. intros [= <-].
  (* cell 90 *)
  pose proof (state_at_step 49 _ _ _ _ H eq_refl) as S.
  apply exec_assign_inv in S as (v & E & S49).
  apply fit_on_inv in E as (p2 & X & y & p' & Hp2 & HX & Hy & Hfit' & ->).
  apply var_pipeline_inv in Hp2. revert Hp2. carried 39%nat.
  rewrite S38. lookups. intros [= <-].
  apply var_frame_inv in HX, Hy. revert HX Hy. carried 7%nat.
  rewrite F7. intros [= <-]. carried 7%nat. rewrite L7. intros [= <-].
  rewrite (fit_columns_only p (unfitted f))
    in Hfit' by apply (fit_keeps_columns _ _ _ _ Hfit).
  exists f, l, train, test, Xt, Xe, yt, ye, p, a, v0, v1, yp, p'.
  repeat (split; [assumption|]).
  repeat split.
  - carried 7%nat. exact D7.
  - carried 38%nat. rewrite S37. lookups. reflexivity.
  - carried 38%nat. rewrite S37. lookups. reflexivity.
  - carried 38%nat. rewrite S37. lookups. reflexivity.
  - carried 38%nat. rewrite S37. lookups. reflexivity.
  - carried 40%nat. rewrite S39. lookups. reflexivity.
  - carried 43%nat. rewrite S42. lookups. reflexivity.
  - rewrite S49. lookups. reflexivity.
Qed.

Lemma DataFrame_of_inv (cols : list (string * list R)) (name : string)
    (idx : list Z) (df : DataFrame) :
  DataFrame_of cols name idx = Ok df ->
  Forall (fun nc => length (snd nc) = length idx) cols /\
  df = {| index_name := name; index := idx;
          columns := map (fun nc => (fst nc, FloatCol (map Some (snd nc))))
                         cols |}.
Proof.
  unfold DataFrame_of.
  destruct (forallb _ cols) eqn:E; [|discriminate].
  intros [= <-]. split; [|reflexivity].
  apply List.Forall_forall. intros nc Hnc.
  rewrite forallb_forall in E. apply Nat.eqb_eq, E, Hnc.
Qed.

Lemma iloc_same_rows (a b a' b' : DataFrame) (rows : list nat) :
  index a = index b ->
  iloc a rows = Ok a' -> iloc b rows = Ok b' -> index a' = index b'.
Proof.
  intros E Ha Hb.
  apply iloc_index in Ha as [Ha _]. apply iloc_index in Hb as [Hb _].
  rewrite E in Ha. congruence.
Qed.

(** X7: the split of cell 78 keeps features and labels together.  In a
    complete run the positions of the training and of the evaluation
    part are those the stratified shuffle gives for the label table
    with the seed 6, whatever the state of the global generator;
    [X_train] and [y_train] are the rows of [features_df] and of
    [labels_df] at the same positions, and so are [X_eval] and
    [y_eval]; as the check of cell 20 found the two tables keyed alike,
    each pair has the same respondents in the same order, and [y_preds]
    is keyed like [y_eval]. *)
Theorem split_keeps_features_and_labels_aligned
    (disk : gmap string DataFrame) (g : RandomState) (s' : session) :
  run notebook (fresh disk g) = (None, s') ->
  exists f l train test X_train X_eval y_train y_eval y_preds,
    read_csv (fresh disk g) training_set_features "respondent_id" = Ok f /\
    read_csv (fresh disk g) training_set_labels "respondent_id" = Ok l /\
    globals s' !! "X_train" = Some (VFrame X_train) /\
    globals s' !! "X_eval" = Some (VFrame X_eval) /\
    globals s' !! "y_train" = Some (VFrame y_train) /\
    globals s' !! "y_eval" = Some (VFrame y_eval) /\
    globals s' !! "y_preds" = Some (VFrame y_preds) /\
    StratifiedShuffleSplit (RandomState_of_seed 6) l
      (length (index f) - n_test_of (length (index f)))
      (n_test_of (length (index f))) = Some (train, test) /\
    iloc f train = Ok X_train /\ iloc l train = Ok y_train /\
    iloc f test = Ok X_eval /\ iloc l test = Ok y_eval /\
    index X_train = index y_train /\
    index X_eval = index y_eval /\
    index y_preds = index y_eval.
Proof.
  intros H.
  destruct (modelling_trace _ _ _ H)
    as (f & l & train & test & Xt & Xe & yt & ye & p & a & v0 & v1 & yp & p'
        & Hf & Hl & Hidx & HS & HXt & HXe & Hyt & Hye & _ & _ & _ & _ & Hyp
        & _ & _ & GXt & GXe & Gyt & Gye & _ & Gyp & _).
  exists f, l, train, test, Xt, Xe, yt, ye, yp.
  rewrite <- (state_at_end _ _ H).
  split; [exact Hf|]. split; [exact Hl|].
  split; [carried 50%nat; exact GXt|].
  split; [carried 50%nat; exact GXe|].
  split; [carried 50%nat; exact Gyt|].
  split; [carried 50%nat; exact Gye|].
  split; [carried 50%nat; exact Gyp|].
  split; [exact HS|].
  split; [exact HXt|]. split; [exact Hyt|].
  split; [exact HXe|]. split; [exact Hye|].
  split; [exact (iloc_same_rows _ _ _ _ _ Hidx HXt Hyt)|].
  split; [exact (iloc_same_rows _ _ _ _ _ Hidx HXe Hye)|].
  apply DataFrame_of_inv in Hyp as [_ ->]. reflexivity.
Qed.

(** X8: what is evaluated.  In a complete run the pipeline of cell 80 is
    fitted on the training part only, with the columns of [features_df]
    that are not of dtype object; [preds] are its probabilities for the
    held-out part, and [y_preds] has exactly the two columns
    [h1n1_vaccine] and [seasonal_vaccine], holding the class-1
    probabilities of the first and of the second target, one per row of
    [y_eval]. *)
Theorem evaluation_scores_held_out_rows
    (disk : gmap string DataFrame) (g : RandomState) (s' : session) :
  run notebook (fresh disk g) = (None, s') ->
  exists f X_train X_eval y_train y_eval p a v0 v1,
    read_csv (fresh disk g) training_set_features "respondent_id" = Ok f /\
    globals s' !! "X_train" = Some (VFrame X_train) /\
    globals s' !! "X_eval" = Some (VFrame X_eval) /\
    globals s' !! "y_train" = Some (VFrame y_train) /\
    globals s' !! "y_eval" = Some (VFrame y_eval) /\
    fit (unfitted f) X_train y_train = Ok p /\
    predict_proba p X_eval = Ok a /\
    globals s' !! "preds" = Some (VProbas a) /\
    class_1 a 0 = Ok v0 /\ class_1 a 1 = Ok v1 /\
    length v0 = length (index y_eval) /\
    length v1 = length (index y_eval) /\
    globals s' !! "y_preds"
    = Some (VFrame {| index_name := index_name y_eval;
                      index := index y_eval;
                      columns :=
                        [("h1n1_vaccine", FloatCol (map Some v0));
                         ("seasonal_vaccine", FloatCol (map Some v1))] |}).
Proof.
  intros H.
  destruct (modelling_trace _ _ _ H)
    as (f & l & train & test & Xt & Xe & yt & ye & p & a & v0 & v1 & yp & p'
        & Hf & _ & _ & _ & _ & _ & _ & _ & Hfit & Ha & H0 & H1 & Hyp
        & _ & _ & GXt & GXe & Gyt & Gye & Ga & Gyp & _).
  exists f, Xt, Xe, yt, ye, p, a, v0, v1.
  rewrite <- (state_at_end _ _ H).
  apply DataFrame_of_inv in Hyp as [L ->].
  inversion L as [|? ? L0 L']; subst. inversion L' as [|? ? L1 ?]; subst.
  cbn [snd] in L0, L1.
  split; [exact Hf|].
  split; [carried 50%nat; exact GXt|].
  split; [carried 50%nat; exact GXe|].
  split; [carried 50%nat; exact Gyt|].
  split; [carried 50%nat; exact Gye|].
  split; [exact Hfit|]. split; [exact Ha|].
  split; [carried 50%nat; exact Ga|].
  split; [exact H0|]. split; [exact H1|].
  split; [exact L0|]. split; [exact L1|].
  carried 50%nat. exact Gyp.
Qed.

(** The test set and its probabilities in a complete run. *)
Lemma predicting_trace (disk : gmap string DataFrame) (g : RandomState)
    (s' : session) (p' : Pipeline) :
  run notebook (fresh disk g) = (None, s') ->
  globals (state_at 50 (fresh disk g)) !! "DATA_PATH"
  = Some (VPath "../data/raw") ->
  globals (state_at 50 (fresh disk g)) !! "full_pipeline"
  = Some (VPipeline p') ->
  exists t a,
    read_csv (fresh disk g) test_set_features "respondent_id" = Ok t /\
    predict_proba p' t = Ok a /\
    globals s' !! "test_probas" = Some (VProbas a) /\
    globals s' !! "full_pipeline" = Some (VPipeline p').
Proof.
  intros H D50 P50. set (s0 := fresh disk g) in *.
  pose proof (state_at_step 50 _ _ _ _ H eq_refl) as S.
  apply exec_assign_inv in S as (v & E & S50).
  rewrite (load_eq _ _ D50) in E.
  change (path_join "../data/raw" "test_set_features.csv")
    with test_set_features in E.
  rewrite (read_csv_files _ s0) in E by (apply state_at_files; lia).
  apply rbind_ok in E as (t & Ht & E). injection E as <-.
  pose proof (state_at_step 51 _ _ _ _ H eq_refl) as S.
  apply exec_assign_inv in S as (v & E & S51).
  apply predict_on_inv in E as (p & X & a & Hp & HX & Ha & ->).
  apply var_pipeline_inv in Hp. rewrite S50 in Hp. revert Hp.
  lookups. rewrite P50. intros [= <-].
  apply var_frame_inv in HX. rewrite S50 in HX. revert HX.
  lookups. intros [= <-].
  exists t, a. rewrite <- (state_at_end _ _ H).
  split; [exact Ht|]. split; [exact Ha|]. split.
  - carried 52%nat. rewrite S51. lookups. reflexivity.
  - carried 50%nat. exact P50.
Qed.

(** X9: the submission comes from the refit.  In a complete run the
    written file is the template with its two columns set to the class-1
    probabilities that the pipeline fitted on the whole of
    [features_df] and [labels_df] (cell 90) gives for the test set; the
    fit on the training part (cell 80) leaves no trace in it, since
    fitting starts from the column list alone. *)
Theorem submission_comes_from_the_refit
    (disk : gmap string DataFrame) (g : RandomState) (s' : session) :
  run notebook (fresh disk g) = (None, s') ->
  exists f l t sub p a v0 v1,
    read_csv (fresh disk g) training_set_features "respondent_id" = Ok f /\
    read_csv (fresh disk g) training_set_labels "respondent_id" = Ok l /\
    read_csv (fresh disk g) test_set_features "respondent_id" = Ok t /\
    read_csv (fresh disk g) submission_format "respondent_id" = Ok sub /\
    fit (unfitted f) f l = Ok p /\
    globals s' !! "full_pipeline" = Some (VPipeline p) /\
    predict_proba p t = Ok a /\
    class_1 a 0 = Ok v0 /\ class_1 a 1 = Ok v1 /\
    files s' =
    <[OUTPUT_DATA_PATH :=
        {| index_name := index_name sub;
           index := index sub;
           columns :=
             set_column "seasonal_vaccine" (FloatCol (map Some v1))
               (set_column "h1n1_vaccine" (FloatCol (map Some v0))
                  (columns sub)) |}]> disk.
Proof.
  intros H.
  destruct (modelling_trace _ _ _ H)
    as (f & l & train & test & Xt & Xe & yt & ye & p & a & v0 & v1 & yp & p'
        & Hf & Hl & _ & _ & _ & _ & _ & _ & _ & _ & _ & _ & _
        & Hfit & D50 & _ & _ & _ & _ & _ & _ & P50).
  destruct (predicting_trace _ _ _ _ H D50 P50) as (t & a' & Ht & Ha & Ga & Gp).
  destruct (successful_run _ _ _ H)
    as (t2 & sub & p2 & a2 & w0 & w1 & Ht2 & Hs & _ & H0 & H1 & _ & _ & _
        & Ga2 & HF).
  rewrite Ga in Ga2. injection Ga2 as <-.
  assert (t2 = t) as -> by congruence.
  exists f, l, t, sub, p', a', w0, w1.
  split; [exact Hf|]. split; [exact Hl|]. split; [exact Ht|].
  split; [exact Hs|]. split; [exact Hfit|]. split; [exact Gp|].
  split; [exact Ha|]. split; [exact H0|]. split; [exact H1|]. exact HF.
Qed.

(** ** Two runs on the same input tables *)

Lemma bind_vars_globals (xs : list string) (vs : list value)
    (s s' : session) :
  globals s = globals s' ->
  globals (bind_vars xs vs s) = globals (bind_vars xs vs s').
Proof.
  revert vs s s'. induction xs as [|x xs IH]; intros [|v vs] s s' E;
    simpl; auto.
  apply IH. simpl. now rewrite E.
Qed.

Lemma var_frame_globals (s s' : session) (x : string) :
  globals s = globals s' -> var_frame s x = var_frame s' x.
Proof. unfold var_frame, var. now intros ->. Qed.

Lemma same_inputs_insert (d d' : gmap string DataFrame) (p : string)
    (df : DataFrame) :
  same_inputs d d' -> same_inputs (<[p := df]> d) (<[p := df]> d').
Proof.
  intros F q Hq. destruct (decide (p = q)) as [->|Hne].
  - now rewrite !lookup_insert_eq.
  - rewrite !lookup_insert_ne by exact Hne. now apply F.
Qed.

Lemma exec_alike (st : stmt) (s s' : session) :
  stmt_reads_inputs_only st -> alike s s' -> data_path_ok s ->
  fst (exec st s) = fst (exec st s') /\
  alike (snd (exec st s)) (snd (exec st s')).
Proof.
  destruct st; cbn [exec stmt_reads_inputs_only]; intros R A D;
    pose proof A as [G F].
  - rewrite <- (R s s' A D). destruct (e s); cbn [fst snd]; [|auto].
    split; [reflexivity|]. split; [cbn; now rewrite G|exact F].
  - rewrite <- (R s s' A D). destruct (e s); cbn [fst snd]; [|auto].
    destruct (Nat.eqb _ _); cbn [fst snd]; [|auto].
    split; [reflexivity|]. split; [now apply bind_vars_globals|].
    now rewrite !bind_vars_files.
  - rewrite <- (R s s' A D). destruct (e s); cbn [fst snd]; auto.
  - rewrite <- (R s s' A D), <- (var_frame_globals s s' x G).
    destruct (rbind _ _); cbn [fst snd]; [|auto].
    split; [reflexivity|]. split; [cbn; now rewrite G|exact F].
  - rewrite <- (R s s' A D), <- (var_frame_globals s s' x G).
    destruct (rbind _ _) as [[q df]|]; cbn [fst snd]; [|auto].
    split; [reflexivity|]. split; [exact G|].
    now apply same_inputs_insert.
Qed.

Lemma run_alike (p : list (nat * stmt)) :
  Forall (fun cs => stmt_reads_inputs_only (snd cs)) p ->
  Forall (fun cs => keeps_data_path (snd cs)) p ->
  forall s s', alike s s' -> data_path_ok s ->
               fst (run p s) = fst (run p s') /\
               alike (snd (run p s)) (snd (run p s')).
Proof.
  induction p as [|[c st] p IH]; intros FR FK s s' A D.
  - cbn [run fst snd]. auto.
  - inversion FR as [|? ? R FR']; inversion FK as [|? ? K FK']; subst.
    cbn [snd] in R, K. cbn [run].
    destruct (exec_alike st s s' R A D) as [E A1].
    pose proof (K s D) as D1.
    destruct (exec st s) as [[ex|] s1], (exec st s') as [[ex'|] s1'];
      cbn [fst snd] in *; try discriminate.
    + injection E as ->. auto.
    + now apply IH.
Qed.

Lemma load_reads_inputs_only (name : string) :
  In (path_join "../data/raw" name) input_paths ->
  reads_inputs_only (load name).
Proof.
  intros Hin s s' [G F] D. unfold load, var_path, var. rewrite <- G.
  destruct (globals s !! "DATA_PATH") as [v|] eqn:E; [|reflexivity].
  rewrite (D v E). cbn [rbind]. unfold read_csv.
  rewrite (F _ Hin). reflexivity.
Qed.

Ltac reads_tac :=
  first [ apply load_reads_inputs_only; simpl; tauto
        | intros [G1 F1 r1] [G2 F2 r2] [E _] _; cbn in E; subst;
          reflexivity ].

(** Every right-hand side of the notebook reads the variables and, in
    the four calls of [read_csv], the input tables; the one call that
    draws random numbers, [train_test_split], is given [RANDOM_SEED] and
    leaves the global generator alone. *)
Lemma notebook_reads_inputs_only :
  Forall (fun cs => stmt_reads_inputs_only (snd cs)) notebook.
Proof.
  unfold notebook, loading, exploring, modelling, predicting, submitting,
    cell, show, subplots.
  cbn [map app].
  repeat (constructor; [cbn [snd stmt_reads_inputs_only]; reads_tac|]).
  constructor.
Qed.

Lemma keeps_data_path_frame (st : stmt) :
  binds "DATA_PATH" st = false -> keeps_data_path st.
Proof.
  intros B s D v. rewrite (exec_globals_frame st s "DATA_PATH" B).
  apply D.
Qed.

Lemma notebook_keeps_data_path :
  Forall (fun cs => keeps_data_path (snd cs)) notebook.
Proof.
  unfold notebook, loading, exploring, modelling, predicting, submitting,
    cell, show, subplots.
  cbn [map app].
  constructor.
  { intros s D v. cbn [snd exec const]. lookups. congruence. }
  repeat (constructor; [apply keeps_data_path_frame; reflexivity|]).
  constructor.
Qed.

(** What the variables hold at the end of a complete run. *)
Lemma complete_run_variables (disk : gmap string DataFrame)
    (g : RandomState) (s' : session) :
  run notebook (fresh disk g) = (None, s') ->
  exists f l t sub train test X_train X_eval y_train y_eval p a p' a' v0 v1,
    read_csv (fresh disk g) training_set_features "respondent_id" = Ok f /\
    read_csv (fresh disk g) training_set_labels "respondent_id" = Ok l /\
    read_csv (fresh disk g) test_set_features "respondent_id" = Ok t /\
    read_csv (fresh disk g) submission_format "respondent_id" = Ok sub /\
    StratifiedShuffleSplit (RandomState_of_seed 6) l
      (length (index f) - n_test_of (length (index f)))
      (n_test_of (length (index f))) = Some (train, test) /\
    iloc f train = Ok X_train /\ iloc f test = Ok X_eval /\
    iloc l train = Ok y_train /\ iloc l test = Ok y_eval /\
    fit (unfitted f) X_train y_train = Ok p /\
    predict_proba p X_eval = Ok a /\
    fit (unfitted f) f l = Ok p' /\
    predict_proba p' t = Ok a' /\
    class_1 a' 0 = Ok v0 /\ class_1 a' 1 = Ok v1 /\
    globals s' !! "X_train" = Some (VFrame X_train) /\
    globals s' !! "X_eval" = Some (VFrame X_eval) /\
    globals s' !! "y_train" = Some (VFrame y_train) /\
    globals s' !! "y_eval" = Some (VFrame y_eval) /\
    globals s' !! "preds" = Some (VProbas a) /\
    globals s' !! "full_pipeline" = Some (VPipeline p') /\
    globals s' !! "test_probas" = Some (VProbas a') /\
    files s' =
    <[OUTPUT_DATA_PATH :=
        {| index_name := index_name sub;
           index := index sub;
           columns :=
             set_column "seasonal_vaccine" (FloatCol (map Some v1))
               (set_column "h1n1_vaccine" (FloatCol (map Some v0))
                  (columns sub)) |}]> disk.
Proof.
  intros H.
  destruct (modelling_trace _ _ _ H)
    as (f & l & train & test & Xt & Xe & yt & ye & p & a & w0 & w1 & yp & p'
        & Hf & Hl & _ & HS & HXt & HXe & Hyt & Hye & Hfit & Ha & _ & _ & _
        & Hfit' & D50 & GXt & GXe & Gyt & Gye & Ga & _ & P50).
  destruct (predicting_trace _ _ _ _ H D50 P50)
    as (t & a' & Ht & Ha' & Ga' & Gp).
  destruct (successful_run _ _ _ H)
    as (t2 & sub & p2 & a2 & v0 & v1 & Ht2 & Hs & _ & H0 & H1 & _ & _ & _
        & Ga2 & HF).
  rewrite Ga' in Ga2. injection Ga2 as <-.
  exists f, l, t, sub, train, test, Xt, Xe, yt, ye, p, a, p', a', v0, v1.
  rewrite <- (state_at_end _ _ H) in *.
  split; [exact Hf|]. split; [exact Hl|]. split; [exact Ht|].
  split; [exact Hs|]. split; [exact HS|].
  split; [exact HXt|]. split; [exact HXe|].
  split; [exact Hyt|]. split; [exact Hye|].
  split; [exact Hfit|]. split; [exact Ha|]. split; [exact Hfit'|].
  split; [exact Ha'|]. split; [exact H0|]. split; [exact H1|].
  split; [carried 50%nat; exact GXt|].
  split; [carried 50%nat; exact GXe|].
  split; [carried 50%nat; exact Gyt|].
  split; [carried 50%nat; exact Gye|].
  split; [carried 50%nat; exact Ga|].
  split; [exact Gp|]. split; [exact Ga'|]. exact HF.
Qed.

Lemma read_csv_same_inputs (disk disk' : gmap string DataFrame)
    (g g' : RandomState) (p key : string) :
  same_inputs disk disk' -> In p input_paths ->
  read_csv (fresh disk' g') p key = read_csv (fresh disk g) p key.
Proof.
  intros F Hp. unfold read_csv. cbn [files fresh]. now rewrite (F p Hp).
Qed.

(** C4: two runs on the same input tables.  Whatever the state of
    numpy's global generator in each, and whatever else is on disk (an
    earlier submission, say), the two runs end the same way (both to the
    end, or both at the same cell on the same exception) with every
    variable holding the same value.  When they reach the end, the split
    is in both the stratified shuffle of the label table drawn with the
    seed 6, the pipeline of cell 80 is the one fitted on that training
    part and [preds] are its probabilities for the evaluation part, the
    final pipeline is the one fitted on the whole training tables and
    [test_probas] are its probabilities for the test set, and the two
    runs write the same submission. *)
Theorem seeded_runs_are_identical
    (disk disk' : gmap string DataFrame) (g g' : RandomState) :
  same_inputs disk disk' ->
  let r := run notebook (fresh disk g) in
  let r' := run notebook (fresh disk' g') in
  fst r = fst r' /\
  globals (snd r) = globals (snd r') /\
  (fst r = None ->
   exists f l t train test X_train X_eval y_train y_eval p a p' a' out,
     read_csv (fresh disk g) training_set_features "respondent_id" = Ok f /\
     read_csv (fresh disk g) training_set_labels "respondent_id" = Ok l /\
     read_csv (fresh disk g) test_set_features "respondent_id" = Ok t /\
     StratifiedShuffleSplit (RandomState_of_seed 6) l
       (length (index f) - n_test_of (length (index f)))
       (n_test_of (length (index f))) = Some (train, test) /\
     iloc f train = Ok X_train /\ iloc f test = Ok X_eval /\
     iloc l train = Ok y_train /\ iloc l test = Ok y_eval /\
     fit (unfitted f) X_train y_train = Ok p /\
     predict_proba p X_eval = Ok a /\
     fit (unfitted f) f l = Ok p' /\
     predict_proba p' t = Ok a' /\
     forall s, s = snd r \/ s = snd r' ->
       globals s !! "X_train" = Some (VFrame X_train) /\
       globals s !! "X_eval" = Some (VFrame X_eval) /\
       globals s !! "y_train" = Some (VFrame y_train) /\
       globals s !! "y_eval" = Some (VFrame y_eval) /\
       globals s !! "preds" = Some (VProbas a) /\
       globals s !! "full_pipeline" = Some (VPipeline p') /\
       globals s !! "test_probas" = Some (VProbas a') /\
       files s !! OUTPUT_DATA_PATH = Some out).
Proof.
  intros F r r'.
  assert (A0 : alike (fresh disk g) (fresh disk' g')) by (split; auto).
  assert (D0 : data_path_ok (fresh disk g)).
  { intros v Hv. cbn in Hv. rewrite lookup_empty in Hv. discriminate. }
  destruct (run_alike notebook notebook_reads_inputs_only
              notebook_keeps_data_path _ _ A0 D0) as [E [G _]].
  fold r r' in E, G.
  split; [exact E|]. split; [exact G|].
  intros Hr.
  assert (H : run notebook (fresh disk g) = (None, snd r)).
  { unfold r in *. destruct (run notebook (fresh disk g)) as [o s1].
    cbn in Hr |- *. now subst. }
  assert (H' : run notebook (fresh disk' g') = (None, snd r')).
  { rewrite Hr in E. unfold r' in *.
    destruct (run notebook (fresh disk' g')) as [o s1].
    cbn in E |- *. now subst. }
  destruct (complete_run_variables _ _ _ H)
    as (f & l & t & sub & train & test & Xt & Xe & yt & ye & p & a & p' & a'
        & v0 & v1 & Hf & Hl & Ht & Hs & HS & HXt & HXe & Hyt & Hye & Hfit
        & Ha & Hfit' & Ha' & H0 & H1 & GXt & GXe & Gyt & Gye & Ga & Gp & Ga'
        & HF).
  destruct (complete_run_variables _ _ _ H')
    as (_ & _ & _ & sub2 & _ & _ & _ & _ & _ & _ & _ & _ & _ & a2 & w0 & w1
        & _ & _ & _ & Hs2 & _ & _ & _ & _ & _ & _ & _ & _ & _ & K0 & K1
        & _ & _ & _ & _ & _ & _ & Ga2 & HF2).
  rewrite (read_csv_same_inputs disk disk' g g') in Hs2
    by (auto; simpl; tauto).
  rewrite Hs in Hs2. injection Hs2 as <-.
  rewrite <- G, Ga' in Ga2. injection Ga2 as <-.
  rewrite H0 in K0. injection K0 as <-.
  rewrite H1 in K1. injection K1 as <-.
  eexists f, l, t, train, test, Xt, Xe, yt, ye, p, a, p', a', _.
  split; [exact Hf|]. split; [exact Hl|]. split; [exact Ht|].
  split; [exact HS|].
  split; [exact HXt|]. split; [exact HXe|].
  split; [exact Hyt|]. split; [exact Hye|].
  split; [exact Hfit|]. split; [exact Ha|]. split; [exact Hfit'|].
  split; [exact Ha'|].
  intros s [->| ->].
  - split; [exact GXt|]. split; [exact GXe|]. split; [exact Gyt|].
    split; [exact Gye|]. split; [exact Ga|]. split; [exact Gp|].
    split; [exact Ga'|]. rewrite HF. apply lookup_insert_eq.
  - rewrite <- G.
    split; [exact GXt|]. split; [exact GXe|]. split; [exact Gyt|].
    split; [exact Gye|]. split; [exact Ga|]. split; [exact Gp|].
    split; [exact Ga'|]. rewrite HF2. apply lookup_insert_eq.
Qed.

(** ** The notebook's plotting function *)

Lemma get_column_has (name : string) (cols : list (string * column)) :
  has_column name cols = true <-> exists c, get_column name cols = Some c.
Proof.
  induction cols as [|[n c0] cols IH]; simpl.
  - split; [discriminate|intros [c [=]]].
  - destruct (String.eqb n name); simpl; [split; eauto|exact IH].
Qed.

(** X10: [vaccination_rate_plot] draws from the global [joined_df], not
    from its argument [data].  Whatever table is passed as [data], the
    call raises [NameError] while no [joined_df] is defined and
    [KeyError] when [joined_df] lacks the column [target] or the column
    [col]; and when it returns, [joined_df] has the two columns, they
    are two different columns, and some row has a value in both. *)
Theorem vaccination_rate_plot_reads_the_global
    (col target : string) (s : session) :
  (forall data data',
      vaccination_rate_plot col target data s
      = vaccination_rate_plot col target data' s) /\
  (globals s !! "joined_df" = None ->
   forall data, vaccination_rate_plot col target data s = Raise NameError) /\
  (forall joined,
      globals s !! "joined_df" = Some (VFrame joined) ->
      (has_column target (columns joined) && has_column col (columns joined)
       = false ->
       forall data,
         vaccination_rate_plot col target data s = Raise KeyError) /\
      (forall data,
          vaccination_rate_plot col target data s = Ok tt ->
          target <> col /\
          exists t c i,
            getitem joined target = Ok t /\ getitem joined col = Ok c /\
            nth_error (observed_at t) i = Some true /\
            nth_error (observed_at c) i = Some true)).
Proof.
  split; [reflexivity|]. split.
  - intros H data. unfold vaccination_rate_plot, var_frame, var.
    rewrite H. reflexivity.
  - intros joined H. split.
    + intros Hc data. unfold vaccination_rate_plot.
      rewrite (proj2 (var_frame_inv _ _ _) H). cbn [rbind].
      unfold getitem.
      destruct (get_column target (columns joined)) as [t|] eqn:Gt;
        [|reflexivity].
      destruct (get_column col (columns joined)) as [c|] eqn:Gc;
        [|reflexivity].
      assert (has_column target (columns joined) = true)
        by (apply get_column_has; eauto).
      assert (has_column col (columns joined) = true)
        by (apply get_column_has; eauto).
      rewrite H0, H1 in Hc. discriminate.
    + intros data. unfold vaccination_rate_plot.
      rewrite (proj2 (var_frame_inv _ _ _) H). cbn [rbind].
      intros E. apply rbind_ok in E as (t & Ht & E).
      apply rbind_ok in E as (c & Hc & E).
      destruct (String.eqb target col) eqn:Q; [discriminate|].
      apply String.eqb_neq in Q. split; [exact Q|].
      destruct (existsb _ _) eqn:X; [|discriminate].
      apply existsb_exists in X as ([a b] & Hin & Hab).
      apply andb_true_iff in Hab as [Ha Hb]. cbn [fst snd] in Ha, Hb.
      subst a b.
      apply In_nth_error in Hin as [i Hi].
      exists t, c, i. split; [exact Ht|]. split; [exact Hc|].
      clear - Hi. revert i Hi.
      generalize (observed_at t) (observed_at c).
      induction l as [|a l IH]; intros [|b l'] [|i]; simpl;
        try discriminate.
      * intros [= -> ->]. auto.
      * apply IH.
Qed.

(** ** Reading the training files *)

Lemma notebook_after_loading : notebook = (loading ++ skipn 7 notebook)%list.
Proof. reflexivity. Qed.

(** X11: a training file that cannot be read stops the run in cell 12,
    and nothing else does: the run stops in cell 12 exactly when one of
    the two training tables is missing or has no [respondent_id] column
    to index by, with the exception of the first read that fails. *)
Theorem run_stops_in_cell_12_iff_unreadable
    (disk : gmap string DataFrame) (g : RandomState) (ex : exception) :
  (exists s, run notebook (fresh disk g) = (Some (12%nat, ex), s)) <->
  (read_csv (fresh disk g) training_set_features "respondent_id" = Raise ex \/
   exists f,
     read_csv (fresh disk g) training_set_features "respondent_id" = Ok f /\
     read_csv (fresh disk g) training_set_labels "respondent_id" = Raise ex).
Proof.
  rewrite notebook_after_loading, run_app, run_loading.
  assert (N : forall s0 s c e,
             run (skipn 7 notebook) s0 = (Some (c, e), s) -> c <> 12%nat).
  { intros s0 s c e Hr. apply run_stops_in in Hr.
    assert (F : forallb (fun c => negb (Nat.eqb c 12))
                  (map fst (skipn 7 notebook)) = true)
      by (vm_compute; reflexivity).
    rewrite forallb_forall in F. specialize (F c Hr).
    apply negb_true_iff, Nat.eqb_neq in F. exact F. }
  destruct (read_csv (fresh disk g) training_set_features _) as [f|e1].
  - destruct (read_csv (fresh disk g) training_set_labels _) as [l|e2].
    + cbv zeta.
      destruct (assert_array_equal (index f) (index l)) as [[]|e3]; split.
      * intros [s Hs]. exfalso. now apply N in Hs.
      * intros [[=]|(f' & _ & [=])].
      * intros [s [=]].
      * intros [[=]|(f' & _ & [=])].
    + split.
      * intros [s [= ->]]. right. eauto.
      * intros [[=]|(f' & _ & [= ->])]. eauto.
    - split.
      + intros [s [= ->]]. now left.
      + intros [[= ->]|(f' & [=] & _)]. eauto.
Qed.

(** ** Standardisation *)

Lemma Rsum_map_scaled {A} (f : A -> R) (k : R) (l : list A) :
  Rsum (map (fun a => (f a * k)%R) l) = (Rsum (map f l) * k)%R.
Proof. induction l as [|a l IH]; simpl; [lra|]. rewrite IH. lra. Qed.

Lemma Rsum_map_shifted (m : R) (xs : list R) :
  Rsum (map (fun x => (x - m)%R) xs) = (Rsum xs - INR (length xs) * m)%R.
Proof.
  induction xs as [|x xs IH]; [simpl; lra|].
  cbn [map Rsum fold_right length]. fold (Rsum (map (fun x => (x - m)%R) xs)).
  fold (Rsum xs). rewrite IH, S_INR. lra.
Qed.

Lemma Rsum_squares_nonneg {A} (f : A -> R) (l : list A) :
  (0 <= Rsum (map (fun a => (f a * f a)%R) l))%R.
Proof.
  induction l as [|a l IH]; simpl; [lra|].
  pose proof (Rle_0_sqr (f a)) as Q. unfold Rsqr in Q. lra.
Qed.

Lemma mean_centred (xs : list R) :
  xs <> [] ->
  Rsum (map (fun x => (x - mean xs)%R) xs) = 0%R.
Proof.
  intros H. rewrite Rsum_map_shifted. unfold mean.
  assert (N : INR (length xs) <> 0%R).
  { apply not_0_INR. destruct xs; [contradiction|discriminate]. }
  field. exact N.
Qed.

Lemma nanmean_some (l : list (option R)) :
  observed l <> [] -> nanmean l = Some (mean (observed l)).
Proof. unfold nanmean. now destruct (observed l). Qed.

Lemma nanvar_some (l : list (option R)) :
  observed l <> [] ->
  nanvar l
  = Some (mean (map (fun x => ((x - mean (observed l))
                               * (x - mean (observed l)))%R) (observed l))).
Proof. unfold nanvar. now destruct (observed l). Qed.

Lemma squares_sum_zero (mu : R) (xs : list R) (x : R) :
  Rsum (map (fun x => ((x - mu) * (x - mu))%R) xs) = 0%R ->
  In x xs -> x = mu.
Proof.
  induction xs as [|a xs IH]; [contradiction|].
  simpl. intros Q Hx.
  pose proof (Rsum_squares_nonneg (fun x => (x - mu)%R) xs) as P.
  cbv beta in P.
  pose proof (Rle_0_sqr (a - mu)) as Qa. unfold Rsqr in Qa.
  destruct Hx as [->|Hx].
  - assert (Z0 : ((x - mu) * (x - mu) = 0)%R) by lra.
    apply Rmult_integral in Z0. lra.
  - apply IH; [lra|exact Hx].
Qed.

(** X12: the scaler does what the notebook says of it.  Fitted on a
    column with at least one observed value and applied to that column,
    [StandardScaler] leaves the missing values missing and gives the
    observed ones mean zero; their variance becomes one, unless the
    column is constant, in which case every observed value becomes
    zero. *)
Theorem standard_scaler_standardises (c : list (option R)) :
  observed c <> [] ->
  let c' := scaler_transform (scaler_fit c) c in
  map (fun x => match x with Some _ => true | None => false end) c'
  = map (fun x => match x with Some _ => true | None => false end) c /\
  nanmean c' = Some 0%R /\
  exists v,
    nanvar c = Some v /\ (0 <= v)%R /\
    (v <> 0%R -> nanvar c' = Some 1%R) /\
    (v = 0%R -> nanvar c' = Some 0%R /\
                forall y, In y (observed c') -> y = 0%R).
Proof.
  intros H c'.
  destruct (scaler_fit_observed c H) as (mu & sigma & Hfit & Hmu & Hs).
  assert (Hc' : observed c' = map (scale_value (mu, sigma)) (observed c)).
  { unfold c'. rewrite Hfit. apply observed_scaled. }
  split.
  { unfold c'. rewrite Hfit. unfold scaler_transform. rewrite map_map.
    apply map_ext. now intros [x|]. }
  assert (H' : observed c' <> []).
  { rewrite Hc'. destruct (observed c); [contradiction|discriminate]. }
  rewrite (nanmean_some c' H'), (nanvar_some c' H'), (nanvar_some c H).
  rewrite (nanmean_some c H) in Hmu. injection Hmu as Hmu.
  unfold scaler_fit in Hfit.
  rewrite (nanmean_some c H), (nanvar_some c H) in Hfit.
  injection Hfit as _ Hsig.
  rewrite Hc'. clear Hc' H' c'.
  set (xs := observed c) in *.
  assert (N : INR (length xs) <> 0%R).
  { apply not_0_INR. destruct xs; [contradiction|discriminate]. }
  set (ys := map (scale_value (mu, sigma)) xs).
  assert (M0 : mean ys = 0%R).
  { unfold mean, ys. rewrite length_map.
    assert (S0 : Rsum (map (scale_value (mu, sigma)) xs) = 0%R).
    { unfold scale_value. cbn [fst snd]. unfold Rdiv.
      rewrite (Rsum_map_scaled (fun x => (x - mu)%R) (/ sigma) xs).
      rewrite <- Hmu, mean_centred by exact H. lra. }
    rewrite S0. unfold Rdiv. lra. }
  rewrite M0, Hmu in *.
  set (q := Rsum (map (fun x => ((x - mu) * (x - mu))%R) xs)).
  assert (Q0 : (0 <= q)%R) by apply Rsum_squares_nonneg.
  assert (V : mean (map (fun y => ((y - 0) * (y - 0))%R) ys)
              = (q / INR (length xs) * (/ sigma * / sigma))%R).
  { unfold mean, ys. rewrite !length_map, map_map.
    rewrite (Rsum_map_ext _
               (fun x => ((x - mu) * (x - mu) * (/ sigma * / sigma))%R)).
    - rewrite (Rsum_map_scaled (fun x => ((x - mu) * (x - mu))%R)).
      fold q. unfold Rdiv. ring.
    - intros x _. unfold scale_value. cbn [fst snd]. unfold Rdiv. ring. }
  assert (Hv : mean (map (fun x => ((x - mu) * (x - mu))%R) xs)
               = (q / INR (length xs))%R)
    by (unfold mean; rewrite length_map; reflexivity).
  rewrite Hv in *. rewrite V.
  split; [reflexivity|].
  exists (q / INR (length xs))%R.
  split; [reflexivity|].
  assert (V0 : (0 <= q / INR (length xs))%R).
  { apply Rmult_le_pos; [exact Q0|].
    apply Rlt_le, Rinv_0_lt_compat.
    assert (0 <= INR (length xs))%R by apply pos_INR. lra. }
  split; [exact V0|].
  split.
  - intros Vne. f_equal.
    unfold handle_zeros_in_scale in Hsig.
    destruct (Req_dec_T _ 0) as [Z0|Z0].
    + apply sqrt_eq_0 in Z0; [contradiction|exact V0].
    + assert (SS : (sigma * sigma = q / INR (length xs))%R)
        by (rewrite <- Hsig; now apply sqrt_sqrt).
      rewrite <- SS. field. lra.
  - intros Vz. split.
    + rewrite Vz. f_equal. lra.
    + intros y Hy. unfold ys in Hy.
      apply in_map_iff in Hy as (x & <- & Hx).
      assert (Qz : q = 0%R).
      { unfold Rdiv in Vz.
        apply Rmult_integral in Vz as [Vz|Vz]; [exact Vz|].
        exfalso. revert Vz. now apply Rinv_neq_0_compat. }
      rewrite (squares_sum_zero mu xs x Qz Hx).
      unfold scale_value. cbn [fst snd]. unfold Rdiv. lra.
Qed.

(** ** Rows of probabilities *)

(** X13: every row of [predict_proba] is a distribution over the
    classes: for a two-class target it is the pair [1 - p, p], and
    whenever the model has a row of coefficients the entries sum to
    one. *)
Theorem predict_proba_row_sums_to_one (m : LogisticRegression) (x : list R) :
  (n_classes m = 2%nat ->
   exists p, predict_proba_row m x = [(1 - p)%R; p]) /\
  (n_classes m = 2%nat \/ coef_ m <> [] ->
   Rsum (predict_proba_row m x) = 1%R).
Proof.
  unfold predict_proba_row. split.
  - intros ->. cbn [Nat.eqb]. eauto.
  - intros H. destruct (Nat.eqb (n_classes m) 2) eqn:E.
    + simpl. lra.
    + destruct H as [H|H]; [rewrite H in E; discriminate|].
      unfold softmax. rewrite map_map.
      set (zs := map (fun w => decision_function w x) (coef_ m)).
      assert (P : (0 < Rsum (map exp zs))%R).
      { destruct (coef_ m) as [|w ws] eqn:C; [contradiction|].
        pose proof (Rsum_exp_pos zs (decision_function w x)) as Q.
        assert (In (decision_function w x) zs) by (unfold zs; now left).
        specialize (Q H0). lra. }
      change (Rsum (map (fun z => (exp z * / Rsum (map exp zs))%R) zs)
              = 1%R).
      rewrite (Rsum_map_scaled exp).
      field. lra.
Qed.

(** ** The columns the pipeline selects *)

Lemma get_column_distinct (n : string) (c : column)
    (cols : list (string * column)) :
  distinct (map fst cols) -> In (n, c) cols -> get_column n cols = Some c.
Proof.
  induction cols as [|[n0 c0] cols IH]; simpl; [tauto|].
  intros [Hn Hd] [E|Hin].
  - injection E as -> ->. now rewrite String.eqb_refl.
  - destruct (String.eqb n0 n) eqn:E; [|now apply IH].
    apply String.eqb_eq in E. subst n0. exfalso. apply Hn.
    apply in_map_iff. now exists (n, c).
Qed.

(** The numbers of a column that is not of dtype object. *)
Lemma to_float_numeric (c : column) :
  is_object c = false ->
  to_float c = Ok (match c with
                   | IntCol v => map (fun z => Some (IZR z)) v
                   | FloatCol v => v
                   | ObjCol _ => []
                   end).
Proof. destruct c; simpl; [reflexivity..|discriminate]. Qed.

(** X14: the column list of cell 63 can always be selected from the
    table it was taken from.  On a table whose column names are
    distinct, selecting [non_object_columns] never raises: it gives the
    columns that are not of dtype object, in the table's order, as
    numbers; no object column is among them. *)
Theorem numeric_columns_are_selected (df : DataFrame) :
  distinct (column_names df) ->
  select_columns (non_object_columns df) df
  = Ok (map (fun nc => match snd nc with
                       | IntCol v => map (fun z => Some (IZR z)) v
                       | FloatCol v => v
                       | ObjCol _ => []
                       end)
            (List.filter (fun nc => negb (is_object (snd nc))) (columns df))).
Proof.
  intros D. unfold select_columns, non_object_columns.
  set (g := fun nc : string * column =>
              match snd nc with
              | IntCol v => map (fun z => Some (IZR z)) v
              | FloatCol v => v
              | ObjCol _ => []
              end).
  assert (K : forall l,
             (forall nc, In nc l ->
                         In nc (columns df) /\ is_object (snd nc) = false) ->
             rmap (fun n => match get_column n (columns df) with
                            | Some c => to_float c
                            | None => Raise ValueError
                            end) (map fst l) = Ok (map g l)).
  { induction l as [|[n c] l IH]; intros Hl; [reflexivity|].
    cbn [map rmap fst].
    destruct (Hl (n, c) (or_introl eq_refl)) as [Hin Hobj].
    rewrite (get_column_distinct n c (columns df) D Hin).
    rewrite (to_float_numeric c Hobj). cbn [rbind].
    rewrite IH by (intros nc Hnc; apply Hl; now right). reflexivity. }
  apply K. intros nc Hnc. apply filter_In in Hnc as [Hin Hobj].
  split; [exact Hin|]. now apply negb_true_iff in Hobj.
Qed.

(** ** The shape of the predictions *)

Lemma rmap_length {A B} (f : A -> result B) (l : list A) (l' : list B) :
  rmap f l = Ok l' -> length l' = length l.
Proof.
  revert l'. induction l as [|a l IH]; intros l'; simpl.
  - now intros [= <-].
  - intros H. apply rbind_ok in H as (b & _ & H).
    apply rbind_ok in H as (bs & Hbs & H). injection H as <-.
    simpl. f_equal. now apply IH.
Qed.

Lemma rmap_nth {A B} (f : A -> result B) (l : list A) (l' : list B)
    (k : nat) (a : A) :
  rmap f l = Ok l' -> nth_error l k = Some a ->
  exists b, nth_error l' k = Some b /\ f a = Ok b.
Proof.
  revert l' k. induction l as [|a0 l IH]; intros l' k; simpl.
  - intros _. now destruct k.
  - intros H. apply rbind_ok in H as (b & Hb & H).
    apply rbind_ok in H as (bs & Hbs & H). injection H as <-.
    destruct k as [|k]; simpl.
    + intros [= <-]. eauto.
    + now apply IH.
Qed.

Lemma check_array_length (n : nat) (cols : list (list R))
    (rows : list (list R)) :
  check_array n cols = Ok rows -> length rows = n.
Proof.
  unfold check_array. destruct n; [discriminate|].
  destruct cols; [discriminate|]. intros [= <-].
  unfold rows_of. now rewrite length_map, length_seq.
Qed.

(** X15: the shape of what [predict_proba] returns.  A fitted pipeline
    gives one array per column of the labels it was fitted on, each with
    one row per row of the table it is applied to; for a target with
    two classes every row has two entries, so that [probas[k][:, 1]]
    exists and has one probability per row. *)
Theorem predict_proba_has_a_column_per_target (p p' : Pipeline)
    (X y T : DataFrame) (a : list (list (list R))) :
  fit p X y = Ok p' ->
  predict_proba p' T = Ok a ->
  length a = length (columns y) /\
  Forall (fun arr => length arr = length (index T)) a /\
  forall k name c ys,
    nth_error (columns y) k = Some (name, c) ->
    encode_labels c = Ok (2%nat, ys) ->
    exists v, class_1 a k = Ok v /\ length v = length (index T).
Proof.
  intros Hfit Hp.
  apply fit_inv in Hfit as (cols & rows & models & _ & _ & _ & Hm & ->).
  unfold predict_proba in Hp. cbn [fitted_ numeric_ estimators_ columns_] in Hp.
  apply rbind_ok in Hp as (cols' & _ & Hp).
  apply rbind_ok in Hp as (rows' & Hr & Hp). injection Hp as <-.
  apply check_array_length in Hr.
  split; [rewrite length_map; now apply rmap_length in Hm|].
  split.
  { apply List.Forall_forall. intros arr Harr.
    apply in_map_iff in Harr as (m & <- & _). now rewrite length_map. }
  intros k name c ys Hk Hc.
  destruct (rmap_nth _ _ _ _ _ Hm Hk) as (m & Hmk & Hft).
  cbn [snd] in Hft. unfold fit_target in Hft. rewrite Hc in Hft.
  cbn [rbind fst snd Nat.ltb Nat.leb] in Hft. injection Hft as <-.
  unfold class_1. rewrite nth_error_map, Hmk. cbn [option_map].
  exists (map (fun x => expit (decision_function
                                 (hd ([], 0%R) (lbfgs rows ys 2)) x)) rows').
  split; [|now rewrite length_map].
  clear. induction rows' as [|x rows' IH]; [reflexivity|].
  cbn [map rmap]. rewrite IH. reflexivity.
Qed.

(** ** When the notebook's ROC plot can be drawn *)

Lemma subset_of_unique (allowed y : list Z) :
  subset_of allowed y = true <->
  forall z, In z (unique Z.ltb Z.eqb y) -> In z allowed.
Proof.
  unfold subset_of. rewrite forallb_forall. split.
  - intros H z Hz. apply (proj1 (unique_In z y)) in Hz.
    now apply existsb_eqb_In_inv, H.
  - intros H z Hz. apply existsb_eqb_In, H, (proj2 (unique_In z y)), Hz.
Qed.

(** X16: [plot_roc] can be drawn exactly when the target has both of its
    classes and they are labelled 0 and 1 (or -1 and 1), with one score
    per label, none missing: [roc_curve] insists on the labelling,
    [roc_auc_score] on the two classes. *)
Theorem plot_roc_returns_iff (y_true y_score : column) :
  plot_roc y_true y_score = Ok tt <->
  exists y sc,
    int_labels y_true = Ok y /\ scores_of y_score = Ok sc /\
    length sc = length y /\
    (unique Z.ltb Z.eqb y = [0; 1] \/ unique Z.ltb Z.eqb y = [-1; 1]).
Proof.
  unfold plot_roc. split.
  - intros H.
    apply rbind_ok in H as (y & Hy & H).
    apply rbind_ok in H as (sc & Hsc & H).
    apply rbind_ok in H as (pts & Hc & H).
    apply rbind_ok in H as (a & Ha & _).
    exists y, sc. split; [exact Hy|]. split; [exact Hsc|].
    apply roc_auc_score_inv in Ha
      as (c0 & c1 & y' & U & -> & L & L' & _).
    rewrite length_map in L. split; [exact L|].
    unfold roc_curve in Hc.
    destruct (negb _); [discriminate|].
    destruct (subset_of [0; 1] y || subset_of [-1; 1] y) eqn:S;
      [|discriminate].
    pose proof (unique_ascending y) as A. rewrite U in A.
    destruct A as [A _]. specialize (A c1 (or_introl eq_refl)).
    apply orb_true_iff in S as [S|S]; rewrite subset_of_unique, U in S;
      pose proof (S c0 (or_introl eq_refl)) as S0;
      pose proof (S c1 (or_intror (or_introl eq_refl))) as S1;
      simpl in S0, S1.
    + left. assert (c0 = 0 /\ c1 = 1) as [-> ->] by lia. exact U.
    + right. assert (c0 = -1 /\ c1 = 1) as [-> ->] by lia. exact U.
  - intros (y & sc & Hy & Hsc & L & U).
    rewrite Hy, Hsc. cbn [rbind].
    assert (C : exists pts, roc_curve y sc = Ok pts).
    { unfold roc_curve. rewrite L, Nat.eqb_refl. cbn [negb].
      assert (S : subset_of [0; 1] y || subset_of [-1; 1] y = true).
      { apply orb_true_iff.
        destruct U as [U|U]; [left|right]; apply subset_of_unique;
          rewrite U; auto. }
      rewrite S. eauto. }
    destruct C as [pts ->]. cbn [rbind].
    assert (A : exists a, roc_auc_score y sc = Ok a).
    { destruct U as [U|U];
        destruct (roc_auc_score_value y sc _ _ U L) as (_ & _ & _ & _ & ->);
        eauto. }
    destruct A as [a ->]. reflexivity.
Qed.

(** ** Joining two tables on their index *)

Lemma take_seq {A} (l1 l2 : list A) :
  take (seq (length l1) (length l2)) (l1 ++ l2) = Ok l2.
Proof.
  revert l1. induction l2 as [|a l2 IH]; intros l1; [reflexivity|].
  cbn [length seq take].
  rewrite nth_error_app2, Nat.sub_diag by lia. cbn [nth_error].
  specialize (IH (l1 ++ [a])%list).
  rewrite length_app, Nat.add_1_r, <- app_assoc in IH. cbn [app] in IH.
  rewrite IH. reflexivity.
Qed.

Lemma take_all {A} (l : list A) : take (seq 0 (length l)) l = Ok l.
Proof. exact (take_seq [] l). Qed.

Lemma nth_error_seq {A} (l1 l2 : list A) :
  map (nth_error (l1 ++ l2)) (seq (length l1) (length l2)) = map Some l2.
Proof.
  revert l1. induction l2 as [|a l2 IH]; intros l1; [reflexivity|].
  cbn [length seq map].
  rewrite nth_error_app2, Nat.sub_diag by lia. cbn [nth_error]. f_equal.
  specialize (IH (l1 ++ [a])%list).
  rewrite length_app, Nat.add_1_r, <- app_assoc in IH. exact IH.
Qed.

Lemma pick_all {A} (v : list A) :
  map (pick v) (map Some (seq 0 (length v))) = map Some v.
Proof. rewrite map_map. exact (nth_error_seq [] v). Qed.

Lemma take_column_all (c : column) :
  take_column (seq 0 (column_length c)) c = Ok c.
Proof. destruct c; simpl; now rewrite take_all. Qed.

Lemma reindex_column_all (c : column) :
  reindex_column (map Some (seq 0 (column_length c))) c = c.
Proof.
  destruct c as [v|v|v]; simpl.
  - rewrite pick_all.
    assert (S : all_some (map Some v) = true)
      by (unfold all_some; apply forallb_forall; intros o Ho;
          apply in_map_iff in Ho as (z & <- & _); reflexivity).
    rewrite S, map_map, map_id. reflexivity.
  - f_equal. rewrite <- (map_map (pick v)
                           (fun o => match o with Some x => x | None => None end)).
    rewrite pick_all, map_map, map_id. reflexivity.
  - f_equal. rewrite <- (map_map (pick v)
                           (fun o => match o with Some x => x | None => None end)).
    rewrite pick_all, map_map, map_id. reflexivity.
Qed.

Lemma iloc_all (df : DataFrame) :
  rectangular df -> iloc df (seq 0 (length (index df))) = Ok df.
Proof.
  intros R. unfold iloc. rewrite take_all. cbn [rbind].
  rewrite (rmap_ok_map _ (fun nc => nc)).
  - rewrite map_id. now destruct df.
  - intros [n c] Hnc. unfold rectangular in R.
    rewrite List.Forall_forall in R. specialize (R _ Hnc). cbn [snd fst] in *.
    rewrite <- R, take_column_all. reflexivity.
Qed.

Lemma positions_of_absent (k : Z) (keys : list Z) (from : nat) :
  ~ In k keys -> positions_of k keys from = [].
Proof.
  revert from. induction keys as [|k' keys IH]; intros from H; simpl.
  - reflexivity.
  - destruct (Z.eqb k' k) eqn:E.
    + apply Z.eqb_eq in E. subst. exfalso. apply H. now left.
    + apply IH. intros Hin. apply H. now right.
Qed.

Lemma positions_of_app (k : Z) (a b : list Z) (from : nat) :
  positions_of k (a ++ b) from
  = (positions_of k a from ++ positions_of k b (from + length a))%list.
Proof.
  revert from. induction a as [|x a IH]; intros from; simpl.
  - now rewrite Nat.add_0_r.
  - rewrite IH. replace (S from + length a)%nat
      with (from + S (length a))%nat by lia.
    now destruct (Z.eqb x k).
Qed.

Lemma distinct_middle {A} (pre : list A) (k : A) (l : list A) :
  distinct (pre ++ k :: l) ->
  ~ In k pre /\ ~ In k l /\ distinct ((pre ++ [k]) ++ l).
Proof.
  rewrite <- app_assoc. cbn [app]. intros D. split; [|split; [|exact D]].
  - induction pre as [|a pre IH]; simpl in *; [tauto|].
    destruct D as [Ha D]. intros [->|Hin]; [|now apply IH].
    apply Ha. apply in_or_app. right. now left.
  - induction pre as [|a pre IH]; simpl in *; [tauto|].
    apply IH. tauto.
Qed.

Lemma left_pairs_same (pre l : list Z) :
  distinct (pre ++ l) ->
  left_pairs l (length pre) (pre ++ l)
  = map (fun i => (i, Some i)) (seq (length pre) (length l)).
Proof.
  revert pre. induction l as [|k l IH]; intros pre D; [reflexivity|].
  cbn [left_pairs length seq map].
  destruct (distinct_middle pre k l D) as (Hpre & Hl & D').
  rewrite positions_of_app, (positions_of_absent k pre) by exact Hpre.
  cbn [app positions_of]. rewrite Z.eqb_refl.
  rewrite (positions_of_absent k l) by exact Hl.
  cbn [map app]. f_equal.
  specialize (IH (pre ++ [k])%list D').
  rewrite length_app, Nat.add_1_r, <- app_assoc in IH. exact IH.
Qed.

(** X17: what the join of cell 37 gives.  When the two tables have the
    same index, without a repeated key, and no column name in common,
    [left.join(right)] is the left table with the columns of the right
    one put after its own, row for row; when they have a column name in
    common it raises [ValueError]. *)
Theorem join_puts_the_tables_side_by_side (left right : DataFrame) :
  (index left = index right -> distinct (index left) ->
   rectangular left -> rectangular right ->
   (forall n, In n (column_names left) -> ~ In n (column_names right)) ->
   join left right
   = Ok {| index_name := index_name left;
           index := index left;
           columns := columns left ++ columns right |}) /\
  ((exists n, In n (column_names left) /\ In n (column_names right)) ->
   join left right = Raise ValueError).
Proof.
  unfold join. split.
  - intros E D RL RR N.
    assert (X : existsb (fun n => has_column n (columns right))
                  (column_names left) = false).
    { destruct (existsb _ _) eqn:X; [|reflexivity].
      apply existsb_exists in X as (n & Hn & Hc).
      apply has_column_in in Hc. now apply N in Hn. }
    rewrite X, <- E.
    pose proof (left_pairs_same [] (index left) D) as P.
    cbn [length app] in P. rewrite P. clear P.
    rewrite !map_map. cbn [fst snd]. rewrite map_id.
    rewrite (iloc_all left RL). cbn [rbind]. f_equal.
    f_equal. f_equal.
    rewrite <- (map_id (columns right)) at 2.
    apply map_ext_in. intros [n c] Hnc. cbn [fst snd]. f_equal.
    unfold rectangular in RR. rewrite List.Forall_forall in RR.
    specialize (RR _ Hnc). cbn [snd] in RR.
    rewrite E, <- RR, <- (map_map (fun i => i) Some), map_id.
    apply reindex_column_all.
  - intros (n & Hl & Hr).
    assert (X : existsb (fun n => has_column n (columns right))
                  (column_names left) = true).
    { apply existsb_exists. exists n. split; [exact Hl|].
      now apply has_column_in. }
    now rewrite X.
Qed.

(** ** What a complete run asks of its input *)

Lemma rmap_ok_all {A B} (f : A -> result B) (l : list A) (l' : list B) :
  rmap f l = Ok l' -> forall a, In a l -> exists b, f a = Ok b.
Proof.
  revert l'. induction l as [|a0 l IH]; intros l'; simpl; [tauto|].
  intros H. apply rbind_ok in H as (b & Hb & H).
  apply rbind_ok in H as (bs & Hbs & _).
  intros a [<-|Hin]; [eauto|]. eapply IH; eassumption.
Qed.

Lemma getitems_has (df : DataFrame) (names : list string)
    (cs : list column) :
  getitems df names = Ok cs ->
  forall n, In n names -> has_column n (columns df) = true.
Proof.
  intros H n Hn. destruct (rmap_ok_all _ _ _ H n Hn) as [c Hc].
  unfold getitem in Hc. apply get_column_has.
  destruct (get_column n (columns df)) as [c'|]; [eauto|discriminate].
Qed.

Lemma read_columns_has (x : string) (names : list string) (s : session)
    (df : DataFrame) :
  globals s !! x = Some (VFrame df) ->
  read_columns x names s = Ok tt ->
  forall n, In n names -> has_column n (columns df) = true.
Proof.
  intros G H. unfold read_columns in H.
  rewrite (proj2 (var_frame_inv _ _ _) G) in H. cbn [rbind] in H.
  apply rbind_ok in H as (cs & Hcs & _). exact (getitems_has _ _ _ Hcs).
Qed.

Lemma iloc_column_names (df df' : DataFrame) (rows : list nat) :
  iloc df rows = Ok df' -> column_names df' = column_names df.
Proof.
  unfold iloc. intros H.
  apply rbind_ok in H as (idx & _ & H).
  apply rbind_ok in H as (cols & Hc & H). injection H as <-.
  unfold column_names. cbn [columns].
  revert cols Hc. induction (columns df) as [|[n c] l IH]; intros cols; simpl.
  - now intros [= <-].
  - intros H. apply rbind_ok in H as (b & Hb & H).
    apply rbind_ok in H as (bs & Hbs & H). injection H as <-.
    apply rbind_ok in Hb as (c' & _ & Hb). injection Hb as <-.
    simpl. f_equal. now apply IH.
Qed.

Lemma join_inv (left right joined : DataFrame) :
  join left right = Ok joined ->
  (forall n, In n (column_names left) -> ~ In n (column_names right)) /\
  column_names joined = (column_names left ++ column_names right)%list.
Proof.
  unfold join.
  destruct (existsb _ (column_names left)) eqn:X; [discriminate|].
  intros H. apply rbind_ok in H as (l & Hl & H). injection H as <-.
  split.
  - intros n Hn Hr.
    assert (existsb (fun n => has_column n (columns right))
              (column_names left) = true); [|congruence].
    apply existsb_exists. exists n. split; [exact Hn|].
    now apply has_column_in.
  - unfold column_names at 1. cbn [columns].
    rewrite map_app, map_map. cbn [fst].
    fold (column_names l). fold (column_names right).
    now rewrite (iloc_column_names _ _ _ Hl).
Qed.

Lemma select_columns_inv (names : list string) (df : DataFrame)
    (cols : list (list (option R))) :
  select_columns names df = Ok cols ->
  forall n, In n names ->
            exists c, get_column n (columns df) = Some c /\
                      is_object c = false.
Proof.
  intros H n Hn. destruct (rmap_ok_all _ _ _ H n Hn) as [v Hv].
  cbv beta in Hv.
  destruct (get_column n (columns df)) as [c|]; [|discriminate].
  exists c. split; [reflexivity|]. now destruct c.
Qed.

(** X18: what a run that reaches its end has found in its input.  The
    label table has the two target columns; the feature table has no
    column name in common with it (so neither target is among the
    features), and each of the eleven plotted columns is in one of the
    two; and the test set has, under the same name and not of dtype
    object, every column of the training features that is not of dtype
    object. *)
Theorem complete_run_requirements
    (disk : gmap string DataFrame) (g : RandomState) (s' : session) :
  run notebook (fresh disk g) = (None, s') ->
  exists f l t,
    read_csv (fresh disk g) training_set_features "respondent_id" = Ok f /\
    read_csv (fresh disk g) training_set_labels "respondent_id" = Ok l /\
    read_csv (fresh disk g) test_set_features "respondent_id" = Ok t /\
    has_column "h1n1_vaccine" (columns l) = true /\
    has_column "seasonal_vaccine" (columns l) = true /\
    (forall n, In n (column_names f) -> ~ In n (column_names l)) /\
    (forall c, In c cols_to_plot ->
               In c (column_names f) \/ In c (column_names l)) /\
    (forall n, In n (non_object_columns f) ->
               exists c, get_column n (columns t) = Some c /\
                         is_object c = false).
Proof.
  intros H. set (s0 := fresh disk g) in *.
  destruct (modelling_trace _ _ _ H)
    as (f & l & train & test & Xt & Xe & yt & ye & p & a & v0 & v1 & yp & p'
        & Hf & Hl & _ & _ & _ & _ & _ & _ & _ & _ & _ & _ & _
        & Hfit & D50 & _ & _ & _ & _ & _ & _ & P50).
  destruct (predicting_trace _ _ _ _ H D50 P50) as (t & a' & Ht & Ha & _ & _).
  destruct (loading_done _ _ _ H)
    as (f2 & l2 & Hf2 & Hl2 & _ & _ & F7 & L7).
  fold s0 in Hf, Hl, Ht, Hf2, Hl2, F7, L7.
  assert (f2 = f) as -> by congruence.
  assert (l2 = l) as -> by congruence.
  exists f, l, t.
  split; [exact Hf|]. split; [exact Hl|]. split; [exact Ht|].
  (* cell 26 *)
  pose proof (state_at_step 9 _ _ _ _ H eq_refl) as S.
  apply exec_expr_inv in S as [E9 _].
  assert (L9 : globals (state_at 9 s0) !! "labels_df" = Some (VFrame l))
    by (carried 7%nat; exact L7).
  split; [apply (read_columns_has _ _ _ _ L9 E9); now left|].
  pose proof (state_at_step 10 _ _ _ _ H eq_refl) as S.
  apply exec_expr_inv in S as [E10 _].
  assert (L10 : globals (state_at 10 s0) !! "labels_df" = Some (VFrame l))
    by (carried 7%nat; exact L7).
  split; [apply (read_columns_has _ _ _ _ L10 E10); now left|].
  (* cell 37 *)
  pose proof (state_at_step 15 _ _ _ _ H eq_refl) as S.
  apply exec_assign_inv in S as (v & E & S15).
  assert (F15 : var_frame (state_at 15 s0) "features_df" = Ok f)
    by (apply var_frame_inv; carried 7%nat; exact F7).
  assert (L15 : var_frame (state_at 15 s0) "labels_df" = Ok l)
    by (apply var_frame_inv; carried 7%nat; exact L7).
  rewrite F15, L15 in E. cbn [rbind] in E.
  apply rbind_ok in E as (j & Hj & E). injection E as <-.
  apply join_inv in Hj as [Hno Hnames].
  split; [exact Hno|].
  split.
  - (* cell 56 *)
    pose proof (state_at_step 26 _ _ _ _ H eq_refl) as S.
    apply exec_assign_inv in S as (v & E & S26). injection E as <-.
    pose proof (state_at_step 28 _ _ _ _ H eq_refl) as S.
    apply exec_expr_inv in S as [E28 _].
    unfold plot_all in E28.
    assert (C28 : var_names (state_at 28 s0) "cols_to_plot"
                  = Ok cols_to_plot).
    { apply var_names_inv. carried 27%nat. rewrite S26. lookups.
      reflexivity. }
    assert (J28 : globals (state_at 28 s0) !! "joined_df"
                  = Some (VFrame j)).
    { carried 16%nat. rewrite S15. lookups. reflexivity. }
    rewrite C28 in E28. cbn [rbind] in E28.
    apply rbind_ok in E28 as (us & Hus & _).
    intros c Hc.
    destruct (rmap_ok_all _ _ _ Hus c Hc) as [u Hu]. cbv beta in Hu.
    rewrite (proj2 (var_frame_inv _ _ _) J28) in Hu. cbn [rbind] in Hu.
    apply rbind_ok in Hu as (u1 & Hu1 & _).
    unfold vaccination_rate_plot in Hu1.
    rewrite (proj2 (var_frame_inv _ _ _) J28) in Hu1. cbn [rbind] in Hu1.
    apply rbind_ok in Hu1 as (tc & _ & Hu1).
    apply rbind_ok in Hu1 as (cc & Hcc & _).
    assert (Hin : has_column c (columns j) = true).
    { apply get_column_has. unfold getitem in Hcc.
      destruct (get_column c (columns j)); [eauto|discriminate]. }
    apply has_column_in in Hin. fold (column_names j) in Hin.
    rewrite Hnames in Hin. now apply in_app_or in Hin.
  - unfold predict_proba in Ha.
    apply fit_inv in Hfit as (cols & rows & models & _ & _ & _ & _ & ->).
    cbn [fitted_ columns_ unfitted] in Ha.
    apply rbind_ok in Ha as (cols' & Hsel & _).
    now apply select_columns_inv with (cols := cols').
Qed.

(** ** Columns without a single observed value *)

(** X20: a numeric column without a single observed value in the data
    the pipeline is fitted on is dropped, at fit and at prediction time
    alike, whatever the table to transform holds in it; every other
    listed column is kept.  The number of features the classifiers see
    is the number of listed columns with an observed value in the
    training data. *)
Theorem all_missing_columns_are_dropped (cols cols' : list (list (option R))) :
  length cols' = length cols ->
  length (transform_columns (map numeric_fit cols) cols')
  = length (List.filter (fun c => match observed c with
                                  | [] => false
                                  | _ => true
                                  end) cols).
Proof.
  revert cols'. induction cols as [|c cols IH]; intros [|c' cols'] L;
    try discriminate; [reflexivity|].
  injection L as L. cbn [map transform_columns List.filter].
  unfold numeric_transform.
  destruct (numeric_fit_statistic c) as [He Hn].
  destruct (observed c) as [|x xs] eqn:E.
  - rewrite (He eq_refl). cbn [imputer_transform]. now apply IH.
  - destruct Hn as [m ->]; [discriminate|].
    cbn [imputer_transform length]. f_equal. now apply IH.
Qed.

(** ** Tables as objects: the training tables are never written into *)

Lemma calm_refl (k : kernel) : calm k k.
Proof. unfold calm. auto. Qed.

Lemma calm_trans (k1 k2 k3 : kernel) : calm k1 k2 -> calm k2 k3 -> calm k1 k3.
Proof.
  unfold calm. intros (V & D & O0 & O1 & L) (V' & D' & O0' & O1' & L').
  repeat split; try congruence. lia.
Qed.

Lemma guarded_calm (k k' : kernel) : guarded k -> calm k k' -> guarded k'.
Proof.
  intros [L A] (V & _ & _ & _ & L'). split; [lia|].
  rewrite V. exact A.
Qed.

Lemma steady_ret {A} (a : A) : steady (ret a).
Proof. intros k _. apply calm_refl. Qed.

Lemma steady_lift {A} (r : result A) : steady (lift r).
Proof. intros k _. apply calm_refl. Qed.

Lemma steady_bind {A B} (e : call A) (f : A -> call B) :
  steady e -> (forall a, steady (f a)) -> steady (cbind e f).
Proof.
  intros He Hf k G. unfold cbind. specialize (He k G).
  destruct (e k) as [[a|ex] k1]; cbn [snd] in *; [|exact He].
  eapply calm_trans; [exact He|]. apply Hf. eapply guarded_calm; eassumption.
Qed.

Lemma steady_cmap {A B} (f : A -> call B) (l : list A) :
  (forall a, steady (f a)) -> steady (cmap f l).
Proof.
  intros Hf. induction l as [|a l IH]; cbn [cmap].
  - apply steady_ret.
  - apply steady_bind; [apply Hf|]. intros b.
    apply steady_bind; [exact IH|]. intros bs. apply steady_ret.
Qed.

Lemma steady_reads {A} (e : call A) :
  (forall k, snd (e k) = k) -> steady e.
Proof. intros H k _. rewrite H. apply calm_refl. Qed.

Lemma steady_deref (r : nat) : steady (deref r).
Proof.
  apply steady_reads. intros k. unfold deref.
  now destruct (objects k !! r).
Qed.

Lemma steady_lookup_var (x : string) : steady (lookup_var x).
Proof.
  apply steady_reads. intros k. unfold lookup_var.
  now destruct (vars k !! x).
Qed.

Lemma steady_new_table (df : DataFrame) : steady (new_table df).
Proof.
  intros k [L _]. unfold new_table, calm. cbn.
  rewrite !lookup_app_l by lia. rewrite length_app. cbn.
  repeat split; lia.
Qed.

Lemma steady_overwrite (r : nat) (df : DataFrame) :
  (2 <= r)%nat -> steady (overwrite r df).
Proof.
  intros Hr k _. unfold overwrite, calm. cbn.
  rewrite !list_lookup_insert_ne by lia. rewrite length_insert.
  repeat split; lia.
Qed.

Create HintDb steady.

#[local] Hint Resolve steady_ret steady_lift steady_deref steady_lookup_var
  steady_new_table : steady.

Ltac steady_tac :=
  repeat first
    [ solve [auto with steady]
    | apply steady_bind; [|intros ?]
    | apply steady_cmap; intros ?
    | match goal with
      | |- steady (match ?b with _ => _ end) => destruct b
      | |- steady (if ?c then _ else _) => destruct c
      end ].

Lemma steady_table_var (x : string) : steady (table_var x).
Proof. unfold table_var. steady_tac. Qed.

Lemma steady_plain_var (x : string) : steady (plain_var x).
Proof. unfold plain_var. steady_tac. Qed.

#[local] Hint Resolve steady_table_var steady_plain_var : steady.

Lemma steady_names_var (x : string) : steady (names_var x).
Proof. unfold names_var. steady_tac. Qed.

Lemma steady_int_var (x : string) : steady (int_var x).
Proof. unfold int_var. steady_tac. Qed.

Lemma steady_path_var (x : string) : steady (path_var x).
Proof. unfold path_var. steady_tac. Qed.

Lemma steady_pipeline_var (x : string) : steady (pipeline_var x).
Proof. unfold pipeline_var. steady_tac. Qed.

Lemma steady_probas_var (x : string) : steady (probas_var x).
Proof. unfold probas_var. steady_tac. Qed.

#[local] Hint Resolve steady_names_var steady_int_var steady_path_var
  steady_pipeline_var steady_probas_var : steady.

(** What each library call does to the tables it is given: the reading
    ones and the creating ones leave every table that exists as it is. *)
Lemma steady_read_csv (path key : string) : steady (obj_read_csv path key).
Proof.
  intros k G. unfold obj_read_csv.
  destruct (disk_files k !! path) as [df|]; [|apply calm_refl].
  destruct (String.eqb _ _); [now apply steady_new_table|apply calm_refl].
Qed.

Lemma steady_index (df : nat) : steady (obj_index df).
Proof. unfold obj_index. steady_tac. Qed.

Lemma steady_getitem (df : nat) (name : string) :
  steady (obj_getitem df name).
Proof. unfold obj_getitem. steady_tac. Qed.

Lemma steady_getitems (df : nat) (names : list string) :
  steady (obj_getitems df names).
Proof. unfold obj_getitems. steady_tac. Qed.

Lemma steady_join (left right : nat) : steady (obj_join left right).
Proof. unfold obj_join. steady_tac. Qed.

Lemma steady_DataFrame cols idx_name idx :
  steady (obj_DataFrame cols idx_name idx).
Proof. unfold obj_DataFrame. steady_tac. Qed.

Lemma steady_new_value (v : value) : steady (new_value v).
Proof. unfold new_value. steady_tac. Qed.

#[local] Hint Resolve steady_read_csv steady_index steady_getitem
  steady_getitems steady_join steady_DataFrame steady_new_value : steady.

Lemma steady_train_test_split (X y stratify : nat) (random_state : option Z) :
  steady (obj_train_test_split X y stratify random_state).
Proof.
  unfold obj_train_test_split. steady_tac.
  apply steady_reads. reflexivity.
Qed.

Lemma steady_fit (p : Pipeline) (X y : nat) : steady (obj_fit p X y).
Proof. unfold obj_fit. steady_tac. Qed.

Lemma steady_predict_proba (p : Pipeline) (X : nat) :
  steady (obj_predict_proba p X).
Proof. unfold obj_predict_proba. steady_tac. Qed.

#[local] Hint Resolve steady_train_test_split steady_fit
  steady_predict_proba : steady.

Lemma steady_vaccination_rate_plot (col target : string) (data : nat) :
  steady (obj_vaccination_rate_plot col target data).
Proof. unfold obj_vaccination_rate_plot. steady_tac. Qed.

Lemma steady_plot_roc (y_true y_score : column) :
  steady (obj_plot_roc y_true y_score).
Proof. unfold obj_plot_roc. steady_tac. Qed.

#[local] Hint Resolve steady_vaccination_rate_plot steady_plot_roc : steady.

(** The one call that writes into a table: it is steady when the table
    is not one of the two training tables, and a variable other than
    [features_df] and [labels_df] never refers to one of them. *)
Lemma steady_setitem (df : nat) (name : string) (values : list R) :
  (2 <= df)%nat -> steady (obj_setitem df name values).
Proof.
  intros H. unfold obj_setitem. steady_tac. now apply steady_overwrite.
Qed.

Lemma steady_setitem_var (x name : string) (values : list R) :
  x <> "features_df" -> x <> "labels_df" ->
  steady (let+ df := table_var x in obj_setitem df name values).
Proof.
  intros Hf Hl k G. unfold cbind at 1.
  destruct (table_var x k) as [[r|ex] k1] eqn:T; cbn [snd].
  - unfold table_var, cbind, lookup_var in T.
    destruct (vars k !! x) as [[r'|v]|] eqn:E; cbn in T;
      try discriminate.
    injection T as <- <-.
    apply steady_setitem; [|exact G].
    destruct G as [_ A]. destruct (le_lt_dec 2 r') as [|Hr]; [assumption|].
    destruct (A x r' E Hr); contradiction.
  - pose proof (steady_table_var x k G) as C. now rewrite T in C.
Qed.

Lemma returns_bind {A B} (P : B -> Prop) (e : call A) (f : A -> call B) :
  steady e -> (forall a, returns P (f a)) -> returns P (cbind e f).
Proof.
  intros He Hf k b G. unfold cbind. specialize (He k G).
  destruct (e k) as [[a|ex] k1]; cbn [snd] in *; [|discriminate].
  apply Hf. eapply guarded_calm; eassumption.
Qed.

Lemma returns_plain (P : binding -> Prop) (v : value) :
  P (Plain v) -> returns P (ret (Plain v)).
Proof. intros H k b _ [= <-]. exact H. Qed.

Lemma returns_lift_raise {A} (P : A -> Prop) (ex : exception) :
  returns P (lift (Raise ex)).
Proof. intros k a _ [=]. Qed.

Lemma returns_new_table (df : DataFrame) :
  returns fresh_binding (new_table df).
Proof. intros k b [L _] [= <-]. exact L. Qed.

Lemma returns_read_csv (path key : string) :
  returns fresh_binding (obj_read_csv path key).
Proof.
  intros k b G. unfold obj_read_csv.
  destruct (disk_files k !! path) as [df|]; [|discriminate].
  destruct (String.eqb _ _); [now apply returns_new_table|discriminate].
Qed.

Lemma returns_new_value (v : value) : returns fresh_binding (new_value v).
Proof.
  destruct v; try (now apply returns_plain). apply returns_new_table.
Qed.

Lemma returns_cmap_new_value (vs : list value) :
  returns (Forall fresh_binding) (cmap new_value vs).
Proof.
  induction vs as [|v vs IH]; cbn [cmap].
  - intros k a _ [= <-]. constructor.
  - intros k a G. unfold cbind.
    pose proof (returns_new_value v k) as Hv.
    pose proof (steady_new_value v k G) as Cv.
    destruct (new_value v k) as [[b|ex] k1]; cbn [snd fst] in *;
      [|discriminate].
    assert (G1 : guarded k1) by (eapply guarded_calm; eassumption).
    specialize (IH k1).
    destruct (cmap new_value vs k1) as [[bs|ex] k2]; cbn [fst] in *;
      [|discriminate].
    intros [= <-]. constructor; [now apply Hv|now apply IH].
Qed.

Lemma returns_ret {A} (P : A -> Prop) (a : A) : P a -> returns P (ret a).
Proof. intros H k b _ [= <-]. exact H. Qed.

Lemma returns_train_test_split (X y stratify : nat)
    (random_state : option Z) :
  returns (Forall fresh_binding)
    (obj_train_test_split X y stratify random_state).
Proof.
  unfold obj_train_test_split.
  repeat (apply returns_bind; [solve [steady_tac]|intros ?]).
  apply returns_bind; [apply steady_reads; reflexivity|intros ?].
  apply returns_cmap_new_value.
Qed.

Ltac returns_tac :=
  repeat first
    [ apply returns_train_test_split
    | apply returns_bind; [solve [steady_tac]|intros ?]
    | apply returns_plain; exact I
    | apply returns_lift_raise
    | apply returns_new_table
    | apply returns_read_csv
    | apply returns_cmap_new_value
    | apply returns_ret; repeat constructor
    | match goal with
      | |- returns _ (match ?b with _ => _ end) => destruct b
      end ].

(** A steady statement keeps the training tables. *)
Lemma set_var_kept (f l : DataFrame) (d : gmap string DataFrame)
    (x : string) (b : binding) (k : kernel) :
  x <> "features_df" -> x <> "labels_df" -> fresh_binding b ->
  tables_kept f l d k -> tables_kept f l d (set_var x b k).
Proof.
  intros Hf Hl Hb (Vf & Vl & Of & Ol & [L A] & D).
  unfold tables_kept, guarded. cbn.
  rewrite !lookup_insert_ne by congruence.
  repeat split; try assumption.
  intros y r Hy Hr. destruct (decide (x = y)) as [->|Hne].
  - rewrite lookup_insert_eq in Hy. injection Hy as ->. cbn in Hb. lia.
  - rewrite lookup_insert_ne in Hy by exact Hne. eauto.
Qed.

Lemma set_vars_kept (f l : DataFrame) (d : gmap string DataFrame)
    (xs : list string) (bs : list binding) (k : kernel) :
  ~ In "features_df" xs -> ~ In "labels_df" xs -> Forall fresh_binding bs ->
  tables_kept f l d k -> tables_kept f l d (set_vars xs bs k).
Proof.
  revert bs k. induction xs as [|x xs IH]; intros [|b bs] k Hf Hl Hb K;
    cbn [set_vars]; try assumption.
  inversion Hb; subst. cbn in Hf, Hl.
  apply IH; try tauto.
  apply set_var_kept; try assumption; intros ->; tauto.
Qed.

Lemma calm_kept (f l : DataFrame) (d : gmap string DataFrame)
    (k k' : kernel) :
  tables_kept f l d k -> calm k k' -> tables_kept f l d k'.
Proof.
  intros (Vf & Vl & Of & Ol & G & D) C.
  pose proof (guarded_calm k k' G C) as G'.
  destruct C as (V & D' & O0 & O1 & _).
  unfold tables_kept. rewrite V, D', O0, O1. auto 10.
Qed.

Lemma oexec_kept (f l : DataFrame) (d : gmap string DataFrame)
    (st : ostmt) (k : kernel) :
  stmt_steady st -> tables_kept f l d k ->
  tables_kept f l d (snd (oexec st k)).
Proof.
  intros S K. pose proof K as (_ & _ & _ & _ & G & _).
  destruct st as [x e|xs e|e]; cbn [stmt_steady oexec] in *.
  - destruct S as (Hf & Hl & Se & Re).
    specialize (Se k G). specialize (Re k).
    destruct (e k) as [[b|ex] k1]; cbn [fst snd] in *.
    + apply set_var_kept; auto. eapply calm_kept; eassumption.
    + eapply calm_kept; eassumption.
  - destruct S as (Hf & Hl & Se & Re).
    specialize (Se k G). specialize (Re k).
    destruct (e k) as [[bs|ex] k1]; cbn [fst snd] in *.
    + destruct (Nat.eqb _ _); cbn [snd].
      * apply set_vars_kept; auto. eapply calm_kept; eassumption.
      * eapply calm_kept; eassumption.
    + eapply calm_kept; eassumption.
  - specialize (S k G).
    destruct (e k) as [[u|ex] k1]; cbn [snd] in *;
      eapply calm_kept; eassumption.
Qed.

Lemma orun_kept (f l : DataFrame) (d : gmap string DataFrame)
    (p : list (nat * ostmt)) (k : kernel) :
  Forall (fun cs => stmt_steady (snd cs)) p -> tables_kept f l d k ->
  tables_kept f l d (snd (orun p k)).
Proof.
  intros F. revert k. induction F as [|[c st] p S F IH]; intros k K.
  - exact K.
  - cbn [orun]. pose proof (oexec_kept f l d st k S K) as K1.
    destruct (oexec st k) as [[ex|] k1]; cbn [snd] in *; auto.
Qed.

Lemma Forall_firstn {A} (P : A -> Prop) (l : list A) (n : nat) :
  Forall P l -> Forall P (firstn n l).
Proof.
  intros F. revert n. induction F as [|a l Ha F IH]; intros [|n]; simpl;
    constructor; auto.
Qed.

Lemma orun_app (p q : list (nat * ostmt)) (k : kernel) :
  orun (p ++ q) k =
  match orun p k with
  | (None, k') => orun q k'
  | (Some ce, k') => (Some ce, k')
  end.
Proof.
  revert k. induction p as [|[c st] p IH]; intros k; simpl.
  - reflexivity.
  - destruct (oexec st k) as [[ex|] k1]; [reflexivity|apply IH].
Qed.

Lemma onotebook_parts :
  onotebook =
  (firstn 3 onotebook ++ firstn 57 (skipn 3 onotebook) ++
   [ (102%nat, oto_csv "submission_df" "OUTPUT_DATA_PATH") ])%list.
Proof. reflexivity. Qed.

Ltac stmt_steady_tac :=
  lazymatch goal with
  | |- stmt_steady (OExpr _) =>
      cbn [stmt_steady];
      first [ solve [steady_tac]
            | apply steady_bind; [solve [steady_tac]|intros ?];
              apply steady_setitem_var; discriminate ]
  | |- stmt_steady (OAssign _ _) =>
      cbn [stmt_steady];
      split; [discriminate|];
      split; [discriminate|];
      split; [solve [steady_tac]|solve [returns_tac]]
  | |- stmt_steady (OUnpack _ _) =>
      cbn [stmt_steady];
      split; [intros H; cbn in H; intuition discriminate|];
      split; [intros H; cbn in H; intuition discriminate|];
      split; [solve [steady_tac]|solve [returns_tac]]
  end.

(** Every statement from cell 13 to cell 101 is steady: the calls that
    get a training table ([join], the plots, [train_test_split], [fit],
    [predict_proba]) read it, and the in-place assignments of cell 100
    go through [submission_df]. *)
Lemma onotebook_steady :
  Forall (fun cs => stmt_steady (snd cs)) (firstn 57 (skipn 3 onotebook)).
Proof.
  unfold onotebook, oloading, oexploring, omodelling, opredicting,
    osubmitting, ocell, oshow, osubplots, osetitem, oto_csv.
  cbn [map app skipn firstn].
  unfold oconst, oload, osame_index, oread_columns, oderived, oplot_all,
    osplit, ofit_on, opredict_on, omake_y_preds, oplot_roc_for,
    ooverall_auc, otest_class_1.
  repeat (constructor; [cbn [snd]; stmt_steady_tac|]).
  constructor.
Qed.

(** The three statements of cells 9 and 12 on a fresh kernel: the two
    training tables become the objects 0 and 1. *)
Lemma orun_loads (disk : gmap string DataFrame) (g : RandomState)
    (f l : DataFrame) :
  read_csv (fresh disk g) training_set_features "respondent_id" = Ok f ->
  read_csv (fresh disk g) training_set_labels "respondent_id" = Ok l ->
  orun (firstn 3 onotebook) (fresh_kernel disk g) =
  (None,
   {| vars := <["labels_df" := Table 1]>
                (<["features_df" := Table 0]>
                   (<["DATA_PATH" := Plain (VPath "../data/raw")]> ∅));
      objects := [f; l];
      disk_files := disk;
      global_generator := g |}).
Proof.
  unfold read_csv. cbn [files fresh]. intros Hf Hl.
  destruct (disk !! training_set_features) as [f'|] eqn:Ef; [|discriminate].
  destruct (String.eqb (index_name f') "respondent_id") eqn:If;
    [|discriminate].
  injection Hf as ->.
  destruct (disk !! training_set_labels) as [l'|] eqn:El; [|discriminate].
  destruct (String.eqb (index_name l') "respondent_id") eqn:Il;
    [|discriminate].
  injection Hl as ->.
  change (firstn 3 onotebook) with
    [ (9%nat, OAssign "DATA_PATH" (oconst (VPath "../data/raw")));
      (12%nat, OAssign "features_df" (oload "training_set_features.csv"));
      (12%nat, OAssign "labels_df" (oload "training_set_labels.csv")) ].
  cbn [orun oexec oconst ret].
  unfold oload at 1, path_var, plain_var, lookup_var, cbind at 1 2 3.
  cbn [vars set_var fresh_kernel]. rewrite lookup_insert_eq. cbn [ret].
  change (path_join "../data/raw" "training_set_features.csv")
    with training_set_features.
  unfold obj_read_csv at 1. cbn [disk_files set_var fresh_kernel].
  rewrite Ef, If.
  cbn [new_table objects vars disk_files global_generator length set_var
       app fresh_kernel].
  unfold oload, path_var, plain_var, lookup_var, cbind.
  cbn [vars set_var]. rewrite lookup_insert_ne by discriminate.
  rewrite lookup_insert_eq. cbn [ret].
  change (path_join "../data/raw" "training_set_labels.csv")
    with training_set_labels.
  unfold obj_read_csv. cbn [disk_files set_var fresh_kernel].
  rewrite El, Il.
  reflexivity.
Qed.

Lemma onotebook_steps :
  onotebook =
  (firstn 3 onotebook ++ firstn 56 (skipn 3 onotebook) ++
   [ (101%nat, OAssign "OUTPUT_DATA_PATH" (oconst (VPath OUTPUT_DATA_PATH)));
     (102%nat, oto_csv "submission_df" "OUTPUT_DATA_PATH") ])%list.
Proof. reflexivity. Qed.

Lemma onotebook_steady_56 :
  Forall (fun cs => stmt_steady (snd cs)) (firstn 56 (skipn 3 onotebook)).
Proof.
  change (firstn 56 (skipn 3 onotebook))
    with (firstn 56 (firstn 57 (skipn 3 onotebook))).
  apply Forall_firstn, onotebook_steady.
Qed.

(** Writing a table to disk: the variables and the objects stay, and the
    disk changes at most at the path, which then holds the table. *)
Lemma oto_csv_effect (x p : string) (k : kernel) :
  let k' := snd (oexec (oto_csv x p) k) in
  vars k' = vars k /\ objects k' = objects k /\
  (disk_files k' = disk_files k \/
   exists r sub path,
     vars k !! x = Some (Table r) /\ objects k !! r = Some sub /\
     vars k !! p = Some (Plain (VPath path)) /\
     disk_files k' = <[path := sub]> (disk_files k)).
Proof.
  unfold oto_csv, oexec, table_var, path_var, plain_var, lookup_var,
    obj_to_csv, deref, cbind, ret, lift.
  destruct (vars k !! x) as [[r|v]|]; cbn; auto.
  destruct (vars k !! p) as [[r'|[]]|]; cbn; auto.
  destruct (objects k !! r) as [sub|] eqn:Or; cbn; auto.
  split; [reflexivity|]. split; [reflexivity|].
  right. exists r, sub, p0. auto.
Qed.


End Notebook.

(** ** A small survey, run through the notebook *)

Abbreviation demo_notebook :=
  (notebook Z (fun seed => seed) demo_split demo_lbfgs).

Abbreviation demo_onotebook :=
  (onotebook Z (fun seed => seed) demo_split demo_lbfgs).

Abbreviation demo_session := (fresh Z demo_disk 0).

Lemma run_to_end {RS : Type} (p : list (nat * stmt RS)) (s : session RS) :
  fst (run RS p s) = None -> run RS p s = (None, snd (run RS p s)).
Proof. destruct (run RS p s) as [r s']. simpl. now intros ->. Qed.

(** The demonstration run reaches its end. *)
Example demo_run_completes : fst (run Z demo_notebook demo_session) = None.
Proof. vm_compute. reflexivity. Qed.

Lemma submission_keys_are_test_keys_witness :
  run Z demo_notebook demo_session
  = (None, snd (run Z demo_notebook demo_session)) /\
  exists test template out,
    read_csv Z demo_session test_set_features "respondent_id" = Ok test /\
    read_csv Z demo_session submission_format "respondent_id" = Ok template /\
    files Z (snd (run Z demo_notebook demo_session)) !! OUTPUT_DATA_PATH
    = Some out /\
    index out = index template /\
    index out = index test.
Proof.
  assert (H : run Z demo_notebook demo_session
              = (None, snd (run Z demo_notebook demo_session)))
    by (apply run_to_end; vm_compute; reflexivity).
  split; [exact H|].
  exact (submission_keys_are_test_keys Z (fun seed => seed) demo_split
           demo_lbfgs demo_disk 0 _ H).
Defined.

Lemma output_has_template_schema_witness :
  run Z demo_notebook demo_session
  = (None, snd (run Z demo_notebook demo_session)) /\
  read_csv Z demo_session submission_format "respondent_id" = Ok demo_format /\
  has_column "h1n1_vaccine" (columns demo_format) = true /\
  has_column "seasonal_vaccine" (columns demo_format) = true /\
  exists out,
    files Z (snd (run Z demo_notebook demo_session)) !! OUTPUT_DATA_PATH
    = Some out /\
    index_name out = index_name demo_format /\
    index out = index demo_format /\
    column_names out = column_names demo_format /\
    (forall i name c,
        nth_error (columns demo_format) i = Some (name, c) ->
        name <> "h1n1_vaccine" -> name <> "seasonal_vaccine" ->
        nth_error (columns out) i = Some (name, c)) /\
    (forall i name c,
        nth_error (columns demo_format) i = Some (name, c) ->
        name = "h1n1_vaccine" \/ name = "seasonal_vaccine" ->
        exists v, nth_error (columns out) i
                  = Some (name, FloatCol (map Some v)) /\
                  length v = length (index demo_format)).
Proof.
  assert (H : run Z demo_notebook demo_session
              = (None, snd (run Z demo_notebook demo_session)))
    by (apply run_to_end; vm_compute; reflexivity).
  assert (Ht : read_csv Z demo_session submission_format "respondent_id"
               = Ok demo_format) by reflexivity.
  assert (H1 : has_column "h1n1_vaccine" (columns demo_format) = true)
    by reflexivity.
  assert (H2 : has_column "seasonal_vaccine" (columns demo_format) = true)
    by reflexivity.
  repeat (split; [assumption|]).
  exact (output_has_template_schema Z (fun seed => seed) demo_split
           demo_lbfgs demo_disk 0 _ demo_format H Ht H1 H2).
Defined.


Lemma failed_check_writes_nothing_witness :
  let s0 := fresh Z (demo_disk_with demo_format_swapped) 0 in
  read_csv Z s0 test_set_features "respondent_id" = Ok demo_test /\
  read_csv Z s0 submission_format "respondent_id" = Ok demo_format_swapped /\
  index demo_test <> index demo_format_swapped /\
  run Z demo_notebook s0
  = (fst (run Z demo_notebook s0), snd (run Z demo_notebook s0)) /\
  files Z (snd (run Z demo_notebook s0)) = demo_disk_with demo_format_swapped /\
  (globals Z (snd (run Z demo_notebook s0)) !! "submission_df" = None \/
   globals Z (snd (run Z demo_notebook s0)) !! "submission_df"
   = Some (VFrame demo_format_swapped)) /\
  exists c ex,
    fst (run Z demo_notebook s0) = Some (c, ex) /\ (c <= 100)%nat /\
    (c = 100%nat ->
     ex = AssertionError /\
     globals Z (snd (run Z demo_notebook s0)) !! "submission_df"
     = Some (VFrame demo_format_swapped)).
Proof.
  intros s0.
  assert (Ht : read_csv Z s0 test_set_features "respondent_id" = Ok demo_test)
    by reflexivity.
  assert (Hs : read_csv Z s0 submission_format "respondent_id"
               = Ok demo_format_swapped) by reflexivity.
  assert (Hne : index demo_test <> index demo_format_swapped)
    by discriminate.
  assert (Hr : run Z demo_notebook s0
               = (fst (run Z demo_notebook s0), snd (run Z demo_notebook s0)))
    by apply surjective_pairing.
  repeat (split; [assumption|]).
  exact (failed_check_writes_nothing Z (fun seed => seed) demo_split
           demo_lbfgs (demo_disk_with demo_format_swapped) 0
           demo_test demo_format_swapped _ _ Ht Hs Hne Hr).
Defined.

Lemma object_columns_do_not_interfere_witness :
  same_numeric demo_features_short demo_features_other_sex /\
  same_numeric demo_features_other_sex demo_features_short /\
  non_object_columns demo_features_short
  = non_object_columns demo_features_other_sex /\
  (forall p y,
      fit demo_lbfgs p demo_features_short y
      = fit demo_lbfgs p demo_features_other_sex y) /\
  (forall p,
      predict_proba p demo_features_other_sex
      = predict_proba p demo_features_short).
Proof.
  assert (H1 : same_numeric demo_features_short demo_features_other_sex).
  { split; [reflexivity|].
    repeat constructor; intros; reflexivity || discriminate. }
  assert (H2 : same_numeric demo_features_other_sex demo_features_short).
  { split; [reflexivity|].
    repeat constructor; intros; reflexivity || discriminate. }
  repeat (split; [assumption|]).
  exact (object_columns_do_not_interfere demo_lbfgs _ _ _ _ H1 H2).
Defined.


Lemma roc_auc_perfect_and_random_witness :
  let y_true := [0; 1; 1; 0] in
  binary y_true /\ In 0 y_true /\ In 1 y_true /\
  (forall y_score,
      length y_score = length y_true ->
      perfect_ranking y_true y_score ->
      roc_auc_score y_true y_score = Ok 1%R) /\
  (forall m, (0 < m)%nat ->
      exists aucs,
        rmap (roc_auc_score y_true) (vectors (length y_true) (grid m))
        = Ok aucs /\
        mean aucs = (1 / 2)%R).
Proof.
  intros y_true.
  assert (Hb : binary y_true).
  { intros z Hz. simpl in Hz. intuition (subst; auto). }
  assert (H0 : In 0 y_true) by (simpl; auto).
  assert (H1 : In 1 y_true) by (simpl; auto).
  repeat (split; [assumption|]).
  exact (roc_auc_perfect_and_random y_true Hb H0 H1).
Defined.

Example demo_run_stops_at_cell_20 :
  fst (run Z demo_notebook
         (fresh Z (<[training_set_labels := demo_labels_swapped]> demo_disk) 0))
  = Some (20%nat, AssertionError).
Proof. vm_compute. reflexivity. Qed.

Example demo_run_stops_at_cell_100 :
  fst (run Z demo_notebook (fresh Z (demo_disk_with demo_format_swapped) 0))
  = Some (100%nat, AssertionError).
Proof. vm_compute. reflexivity. Qed.

(** What the seed is for: without one the split follows the state of the
    global generator, with [RANDOM_SEED] it does not. *)
Abbreviation training_rows random_state g :=
  (first_index
     (train_test_split Z (fun seed => seed) demo_split (fresh Z demo_disk g)
        demo_features demo_labels demo_labels random_state)).

Example unseeded_split_follows_generator :
  training_rows None 0 <> training_rows None 1 /\
  training_rows (Some 6) 0 = training_rows (Some 6) 1.
Proof. split; [vm_compute; discriminate|vm_compute; reflexivity]. Qed.

(** The areas of three rankings of two positives and two negatives. *)
Example demo_auc_reversed :
  roc_auc_score [0; 1; 1; 0] [3; 1; 2; 4]%R = Ok 0%R.
Proof.
  assert (L : length [3; 1; 2; 4]%R = length [0; 1; 1; 0]) by reflexivity.
  rewrite (roc_auc_score_binary [0; 1; 1; 0] [3; 1; 2; 4]%R); trivial.
  - f_equal.
    pose proof (auc_reflect (labelled [0; 1; 1; 0] [3; 1; 2; 4]%R)) as H.
    assert (P : auc (reflect (labelled [0; 1; 1; 0] [3; 1; 2; 4]%R)) = 1%R).
    { apply auc_perfect; try (vm_compute; discriminate).
      intros [b s] [b' s'] Hp Hq Eb Eb'. simpl in *.
      repeat match goal with
             | H : _ \/ _ |- _ => destruct H
             | H : (_, _) = (_, _) |- _ => injection H as <- <-
             | H : False |- _ => destruct H
             end; try discriminate; lra. }
    rewrite P in H.
    assert (HN : n_neg (labelled [0; 1; 1; 0] [3; 1; 2; 4]%R) <> 0%nat)
      by (vm_compute; discriminate).
    assert (HP : n_pos (labelled [0; 1; 1; 0] [3; 1; 2; 4]%R) <> 0%nat)
      by (vm_compute; discriminate).
    specialize (H HN HP). lra.
  - intros z Hz. simpl in Hz. intuition (subst; auto).
  - simpl. auto.
  - simpl. auto.
Qed.

(** ** The further properties on the small survey *)

Lemma roc_depends_on_ranks_only_witness :
  let f := fun x : R => (2 * x + 1)%R in
  (forall a b, (a < b)%R -> (f a < f b)%R) /\
  roc_curve [0; 1; 1; 0] (map f [3; 1; 2; 4]%R)
  = roc_curve [0; 1; 1; 0] [3; 1; 2; 4]%R /\
  roc_auc_score [0; 1; 1; 0] (map f [3; 1; 2; 4]%R)
  = roc_auc_score [0; 1; 1; 0] [3; 1; 2; 4]%R.
Proof.
  intros f.
  assert (H : forall a b, (a < b)%R -> (f a < f b)%R)
    by (intros a b; unfold f; lra).
  split; [exact H|].
  exact (roc_depends_on_ranks_only f [0; 1; 1; 0] [3; 1; 2; 4]%R H).
Defined.

Lemma roc_auc_score_in_unit_interval_witness :
  roc_auc_score [0; 1; 1; 0] [3; 1; 2; 4]%R = Ok 0%R /\ (0 <= 0 <= 1)%R.
Proof.
  assert (H : roc_auc_score [0; 1; 1; 0] [3; 1; 2; 4]%R = Ok 0%R)
    by exact demo_auc_reversed.
  split; [exact H|].
  exact (roc_auc_score_in_unit_interval _ _ _ H).
Defined.

Lemma roc_auc_score_of_mirrored_scores_witness :
  roc_auc_score [0; 1; 1; 0] [3; 1; 2; 4]%R = Ok 0%R /\
  roc_auc_score [0; 1; 1; 0] (map (fun x => (1 - x)%R) [3; 1; 2; 4]%R)
  = Ok (1 - 0)%R.
Proof.
  assert (H : roc_auc_score [0; 1; 1; 0] [3; 1; 2; 4]%R = Ok 0%R)
    by exact demo_auc_reversed.
  split; [exact H|].
  exact (roc_auc_score_of_mirrored_scores _ _ _ H).
Defined.

Lemma roc_auc_score_of_constant_scores_witness :
  length (unique Z.ltb Z.eqb [0; 1; 1; 0]) = 2%nat /\
  roc_auc_score [0; 1; 1; 0] (map (fun _ => 7%R) [0; 1; 1; 0])
  = Ok (1 / 2)%R.
Proof.
  assert (H : length (unique Z.ltb Z.eqb [0; 1; 1; 0]) = 2%nat)
    by reflexivity.
  split; [exact H|].
  exact (roc_auc_score_of_constant_scores [0; 1; 1; 0] 7%R H).
Defined.

Lemma overall_score_is_mean_of_two_witness :
  let y1 := [0; 1; 1; 0] in
  let y2 := [1; 0; 0; 1] in
  let s1 := [3; 1; 2; 4]%R in
  let s2 := [1; 1; 2; 2]%R in
  binary y1 /\ In 0 y1 /\ In 1 y1 /\ length s1 = length y1 /\
  binary y2 /\ In 0 y2 /\ In 1 y2 /\ length s2 = length y2 /\
  exists a1 a2,
    roc_auc_score y1 s1 = Ok a1 /\ roc_auc_score y2 s2 = Ok a2 /\
    roc_auc_score_multilabel [y1; y2] [s1; s2] = Ok ((a1 + a2) / 2)%R.
Proof.
  intros y1 y2 s1 s2.
  assert (B1 : binary y1).
  { intros z Hz. simpl in Hz. intuition (subst; auto). }
  assert (Z1 : In 0 y1) by (simpl; auto).
  assert (O1 : In 1 y1) by (simpl; auto).
  assert (L1 : length s1 = length y1) by reflexivity.
  assert (B2 : binary y2).
  { intros z Hz. simpl in Hz. intuition (subst; auto). }
  assert (Z2 : In 0 y2) by (simpl; auto).
  assert (O2 : In 1 y2) by (simpl; auto).
  assert (L2 : length s2 = length y2) by reflexivity.
  repeat (split; [assumption|]).
  exact (overall_score_is_mean_of_two y1 y2 s1 s2 B1 Z1 O1 L1 B2 Z2 O2 L2).
Defined.

Lemma split_keeps_features_and_labels_aligned_witness :
  run Z demo_notebook demo_session
  = (None, snd (run Z demo_notebook demo_session)) /\
  exists f l train test X_train X_eval y_train y_eval y_preds,
    read_csv Z demo_session training_set_features "respondent_id" = Ok f /\
    read_csv Z demo_session training_set_labels "respondent_id" = Ok l /\
    globals Z (snd (run Z demo_notebook demo_session)) !! "X_train"
    = Some (VFrame X_train) /\
    globals Z (snd (run Z demo_notebook demo_session)) !! "X_eval"
    = Some (VFrame X_eval) /\
    globals Z (snd (run Z demo_notebook demo_session)) !! "y_train"
    = Some (VFrame y_train) /\
    globals Z (snd (run Z demo_notebook demo_session)) !! "y_eval"
    = Some (VFrame y_eval) /\
    globals Z (snd (run Z demo_notebook demo_session)) !! "y_preds"
    = Some (VFrame y_preds) /\
    demo_split 6 l
      (length (index f) - n_test_of (length (index f)))
      (n_test_of (length (index f))) = Some (train, test) /\
    iloc f train = Ok X_train /\ iloc l train = Ok y_train /\
    iloc f test = Ok X_eval /\ iloc l test = Ok y_eval /\
    index X_train = index y_train /\
    index X_eval = index y_eval /\
    index y_preds = index y_eval.
Proof.
  assert (H : run Z demo_notebook demo_session
              = (None, snd (run Z demo_notebook demo_session)))
    by (apply run_to_end; vm_compute; reflexivity).
  split; [exact H|].
  exact (split_keeps_features_and_labels_aligned Z (fun seed => seed)
           demo_split demo_lbfgs demo_disk 0 _ H).
Defined.

Lemma evaluation_scores_held_out_rows_witness :
  run Z demo_notebook demo_session
  = (None, snd (run Z demo_notebook demo_session)) /\
  exists f X_train X_eval y_train y_eval p a v0 v1,
    read_csv Z demo_session training_set_features "respondent_id" = Ok f /\
    globals Z (snd (run Z demo_notebook demo_session)) !! "X_train"
    = Some (VFrame X_train) /\
    globals Z (snd (run Z demo_notebook demo_session)) !! "X_eval"
    = Some (VFrame X_eval) /\
    globals Z (snd (run Z demo_notebook demo_session)) !! "y_train"
    = Some (VFrame y_train) /\
    globals Z (snd (run Z demo_notebook demo_session)) !! "y_eval"
    = Some (VFrame y_eval) /\
    fit demo_lbfgs (unfitted f) X_train y_train = Ok p /\
    predict_proba p X_eval = Ok a /\
    globals Z (snd (run Z demo_notebook demo_session)) !! "preds"
    = Some (VProbas a) /\
    class_1 a 0 = Ok v0 /\ class_1 a 1 = Ok v1 /\
    length v0 = length (index y_eval) /\
    length v1 = length (index y_eval) /\
    globals Z (snd (run Z demo_notebook demo_session)) !! "y_preds"
    = Some (VFrame {| index_name := index_name y_eval;
                      index := index y_eval;
                      columns :=
                        [("h1n1_vaccine", FloatCol (map Some v0));
                         ("seasonal_vaccine", FloatCol (map Some v1))] |}).
Proof.
  assert (H : run Z demo_notebook demo_session
              = (None, snd (run Z demo_notebook demo_session)))
    by (apply run_to_end; vm_compute; reflexivity).
  split; [exact H|].
  exact (evaluation_scores_held_out_rows Z (fun seed => seed)
           demo_split demo_lbfgs demo_disk 0 _ H).
Defined.

Lemma submission_comes_from_the_refit_witness :
  run Z demo_notebook demo_session
  = (None, snd (run Z demo_notebook demo_session)) /\
  exists f l t sub p a v0 v1,
    read_csv Z demo_session training_set_features "respondent_id" = Ok f /\
    read_csv Z demo_session training_set_labels "respondent_id" = Ok l /\
    read_csv Z demo_session test_set_features "respondent_id" = Ok t /\
    read_csv Z demo_session submission_format "respondent_id" = Ok sub /\
    fit demo_lbfgs (unfitted f) f l = Ok p /\
    globals Z (snd (run Z demo_notebook demo_session)) !! "full_pipeline"
    = Some (VPipeline p) /\
    predict_proba p t = Ok a /\
    class_1 a 0 = Ok v0 /\ class_1 a 1 = Ok v1 /\
    files Z (snd (run Z demo_notebook demo_session)) =
    <[OUTPUT_DATA_PATH :=
        {| index_name := index_name sub;
           index := index sub;
           columns :=
             set_column "seasonal_vaccine" (FloatCol (map Some v1))
               (set_column "h1n1_vaccine" (FloatCol (map Some v0))
                  (columns sub)) |}]> demo_disk.
Proof.
  assert (H : run Z demo_notebook demo_session
              = (None, snd (run Z demo_notebook demo_session)))
    by (apply run_to_end; vm_compute; reflexivity).
  split; [exact H|].
  exact (submission_comes_from_the_refit Z (fun seed => seed)
           demo_split demo_lbfgs demo_disk 0 _ H).
Defined.

Lemma standard_scaler_standardises_witness :
  let c := [Some 1%R; None; Some 3%R; Some 2%R] in
  observed c <> [] /\
  let c' := scaler_transform (scaler_fit c) c in
  map (fun x => match x with Some _ => true | None => false end) c'
  = map (fun x => match x with Some _ => true | None => false end) c /\
  nanmean c' = Some 0%R /\
  exists v,
    nanvar c = Some v /\ (0 <= v)%R /\
    (v <> 0%R -> nanvar c' = Some 1%R) /\
    (v = 0%R -> nanvar c' = Some 0%R /\
                forall y, In y (observed c') -> y = 0%R).
Proof.
  intros c.
  assert (H : observed c <> []) by (simpl; discriminate).
  split; [exact H|].
  exact (standard_scaler_standardises c H).
Defined.

Lemma numeric_columns_are_selected_witness :
  distinct (column_names demo_features) /\
  select_columns (non_object_columns demo_features) demo_features
  = Ok (map (fun nc => match snd nc with
                       | IntCol v => map (fun z => Some (IZR z)) v
                       | FloatCol v => v
                       | ObjCol _ => []
                       end)
            (List.filter (fun nc => negb (is_object (snd nc)))
                         (columns demo_features))).
Proof.
  assert (H : distinct (column_names demo_features)).
  { simpl. repeat split; intros H; intuition discriminate. }
  split; [exact H|].
  exact (numeric_columns_are_selected demo_features H).
Defined.

Lemma predict_proba_has_a_column_per_target_witness :
  let p := unfitted demo_features in
  let p' := match fit demo_lbfgs p demo_features demo_labels with
            | Ok q => q
            | Raise _ => p
            end in
  let a := match predict_proba p' demo_test with
           | Ok a => a
           | Raise _ => []
           end in
  fit demo_lbfgs p demo_features demo_labels = Ok p' /\
  predict_proba p' demo_test = Ok a /\
  length a = length (columns demo_labels) /\
  Forall (fun arr => length arr = length (index demo_test)) a /\
  forall k name c ys,
    nth_error (columns demo_labels) k = Some (name, c) ->
    encode_labels c = Ok (2%nat, ys) ->
    exists v, class_1 a k = Ok v /\ length v = length (index demo_test).
Proof.
  intros p p' a.
  assert (H1 : fit demo_lbfgs p demo_features demo_labels = Ok p')
    by (vm_compute; reflexivity).
  assert (H2 : predict_proba p' demo_test = Ok a)
    by (vm_compute; reflexivity).
  split; [exact H1|]. split; [exact H2|].
  exact (predict_proba_has_a_column_per_target demo_lbfgs p p'
           demo_features demo_labels demo_test a H1 H2).
Defined.

Lemma complete_run_requirements_witness :
  run Z demo_notebook demo_session
  = (None, snd (run Z demo_notebook demo_session)) /\
  exists f l t,
    read_csv Z demo_session training_set_features "respondent_id" = Ok f /\
    read_csv Z demo_session training_set_labels "respondent_id" = Ok l /\
    read_csv Z demo_session test_set_features "respondent_id" = Ok t /\
    has_column "h1n1_vaccine" (columns l) = true /\
    has_column "seasonal_vaccine" (columns l) = true /\
    (forall n, In n (column_names f) -> ~ In n (column_names l)) /\
    (forall c, In c cols_to_plot ->
               In c (column_names f) \/ In c (column_names l)) /\
    (forall n, In n (non_object_columns f) ->
               exists c, get_column n (columns t) = Some c /\
                         is_object c = false).
Proof.
  assert (H : run Z demo_notebook demo_session
              = (None, snd (run Z demo_notebook demo_session)))
    by (apply run_to_end; vm_compute; reflexivity).
  split; [exact H|].
  exact (complete_run_requirements Z (fun seed => seed)
           demo_split demo_lbfgs demo_disk 0 _ H).
Defined.

Lemma all_missing_columns_are_dropped_witness :
  let cols := [[None; None]; [Some 1%R; None]] in
  let cols' := [[Some 5%R]; [None]] in
  length cols' = length cols /\
  length (transform_columns (map numeric_fit cols) cols')
  = length (List.filter (fun c => match observed c with
                                  | [] => false
                                  | _ => true
                                  end) cols).
Proof.
  intros cols cols'.
  assert (H : length cols' = length cols) by reflexivity.
  split; [exact H|].
  exact (all_missing_columns_are_dropped cols cols' H).
Defined.

Lemma seeded_runs_are_identical_witness :
  let disk' := <[OUTPUT_DATA_PATH := demo_format]> demo_disk in
  same_inputs demo_disk disk' /\
  let r := run Z demo_notebook (fresh Z demo_disk 0) in
  let r' := run Z demo_notebook (fresh Z disk' 1) in
  fst r = fst r' /\
  globals Z (snd r) = globals Z (snd r') /\
  (fst r = None ->
   exists f l t train test X_train X_eval y_train y_eval p a p' a' out,
     read_csv Z (fresh Z demo_disk 0) training_set_features "respondent_id"
     = Ok f /\
     read_csv Z (fresh Z demo_disk 0) training_set_labels "respondent_id"
     = Ok l /\
     read_csv Z (fresh Z demo_disk 0) test_set_features "respondent_id"
     = Ok t /\
     demo_split 6 l
       (length (index f) - n_test_of (length (index f)))
       (n_test_of (length (index f))) = Some (train, test) /\
     iloc f train = Ok X_train /\ iloc f test = Ok X_eval /\
     iloc l train = Ok y_train /\ iloc l test = Ok y_eval /\
     fit demo_lbfgs (unfitted f) X_train y_train = Ok p /\
     predict_proba p X_eval = Ok a /\
     fit demo_lbfgs (unfitted f) f l = Ok p' /\
     predict_proba p' t = Ok a' /\
     forall s, s = snd r \/ s = snd r' ->
       globals Z s !! "X_train" = Some (VFrame X_train) /\
       globals Z s !! "X_eval" = Some (VFrame X_eval) /\
       globals Z s !! "y_train" = Some (VFrame y_train) /\
       globals Z s !! "y_eval" = Some (VFrame y_eval) /\
       globals Z s !! "preds" = Some (VProbas a) /\
       globals Z s !! "full_pipeline" = Some (VPipeline p') /\
       globals Z s !! "test_probas" = Some (VProbas a') /\
       files Z s !! OUTPUT_DATA_PATH = Some out).
Proof.
  intros disk'.
  assert (H : same_inputs demo_disk disk').
  { intros p Hp. unfold disk'. symmetry. apply lookup_insert_ne.
    simpl in Hp. intuition (subst; discriminate). }
  split; [exact H|].
  exact (seeded_runs_are_identical Z (fun seed => seed) demo_split
           demo_lbfgs demo_disk disk' 0 1 H).
Defined.

(** The notebook on table objects and the notebook on table values, run
    on the small survey: they stop or end alike, and the variables of
    the first show what the variables of the second hold. *)
Example demo_object_run_agrees :
  fst (orun Z demo_onotebook (fresh_kernel Z demo_disk 0))
  = fst (run Z demo_notebook demo_session) /\
  contents Z (snd (orun Z demo_onotebook (fresh_kernel Z demo_disk 0)))
  = snd (run Z demo_notebook demo_session).
Proof. split; vm_compute; reflexivity. Qed.
